(** * The automated data-quality profiler of [src/data_profiler.py]

    The class [DataProfiler] holds a pandas table ([self.df]) and a mutable
    dictionary ([self.profile]).  [generate_profile] fills the dictionary
    column by column, [suggest_quality_rules] walks it and derives the
    suggested rules.

    Conventions of the embedding.
    - In the profile, a binary64 number is a rational computed exactly, or
      NaN: [float] is [option Q] and every result is reduced to lowest
      terms, so that two equal numbers are the same term.  The rounding of
      each operation is not modelled there, and the statements on these
      numbers are on what does not depend on it: which formula is
      evaluated, in which order the results lie, what is NaN.
    - Where the rounding decides what is counted, in the two bounds of the
      test for outliers, the numbers are the binary64 numbers themselves
      ([B64], on [PrimFloat]).
    - The standard deviation needs a square root: it, and the two bounds
      computed from it, are real numbers or NaN ([rfloat]).
    - A missing cell (NaN, None, NaT) is [None].
    - A column is of dtype int64 or float64, of datetimes, or of text.  The
      other dtypes that pandas knows (bool, complex, categories, extension
      types) are not modelled, nor is a table with a duplicated label.
    - The pandas operations are written out with the semantics of the
      defaults the source relies on ([skipna=True], [ddof=1], linear
      interpolation of quantiles, [value_counts] sorted by decreasing
      count).  The order in which [value_counts] leaves equal counts is that
      of pandas' sort; here it is the order of first appearance, and no
      statement on the profiler depends on it.
    - A Python dict is an association list in insertion order.
    - Of what is printed, only the report of the rules is modelled;
      exceptions are. *)

From Stdlib Require Import List String Ascii Bool Arith ZArith QArith Qround.
From Stdlib Require Import Qabs Qminmax Qreals Reals Lia Lra Lqa DecimalString.
From Stdlib Require Import Permutation Sorted Qpower.
From Stdlib Require Floats.
Import ListNotations.

(** ** Python: exceptions, dictionaries, format specifications *)

Module Py.

Inductive Exception :=
| ZeroDivisionError
| KeyError (key : string).

Inductive Result (A : Type) :=
| Ok (a : A)
| Raise (e : Exception).
Arguments Ok {A} a.
Arguments Raise {A} e.

(** [dict]: keys are unique, iteration follows insertion order, and
    assigning to a key that is present keeps its position. *)
Definition dict (V : Type) := list (string * V).

Fixpoint get {V} (d : dict V) (k : string) : option V :=
  match d with
  | [] => None
  | (k', v) :: d' => if String.eqb k' k then Some v else get d' k
  end.

Fixpoint set {V} (d : dict V) (k : string) (v : V) : dict V :=
  match d with
  | [] => [(k, v)]
  | (k', v') :: d' =>
      if String.eqb k' k then (k', v) :: d' else (k', v') :: set d' k v
  end.

Definition keys {V} (d : dict V) : list string := map fst d.

(** [a / b] on Python integers. *)
Definition int_truediv (a b : nat) : Result Q :=
  match b with
  | O => Raise ZeroDivisionError
  | S _ => Ok (Qred (inject_Z (Z.of_nat a) / inject_Z (Z.of_nat b))%Q)
  end.

(** Digits of a natural number, and the [,] option of the format
    mini-language (a comma every three digits). *)
Definition digits (n : N) : list ascii :=
  list_ascii_of_string (NilZero.string_of_uint (N.to_uint n)).

Fixpoint group3 (l : list ascii) : list ascii :=
  match l with
  | a :: b :: c :: r =>
      match r with
      | [] => l
      | _ :: _ => a :: b :: c :: ","%char :: group3 r
      end
  | _ => l
  end.

Definition format_comma (n : nat) : string :=
  string_of_list_ascii (rev (group3 (rev (digits (N.of_nat n))))).

(** [.2f]: the number of hundredths nearest to the value, printed with two
    decimals.  Halfway between two hundredths the even one is taken here;
    Python rounds the binary64 number, which is exactly halfway only when
    it is an odd multiple of 1/8, so that it may print the other neighbour
    where the exact value is halfway. *)
Definition round_half_even (q : Q) : Z :=
  let n := Qfloor q in
  match ((q - inject_Z n) ?= (1 # 2))%Q with
  | Lt => n
  | Gt => (n + 1)%Z
  | Eq => if Z.even n then n else (n + 1)%Z
  end.

Definition pad2 (n : N) : list ascii :=
  match digits n with
  | [d] => ["0"%char; d]
  | ds => ds
  end.

Definition render_2f (negative : bool) (hundredths : Z) : string :=
  let h := Z.to_N hundredths in
  string_of_list_ascii
    ((if negative then ["-"%char] else [])
       ++ digits (h / 100)%N ++ "."%char :: pad2 (h mod 100)%N).

Definition format_2f (x : option Q) : string :=
  match x with
  | None => "nan"
  | Some q =>
      render_2f (negb (Qle_bool 0 q)) (round_half_even (Qabs q * 100)%Q)
  end.

(** The same on a real number. *)
Definition Rround_half_even (r : R) : Z :=
  let n := Int_part r in
  if Rlt_dec (frac_part r) (1 / 2)%R then n
  else if Rlt_dec (1 / 2)%R (frac_part r) then (n + 1)%Z
  else if Z.even n then n else (n + 1)%Z.

Definition Rformat_2f (x : option R) : string :=
  match x with
  | None => "nan"
  | Some r =>
      render_2f (if Rlt_dec r 0%R then true else false)
                (Rround_half_even (Rabs r * 100)%R)
  end.

End Py.

(** ** Numbers *)

(** [float]: an exact rational or NaN; [rfloat]: a real number or NaN. *)
Definition float := option Q.
Definition rfloat := option R.
Definition NaN {A} : option A := None.

Definition Qlt_bool (x y : Q) : bool := negb (Qle_bool y x).

Definition flift2 (op : Q -> Q -> Q) (a b : float) : float :=
  match a, b with
  | Some x, Some y => Some (Qred (op x y))
  | _, _ => NaN
  end.

Definition fsub := flift2 Qminus.
Definition fadd := flift2 Qplus.
Definition fmul := flift2 Qmult.

Definition rlift2 (op : R -> R -> R) (a b : rfloat) : rfloat :=
  match a, b with
  | Some x, Some y => Some (op x y)
  | _, _ => NaN
  end.

Definition rsub := rlift2 Rminus.
Definition radd := rlift2 Rplus.
Definition rmul := rlift2 Rmult.

Definition to_real (a : float) : rfloat := option_map Q2R a.

(** ** pandas: series, tables and the operations the profiler calls *)

Module pd.

Inductive NumDtype := int64 | float64.

(** A column, by the kind of its dtype: int64 or float64 (for which
    [is_numeric_dtype] holds), datetimes ([is_datetime64_any_dtype]), or
    text.  A timestamp is a number of nanoseconds. *)
Inductive Series :=
| Numeric (dtype : NumDtype) (values : list (option Q))
| Datetime (values : list (option Z))
| Object (values : list (option string)).

(** A table: named columns in column order.  In a well-formed table the
    names are distinct and the columns have the same length; [getitem] is
    [df[column]] for a table with distinct names. *)
Definition DataFrame := list (string * Series).

Definition columns (df : DataFrame) : list string := map fst df.

Fixpoint getitem (df : DataFrame) (column : string) : option Series :=
  match df with
  | [] => None
  | (name, s) :: df' =>
      if String.eqb name column then Some s else getitem df' column
  end.

Definition len (s : Series) : nat :=
  match s with
  | Numeric _ v => List.length v
  | Datetime v => List.length v
  | Object v => List.length v
  end.

Definition well_formed (df : DataFrame) (rows : nat) : Prop :=
  NoDup (columns df) /\ Forall (fun c => len (snd c) = rows) df.

Definition dtype_str (s : Series) : string :=
  match s with
  | Numeric int64 _ => "int64"
  | Numeric float64 _ => "float64"
  | Datetime _ => "datetime64[ns]"
  | Object _ => "object"
  end.

Section Cells.
Context {A : Type}.

Definition isnull (c : option A) : bool :=
  match c with None => true | Some _ => false end.

(** [s.isnull().sum()] *)
Definition isnull_sum (l : list (option A)) : nat :=
  List.length (filter isnull l).

(** [s.dropna()] *)
Fixpoint dropna (l : list (option A)) : list A :=
  match l with
  | [] => []
  | Some v :: l' => v :: dropna l'
  | None :: l' => dropna l'
  end.

(** [s.count()]: the number of non-null cells. *)
Definition count (l : list (option A)) : nat := List.length (dropna l).

Variable eqb : A -> A -> bool.

(** The distinct values, in order of first appearance. *)
Fixpoint unique (l : list A) : list A :=
  match l with
  | [] => []
  | x :: l' => x :: filter (fun y => negb (eqb x y)) (unique l')
  end.

(** [s.nunique()]: nulls are not counted. *)
Definition nunique (l : list (option A)) : nat :=
  List.length (unique (dropna l)).

Definition occurrences (x : A) (l : list A) : nat :=
  List.length (filter (eqb x) l).

(** Sorting by decreasing count.  The entries are inserted from the last
    to the first, each before the entries whose count is not larger, so
    that entries with the same count stay in their order (pandas does not
    promise this order for equal counts). *)
Fixpoint insert_desc (e : A * nat) (l : list (A * nat)) : list (A * nat) :=
  match l with
  | [] => [e]
  | e' :: l' =>
      if snd e' <=? snd e then e :: l else e' :: insert_desc e l'
  end.

Definition sort_desc (l : list (A * nat)) : list (A * nat) :=
  fold_right insert_desc [] l.

(** [s.value_counts()]: the non-null values with their numbers of
    occurrences, most frequent first. *)
Definition value_counts (l : list (option A)) : list (A * nat) :=
  let v := dropna l in
  sort_desc (map (fun x => (x, occurrences x v)) (unique v)).
End Cells.

(** [.head(n)] *)
Definition head {A} (n : nat) (l : list A) : list A := firstn n l.

(** *** Statistics of a numeric column (nulls are skipped) *)

Definition sum (l : list Q) : Q := fold_left Qplus l 0%Q.

Definition of_nat (n : nat) : Q := inject_Z (Z.of_nat n).

Fixpoint insert (x : Q) (l : list Q) : list Q :=
  match l with
  | [] => [x]
  | y :: l' => if Qle_bool x y then x :: l else y :: insert x l'
  end.

Definition sort (l : list Q) : list Q := fold_right insert [] l.

Definition min (l : list (option Q)) : float :=
  match dropna l with
  | [] => NaN
  | x :: v => Some (Qred (fold_left Qmin v x))
  end.

Definition max (l : list (option Q)) : float :=
  match dropna l with
  | [] => NaN
  | x :: v => Some (Qred (fold_left Qmax v x))
  end.

Definition mean (l : list (option Q)) : float :=
  match dropna l with
  | [] => NaN
  | v => Some (Qred (sum v / of_nat (List.length v)))
  end.

(** [s.quantile(q)], linear interpolation between the two order
    statistics around position [q * (n - 1)]. *)
Definition quantile (q : Q) (l : list (option Q)) : float :=
  let s := sort (dropna l) in
  match List.length s with
  | O => NaN
  | S n1 =>
      let pos := (q * of_nat n1)%Q in
      let lo := Z.to_nat (Qfloor pos) in
      let a := nth lo s 0%Q in
      let b := nth (Nat.min (S lo) n1) s 0%Q in
      Some (Qred (a + (b - a) * (pos - of_nat lo)))
  end.

Definition median (l : list (option Q)) : float := quantile (1 # 2) l.

(** The variance with [ddof] degrees of freedom removed: NaN unless more
    than [ddof] values are present. *)
Definition var (ddof : nat) (l : list (option Q)) : float :=
  let v := dropna l in
  let n := List.length v in
  if n <=? ddof then NaN
  else
    let m := (sum v / of_nat n)%Q in
    let squares := map (fun x => (x - m) * (x - m))%Q v in
    Some (Qred (sum squares / of_nat (n - ddof))).

(** [s.std()]: [ddof] defaults to 1. *)
Definition std (l : list (option Q)) : rfloat :=
  option_map (fun v => sqrt (Q2R v)) (var 1 l).

(** [s < bound], [s > bound], [s == x] on one cell: a comparison with a
    null or with NaN is false. *)
Definition lt_scalar (c : option Q) (bound : float) : bool :=
  match c, bound with
  | Some x, Some b => Qlt_bool x b
  | _, _ => false
  end.

Definition gt_scalar (c : option Q) (bound : float) : bool :=
  lt_scalar bound c.

Definition eq_scalar (c : option Q) (x : Q) : bool :=
  match c with
  | Some v => Qeq_bool v x
  | None => false
  end.

(** *** Timestamps *)

Inductive Timestamp := NaT | at_ns (t : Z).

Definition dt_min (l : list (option Z)) : Timestamp :=
  match dropna l with
  | [] => NaT
  | x :: v => at_ns (fold_left Z.min v x)
  end.

Definition dt_max (l : list (option Z)) : Timestamp :=
  match dropna l with
  | [] => NaT
  | x :: v => at_ns (fold_left Z.max v x)
  end.

End pd.

Definition flt (a b : float) : bool :=
  match a, b with
  | Some x, Some y => Qlt_bool x y
  | _, _ => false
  end.

(** [a / b] with [a] a numpy integer: no exception, [0 / 0] is NaN.  (The
    numerators below never exceed the denominator, so no infinity arises.) *)
Definition np_truediv (a b : nat) : float :=
  match b with
  | O => NaN
  | S _ => Some (Qred (pd.of_nat a / pd.of_nat b))
  end.

(** ** The profiler *)

Module DataProfiler.

Inductive Value :=
| VNum (q : Q)
| VTime (t : Z)
| VStr (s : string).

(** The keys that [_profile_column] adds for a numeric column. *)
Record NumericStats := {
  min : float;
  max : float;
  mean : float;
  median : float;
  std : rfloat;
  q1 : float;
  q3 : float;
  outlier_count : nat;
  outlier_percentage : float;
  suggested_min : rfloat;
  suggested_max : rfloat
}.

(** The keys added by the branch taken: ['min' in profile] holds exactly
    for [numeric], ['min_date' in profile] exactly for [datetime]. *)
Inductive KindBlock :=
| numeric (stats : NumericStats)
| datetime (min_date max_date : pd.Timestamp)
| categorical (most_common : Py.dict nat).

Record ColumnProfile := {
  dtype : string;
  null_count : nat;
  null_percentage : float;
  unique_count : nat;
  sample_values : list Value;
  block : KindBlock
}.

Definition has_min (p : ColumnProfile) : bool :=
  match block p with numeric _ => true | _ => false end.

(** The object: [self.df] and [self.profile]. *)
Record t := {
  df : pd.DataFrame;
  profile : Py.dict ColumnProfile
}.

Definition __init__ (df : pd.DataFrame) : t :=
  {| df := df; profile := [] |}.

(** A method reads and updates the object and returns or raises. *)
Definition M (A : Type) : Type := t -> Py.Result A * t.

Definition ret {A} (a : A) : M A := fun self => (Py.Ok a, self).

Definition lift {A} (r : Py.Result A) : M A := fun self => (r, self).

Definition bind {A B} (m : M A) (f : A -> M B) : M B :=
  fun self =>
    match m self with
    | (Py.Ok a, self') => f a self'
    | (Py.Raise e, self') => (Py.Raise e, self')
    end.

Notation "x <- m ;; k" := (bind m (fun x => k))
  (at level 61, m at next level, right associativity).

(** [self.df[column]] *)
Definition df_getitem (column : string) : M pd.Series :=
  fun self =>
    match pd.getitem (df self) column with
    | Some s => (Py.Ok s, self)
    | None => (Py.Raise (Py.KeyError column), self)
    end.

Definition get_profile : M (Py.dict ColumnProfile) :=
  fun self => (Py.Ok (profile self), self).

(** [self.profile[column] = col_profile] *)
Definition profile_setitem (column : string) (p : ColumnProfile) : M unit :=
  fun self =>
    (Py.Ok tt, {| df := df self; profile := Py.set (profile self) column p |}).

(** *** [_profile_column] *)

Definition is_outlier (lower_bound upper_bound : float) (c : option Q) : bool :=
  pd.lt_scalar c lower_bound || pd.gt_scalar c upper_bound.

Definition numeric_stats (values : list (option Q)) : Py.Result NumericStats :=
  let min_ := pd.min values in
  let max_ := pd.max values in
  let mean_ := pd.mean values in
  let median_ := pd.median values in
  let std_ := pd.std values in
  let q1_ := pd.quantile (1 # 4) values in
  let q3_ := pd.quantile (3 # 4) values in
  let iqr := fsub q3_ q1_ in
  let lower_bound := fsub q1_ (fmul (Some (3 # 2)) iqr) in
  let upper_bound := fadd q3_ (fmul (Some (3 # 2)) iqr) in
  let outliers := filter (is_outlier lower_bound upper_bound) values in
  match Py.int_truediv (List.length outliers) (List.length values) with
  | Py.Raise e => Py.Raise e
  | Py.Ok ratio =>
      Py.Ok {| min := min_; max := max_; mean := mean_; median := median_;
               std := std_; q1 := q1_; q3 := q3_;
               outlier_count := List.length outliers;
               outlier_percentage := Some (Qred (ratio * 100));
               suggested_min := rsub (to_real mean_) (rmul (Some 3%R) std_);
               suggested_max := radd (to_real mean_) (rmul (Some 3%R) std_) |}
  end.

Section Common.
Context {A : Type} (eqb : A -> A -> bool) (inj : A -> Value).

(** The entries every column gets, completed by the block of its kind. *)
Definition common (dtype : string) (cells : list (option A))
    (b : KindBlock) : ColumnProfile :=
  {| dtype := dtype;
     null_count := pd.isnull_sum cells;
     null_percentage :=
       fmul (np_truediv (pd.isnull_sum cells) (List.length cells)) (Some 100);
     unique_count := pd.nunique eqb cells;
     sample_values := map inj (pd.head 5 (pd.dropna cells));
     block := b |}.
End Common.

Definition profile_series (col_data : pd.Series) : Py.Result ColumnProfile :=
  let dt := pd.dtype_str col_data in
  match col_data with
  | pd.Numeric _ values =>
      match numeric_stats values with
      | Py.Raise e => Py.Raise e
      | Py.Ok stats => Py.Ok (common Qeq_bool VNum dt values (numeric stats))
      end
  | pd.Datetime values =>
      Py.Ok (common Z.eqb VTime dt values
               (datetime (pd.dt_min values) (pd.dt_max values)))
  | pd.Object values =>
      Py.Ok (common String.eqb VStr dt values
               (categorical (pd.head 5 (pd.value_counts String.eqb values))))
  end.

Definition _profile_column (column : string) : M ColumnProfile :=
  col_data <- df_getitem column ;;
  lift (profile_series col_data).

(** *** [generate_profile] *)

Fixpoint profile_loop (columns : list string) : M unit :=
  match columns with
  | [] => ret tt
  | column :: rest =>
      col_profile <- _profile_column column ;;
      _ <- profile_setitem column col_profile ;;
      profile_loop rest
  end.

Definition generate_profile : M (Py.dict ColumnProfile) :=
  fun self => (_ <- profile_loop (pd.columns (df self)) ;; get_profile) self.

(** *** [suggest_quality_rules] *)

Inductive RuleName := not_null | value_range | warn_zeros.

Inductive Severity := error | warning.

(** A rule is a dict with the keys ['rule'] and ['description'], for
    [value_range] also ['min'] and ['max'] ([bounds]), and for [warn_zeros]
    also ['severity']. *)
Record Rule := {
  rule : RuleName;
  bounds : option (rfloat * rfloat);
  description : string;
  severity : option Severity
}.

(** [rule.get('severity', 'error')] *)
Definition get_severity (r : Rule) : Severity :=
  match severity r with
  | Some s => s
  | None => error
  end.

Definition not_null_rule (column : string) (p : ColumnProfile) : Rule :=
  {| rule := not_null;
     bounds := None;
     description :=
       column ++ " should not be null (currently "
         ++ Py.format_2f (null_percentage p) ++ "% null)";
     severity := None |}.

Definition value_range_rule (column : string) (s : NumericStats) : Rule :=
  {| rule := value_range;
     bounds := Some (suggested_min s, suggested_max s);
     description :=
       column ++ " should be between " ++ Py.Rformat_2f (suggested_min s)
         ++ " and " ++ Py.Rformat_2f (suggested_max s);
     severity := None |}.

Definition warn_zeros_rule (column : string) (zero_count : nat) : Rule :=
  {| rule := warn_zeros;
     bounds := None;
     description :=
       column ++ " has " ++ Py.format_comma zero_count
         ++ " zero values - verify if valid";
     severity := Some warning |}.

(** [(s == 0).sum()]: no cell of a column that is not numeric equals 0. *)
Definition zero_sum (s : pd.Series) : nat :=
  match s with
  | pd.Numeric _ values =>
      List.length (filter (fun c => pd.eq_scalar c 0) values)
  | _ => O
  end.

(** The body of the loop, up to the test [if column_rules]. *)
Definition column_rules (column : string) (p : ColumnProfile) : M (list Rule) :=
  let rules1 :=
    if flt (null_percentage p) (Some 5) then [not_null_rule column p] else []
  in
  match block p with
  | numeric s =>
      let rules2 := rules1 ++ [value_range_rule column s] in
      col_data <- df_getitem column ;;
      let zero_count := zero_sum col_data in
      ret (if 0 <? zero_count
           then rules2 ++ [warn_zeros_rule column zero_count]
           else rules2)
  | _ => ret rules1
  end.

Fixpoint rules_loop (items : list (string * ColumnProfile))
    (rules : Py.dict (list Rule)) : M (Py.dict (list Rule)) :=
  match items with
  | [] => ret rules
  | (column, p) :: rest =>
      rs <- column_rules column p ;;
      rules_loop rest
        (match rs with
         | [] => rules
         | _ :: _ => Py.set rules column rs
         end)
  end.

Definition suggest_quality_rules : M (Py.dict (list Rule)) :=
  items <- get_profile ;;
  rules_loop items [].

End DataProfiler.

(** ** Notions the statements below are written with *)

Definition null_cells (s : pd.Series) : nat :=
  match s with
  | pd.Numeric _ v => pd.isnull_sum v
  | pd.Datetime v => pd.isnull_sum v
  | pd.Object v => pd.isnull_sum v
  end.

Definition non_null_cells (s : pd.Series) : nat :=
  match s with
  | pd.Numeric _ v => pd.count v
  | pd.Datetime v => pd.count v
  | pd.Object v => pd.count v
  end.

(** The null fraction of a column that has at least one row. *)
Definition null_fraction (s : pd.Series) : Q :=
  pd.of_nat (null_cells s) / pd.of_nat (pd.len s).

Definition all_null (s : pd.Series) : Prop :=
  null_cells s = pd.len s.

Definition is_numeric (s : pd.Series) : bool :=
  match s with pd.Numeric _ _ => true | _ => false end.

(** The column has a cell that is exactly zero. *)
Definition has_zero (values : list (option Q)) : Prop :=
  exists x, In (Some x) values /\ (x == 0)%Q.

(** The standard deviation of real numbers with divisor [n - ddof]: the
    sample standard deviation for [ddof = 1], the population standard
    deviation for [ddof = 0]. *)
Definition Rsum (l : list R) : R := fold_right Rplus 0%R l.

Definition Rmean (l : list R) : R := (Rsum l / INR (List.length l))%R.

Definition Rstd (ddof : nat) (l : list R) : R :=
  sqrt (Rsum (map (fun x => (x - Rmean l) * (x - Rmean l))%R l)
          / (INR (List.length l) - INR ddof))%R.

Definition population_std (values : list (option Q)) : rfloat :=
  match pd.dropna values with
  | [] => NaN
  | v => Some (Rstd 0 (map Q2R v))
  end.

(** A value lies strictly outside the fences [q1 - 1.5 iqr, q3 + 1.5 iqr]. *)
Definition strictly_outside (q1 q3 x : Q) : Prop :=
  (x < q1 - (3 # 2) * (q3 - q1) \/ q3 + (3 # 2) * (q3 - q1) < x)%Q.

(** The position of the first cell that holds [x]. *)
Fixpoint first_index (x : string) (l : list string) : nat :=
  match l with
  | [] => O
  | y :: l' => if String.eqb x y then O else S (first_index x l')
  end.

(** [e1] is listed before [e2]: it is more frequent, or as frequent and
    met earlier in the column. *)
Definition ranks_before (v : list string) (e1 e2 : string * nat) : Prop :=
  (snd e2 < snd e1
   \/ (snd e1 = snd e2 /\ first_index (fst e1) v < first_index (fst e2) v))%nat.

(** The rules of a column, without their payload. *)
Definition shape (r : DataProfiler.Rule) :
    DataProfiler.RuleName * DataProfiler.Severity :=
  (DataProfiler.rule r, DataProfiler.get_severity r).

Definition has_rules (rules : Py.dict (list DataProfiler.Rule))
    (column : string) : bool :=
  match Py.get rules column with
  | Some _ => true
  | None => false
  end.

(** Running [generate_profile] and then [suggest_quality_rules] on a new
    profiler. *)
Definition run (df : pd.DataFrame) :
    Py.Result (Py.dict DataProfiler.ColumnProfile
               * Py.dict (list DataProfiler.Rule)) :=
  match DataProfiler.generate_profile (DataProfiler.__init__ df) with
  | (Py.Raise e, _) => Py.Raise e
  | (Py.Ok profile, self) =>
      match DataProfiler.suggest_quality_rules self with
      | (Py.Raise e, _) => Py.Raise e
      | (Py.Ok rules, _) => Py.Ok (profile, rules)
      end
  end.

(** [prof] holds the entries of the columns [cols], which all have one. *)
Definition profiled (cols : pd.DataFrame)
    (prof : Py.dict DataProfiler.ColumnProfile) : Prop :=
  Forall2 (fun c e =>
             fst e = fst c /\ DataProfiler.profile_series (snd c) = Py.Ok (snd e))
          cols prof.

(** The rules of a column as a function of its name, its entry of the
    profile and the number of zeros of the column in the table. *)
Definition rules_of (column : string) (p : DataProfiler.ColumnProfile)
    (zero_count : nat) : list DataProfiler.Rule :=
  (if flt (DataProfiler.null_percentage p) (Some 5)
   then [DataProfiler.not_null_rule column p] else [])
    ++ match DataProfiler.block p with
       | DataProfiler.numeric s =>
           DataProfiler.value_range_rule column s
             :: (if (0 <? zero_count)%nat
                 then [DataProfiler.warn_zeros_rule column zero_count]
                 else [])
       | _ => []
       end.

Definition nonempty_entry (kv : string * list DataProfiler.Rule) : bool :=
  match snd kv with
  | [] => false
  | _ :: _ => true
  end.

(** [rss] lists the rules that the loop computes for the entries [items]. *)
Definition computed (self : DataProfiler.t)
    (items : Py.dict DataProfiler.ColumnProfile)
    (rss : list (list DataProfiler.Rule)) : Prop :=
  Forall2 (fun it rs =>
             fst (DataProfiler.column_rules (fst it) (snd it) self) = Py.Ok rs)
          items rss.

(** The dictionary of rules built from them: the columns without a rule
    are left out. *)
Definition rules_dict (items : Py.dict DataProfiler.ColumnProfile)
    (rss : list (list DataProfiler.Rule)) : Py.dict (list DataProfiler.Rule) :=
  filter nonempty_entry (combine (Py.keys items) rss).

(** The fences and the outliers of [_profile_column]. *)
Definition lower_fence (values : list (option Q)) : float :=
  let q1 := pd.quantile (1 # 4) values in
  let q3 := pd.quantile (3 # 4) values in
  fsub q1 (fmul (Some (3 # 2)) (fsub q3 q1)).

Definition upper_fence (values : list (option Q)) : float :=
  let q1 := pd.quantile (1 # 4) values in
  let q3 := pd.quantile (3 # 4) values in
  fadd q3 (fmul (Some (3 # 2)) (fsub q3 q1)).

Definition outliers (values : list (option Q)) : list (option Q) :=
  filter (DataProfiler.is_outlier (lower_fence values) (upper_fence values))
         values.

(** ** Sample tables *)

(** Fifty fares: one is missing (2%), one is zero. *)
Definition fares : list (option Q) :=
  None :: Some 0%Q :: repeat (Some (25 # 2)) 48.

Definition trips : pd.DataFrame :=
  [("fare"%string, pd.Numeric pd.float64 fares);
   ("zone"%string, pd.Object (repeat (Some "JFK"%string) 50))].

(** One missing cell out of 201, and one out of 202. *)
Definition vendors_201 : list (option string) :=
  None :: repeat (Some "CMT"%string) 200.

Definition vendors_202 : list (option string) :=
  None :: repeat (Some "CMT"%string) 201.


Definition vendor_table (cells : list (option string)) : pd.DataFrame :=
  [("vendor"%string, pd.Object cells)].

Definition object_profile (cells : list (option string)) :
    DataProfiler.ColumnProfile :=
  DataProfiler.common String.eqb DataProfiler.VStr "object"%string cells
    (DataProfiler.categorical (pd.head 5 (pd.value_counts String.eqb cells))).

(** The names and the descriptions of the rules of a run. *)
Definition rule_texts
    (res : Py.Result (Py.dict DataProfiler.ColumnProfile
                      * Py.dict (list DataProfiler.Rule))) :
    option (list (string * list (DataProfiler.RuleName * string))) :=
  match res with
  | Py.Ok (_, rules) =>
      Some (map (fun kv =>
                   (fst kv,
                    map (fun r => (DataProfiler.rule r, DataProfiler.description r))
                        (snd kv)))
                rules)
  | Py.Raise _ => None
  end.


Definition three_values : list (option Q) := [Some 0%Q; Some 2%Q; Some 4%Q].


(** The statistics of [0, 2, 4]. *)
Definition three_stats : DataProfiler.NumericStats :=
  {| DataProfiler.min := Some 0%Q;
     DataProfiler.max := Some 4%Q;
     DataProfiler.mean := Some 2%Q;
     DataProfiler.median := Some 2%Q;
     DataProfiler.std := pd.std three_values;
     DataProfiler.q1 := Some 1%Q;
     DataProfiler.q3 := Some 3%Q;
     DataProfiler.outlier_count := 0;
     DataProfiler.outlier_percentage := Some 0%Q;
     DataProfiler.suggested_min :=
       rsub (Some (Q2R 2)) (rmul (Some 3%R) (pd.std three_values));
     DataProfiler.suggested_max :=
       radd (Some (Q2R 2)) (rmul (Some 3%R) (pd.std three_values)) |}.


Definition fives : list (option Q) := repeat (Some 5%Q) 5.
Definition fives_and_100 : list (option Q) :=
  repeat (Some 5%Q) 4 ++ [Some 100%Q].


(** The statistics [_profile_column] computes for a numeric column that
    has at least one row. *)
Definition stats_of (values : list (option Q)) : DataProfiler.NumericStats :=
  {| DataProfiler.min := pd.min values;
     DataProfiler.max := pd.max values;
     DataProfiler.mean := pd.mean values;
     DataProfiler.median := pd.median values;
     DataProfiler.std := pd.std values;
     DataProfiler.q1 := pd.quantile (1 # 4) values;
     DataProfiler.q3 := pd.quantile (3 # 4) values;
     DataProfiler.outlier_count := List.length (outliers values);
     DataProfiler.outlier_percentage :=
       fmul (np_truediv (List.length (outliers values)) (List.length values))
            (Some 100%Q);
     DataProfiler.suggested_min :=
       rsub (to_real (pd.mean values)) (rmul (Some 3%R) (pd.std values));
     DataProfiler.suggested_max :=
       radd (to_real (pd.mean values)) (rmul (Some 3%R) (pd.std values)) |}.


(** Tables without rows. *)
Definition no_rows : pd.DataFrame :=
  [("zone"%string, pd.Object []);
   ("fare"%string, pd.Numeric pd.float64 []);
   ("pickup"%string, pd.Datetime [])].

Definition no_rows_no_numbers : pd.DataFrame :=
  [("zone"%string, pd.Object []); ("pickup"%string, pd.Datetime [])].

Definition not_numeric (c : string * pd.Series) : Prop :=
  is_numeric (snd c) = false.


(** A column of three missing tips. *)
Definition no_tips : list (option Q) := [None; None; None].

Definition all_null_tips : pd.DataFrame :=
  [("tip"%string, pd.Numeric pd.float64 no_tips)].


(** Two columns of twenty-two numbers with the same statistics (mean 8):
    eighteen times 10, once -10, and then 0, 3, 3 in the one and 1, 1, 4 in
    the other. *)
Definition with_zero : list (option Q) :=
  repeat (Some 10%Q) 18 ++ [Some (-10)%Q; Some 0%Q; Some 3%Q; Some 3%Q].

Definition without_zero : list (option Q) :=
  repeat (Some 10%Q) 18 ++ [Some (-10)%Q; Some 1%Q; Some 1%Q; Some 4%Q].

Definition numeric_profile (dt : pd.NumDtype) (values : list (option Q)) :
    DataProfiler.ColumnProfile :=
  DataProfiler.common Qeq_bool DataProfiler.VNum
    (pd.dtype_str (pd.Numeric dt values)) values
    (DataProfiler.numeric (stats_of values)).

(** The number of zeros that [suggest_quality_rules] reads in the table. *)
Definition zero_count_in (df : pd.DataFrame) (column : string) : option nat :=
  option_map DataProfiler.zero_sum (pd.getitem df column).


Definition fare_table (values : list (option Q)) : pd.DataFrame :=
  [("fare"%string, pd.Numeric pd.int64 values)].


Definition letters : list (option string) :=
  [Some "a"; Some "a"; Some "b"; Some "c"; Some "a"; Some "b"]%string.


(** The column meets the value of [e1] before that of [e2]. *)
Definition met_earlier (v : list string) (e1 e2 : string * nat) : Prop :=
  (first_index (fst e1) v < first_index (fst e2) v)%nat.


(** ** What [suggest_quality_rules] prints (lines 160 to 165) *)

Module Printed.

(** [s.upper()] on ASCII letters. *)
Definition upper_char (c : ascii) : ascii :=
  let n := nat_of_ascii c in
  if ((97 <=? n) && (n <=? 122))%nat then ascii_of_nat (n - 32) else c.

Fixpoint upper (s : string) : string :=
  match s with
  | EmptyString => EmptyString
  | String c s' => String (upper_char c) (upper s')
  end.

(** The strings that the source uses for severities. *)
Definition severity_str (s : DataProfiler.Severity) : string :=
  match s with
  | DataProfiler.error => "error"
  | DataProfiler.warning => "warning"
  end.

Definition newline : string := String (ascii_of_nat 10) EmptyString.

(** One string for each call of [print]. *)
Definition rule_line (r : DataProfiler.Rule) : string :=
  ("  [" ++ upper (severity_str (DataProfiler.get_severity r)) ++ "] "
     ++ DataProfiler.description r)%string.

Definition column_lines (kv : string * list DataProfiler.Rule) : list string :=
  (newline ++ fst kv ++ ":")%string :: map rule_line (snd kv).

Definition rules_report (rules : Py.dict (list DataProfiler.Rule)) : list string :=
  flat_map column_lines rules.

End Printed.

(** ** Further notions *)

(** Order on numbers: nothing is below or above NaN. *)
Definition fle (a b : float) : Prop :=
  match a, b with
  | Some x, Some y => (x <= y)%Q
  | _, _ => False
  end.

Definition numeric_column (c : string * pd.Series) : Prop :=
  is_numeric (snd c) = true.

(** The number of cells equal to zero. *)
Definition zero_cells (values : list (option Q)) : nat :=
  List.length (filter (fun c => pd.eq_scalar c 0) values).

(** The total of the counts of a dictionary of counts. *)
Definition total (counts : Py.dict nat) : nat :=
  fold_right (fun kv n => (snd kv + n)%nat) O counts.

(** The shapes that a list of rules can have. *)
Definition rule_shapes : list (list (DataProfiler.RuleName * DataProfiler.Severity)) :=
  [ [];
    [(DataProfiler.not_null, DataProfiler.error)];
    [(DataProfiler.value_range, DataProfiler.error)];
    [(DataProfiler.not_null, DataProfiler.error);
     (DataProfiler.value_range, DataProfiler.error)];
    [(DataProfiler.value_range, DataProfiler.error);
     (DataProfiler.warn_zeros, DataProfiler.warning)];
    [(DataProfiler.not_null, DataProfiler.error);
     (DataProfiler.value_range, DataProfiler.error);
     (DataProfiler.warn_zeros, DataProfiler.warning)] ].


(** The entry is numeric and its column is missing from the table. *)
Definition stale (df : pd.DataFrame) (item : string * DataProfiler.ColumnProfile) : Prop :=
  DataProfiler.has_min (snd item) = true /\ pd.getitem df (fst item) = None.

(** A profiler whose table was replaced after profiling. *)
Definition fare_profiler_without_table : DataProfiler.t :=
  {| DataProfiler.df := [];
     DataProfiler.profile :=
       [("zone"%string, object_profile vendors_201);
        ("fare"%string, numeric_profile pd.int64 with_zero)] |}.


(** The value that [quantile] reads at position [pos] of the sorted values
    [s], whose last index is [n1]. *)
Definition interpolate (s : list Q) (n1 : nat) (pos : Q) : Q :=
  let lo := Z.to_nat (Qfloor pos) in
  let a := nth lo s 0%Q in
  let b := nth (Nat.min (S lo) n1) s 0%Q in
  (a + (b - a) * (pos - pd.of_nat lo))%Q.


(** The tag under which a rule is expected in the report. *)
Definition tag (r : DataProfiler.Rule) : string :=
  match DataProfiler.rule r with
  | DataProfiler.warn_zeros => "WARNING"
  | _ => "ERROR"
  end.

(** ** Binary64: the bounds and the test of the outliers (lines 68 to 73)

    The two quartiles stored in the entry are binary64 numbers, and the
    interquartile range and the two bounds are computed from them with
    binary64 operations, each of which rounds to the nearest number.  Here
    the numbers are those of [PrimFloat], with NaN for a missing cell; the
    cells of an int64 column are compared as binary64 numbers. *)

Module B64.
Import PrimFloat SpecFloat FloatOps.

(** The value of a finite number: NaN and the infinities have none. *)
Definition of_spec (f : spec_float) : option Q :=
  match f with
  | S754_zero _ => Some 0%Q
  | S754_finite s m e =>
      Some (Qred (inject_Z (if s then Z.neg m else Z.pos m) * 2 ^ e))
  | _ => None
  end.

Definition value (x : PrimFloat.float) : option Q := of_spec (Prim2SF x).

(** The magnitude of a finite number that is not zero, and the comparison
    of two magnitudes as the comparison of binary64 numbers makes it:
    exponents first, then mantissas. *)
Definition mag (m : positive) (e : Z) : Q := (inject_Z (Z.pos m) * 2 ^ e)%Q.

Definition cmp_mag (m1 : positive) (e1 : Z) (m2 : positive) (e2 : Z) :
    comparison :=
  match Z.compare e1 e2 with
  | Lt => Lt
  | Gt => Gt
  | Eq => Pos.compare_cont Eq m1 m2
  end.

(** [isnull] on a cell of a float column. *)
Definition isnull (c : PrimFloat.float) : bool := negb (c =? c)%float.

Definition iqr (q1 q3 : PrimFloat.float) : PrimFloat.float := (q3 - q1)%float.

Definition lower_bound (q1 q3 : PrimFloat.float) : PrimFloat.float :=
  (q1 - 1.5 * iqr q1 q3)%float.

Definition upper_bound (q1 q3 : PrimFloat.float) : PrimFloat.float :=
  (q3 + 1.5 * iqr q1 q3)%float.

(** [(col_data < lower_bound) | (col_data > upper_bound)] on one cell. *)
Definition is_outlier (lower_bound upper_bound c : PrimFloat.float) : bool :=
  (c <? lower_bound)%float || (upper_bound <? c)%float.

Definition outliers (q1 q3 : PrimFloat.float)
    (col_data : list PrimFloat.float) : list PrimFloat.float :=
  filter (is_outlier (lower_bound q1 q3) (upper_bound q1 q3)) col_data.

Definition outlier_count (q1 q3 : PrimFloat.float)
    (col_data : list PrimFloat.float) : nat :=
  List.length (outliers q1 q3 col_data).

(** The factor of the interquartile range, for the statements. *)
Definition three_halves : PrimFloat.float := 1.5%float.

(** The columns [5, 5, 5, 5, 5] and [5, 5, 5, 5, 100], whose quartiles are
    both 5. *)
Definition five : PrimFloat.float := 5%float.
Definition hundred : PrimFloat.float := 100%float.
Definition fives : list PrimFloat.float := repeat five 5.
Definition fives_and_100 : list PrimFloat.float := repeat five 4 ++ [hundred].

(** The column [0.1, 0.1, 0.7, 1.3, 3.1]: its quartiles are the cells 0.1
    and 1.3, and 3.1 is its largest value. *)
Definition tenths_q1 : PrimFloat.float := 0.1%float.
Definition tenths_q3 : PrimFloat.float := 1.3%float.
Definition tenths_max : PrimFloat.float := 3.1%float.
Definition tenths : list PrimFloat.float :=
  [tenths_q1; tenths_q1; 0.7%float; tenths_q3; tenths_max].

End B64.

(** ** Printed digits, counts of values and magnitudes *)

(** [h] hundredths is a number with two decimals nearest to [q]. *)
Definition nearest_hundredths (q : Q) (h : Z) : Prop :=
  (Qabs (inject_Z h - q * 100) <= 1 # 2)%Q.

(** [e1] is at least as frequent as [e2]. *)
Definition count_ge (e1 e2 : string * nat) : Prop :=
  (snd e2 <= snd e1)%nat.

(** [counts] counts the non-null cells of a text column: each value once,
    with its number of occurrences, the more frequent values first.  The
    order of values with equal counts is left open. *)
Definition counts_of (cells : list (option string)) (counts : Py.dict nat) :
    Prop :=
  (forall x n,
      In (x, n) counts
      <-> In x (pd.dropna cells)
          /\ n = count_occ string_dec (pd.dropna cells) x)
  /\ NoDup (Py.keys counts)
  /\ StronglySorted count_ge counts.

(** No sum or difference of two values of the column overflows: every value
    has a magnitude of at most 1e300. *)
Definition moderate (values : list (option Q)) : Prop :=
  forall x, In (Some x) values -> (Qabs x <= inject_Z (10 ^ 300))%Q.

(** * Properties *)

Module DP := DataProfiler.

(** ** Dictionaries *)

Section DictFacts.
Context {V : Type}.
Implicit Types (d : Py.dict V) (k : string) (v : V).

Lemma get_set_same d k v : Py.get (Py.set d k v) k = Some v.
Proof.
  induction d as [|[k' v'] d IH]; simpl.
  - now rewrite String.eqb_refl.
  - destruct (String.eqb k' k) eqn:E; simpl; rewrite E; auto.
Qed.

Lemma get_set_other d k k' v : k' <> k -> Py.get (Py.set d k v) k' = Py.get d k'.
Proof.
  intros Hne. induction d as [|[k0 v0] d IH]; simpl.
  - destruct (String.eqb k k') eqn:E; auto.
    apply String.eqb_eq in E. congruence.
  - destruct (String.eqb k0 k) eqn:E; simpl.
    + apply String.eqb_eq in E. subst k0.
      destruct (String.eqb k k') eqn:E'; auto.
      apply String.eqb_eq in E'. congruence.
    + now rewrite IH.
Qed.

Lemma set_present d k v : Py.get d k = Some v -> Py.set d k v = d.
Proof.
  induction d as [|[k0 v0] d IH]; simpl; [discriminate|].
  destruct (String.eqb k0 k) eqn:E; intros H.
  - now injection H as ->.
  - now rewrite IH.
Qed.

Lemma set_fresh d k v : ~ In k (Py.keys d) -> Py.set d k v = d ++ [(k, v)].
Proof.
  induction d as [|[k0 v0] d IH]; simpl; intros H; auto.
  destruct (String.eqb k0 k) eqn:E.
  - apply String.eqb_eq in E. tauto.
  - rewrite IH; tauto.
Qed.

Lemma get_None d k : ~ In k (Py.keys d) -> Py.get d k = None.
Proof.
  induction d as [|[k0 v0] d IH]; simpl; intros H; auto.
  destruct (String.eqb k0 k) eqn:E.
  - apply String.eqb_eq in E. tauto.
  - apply IH. tauto.
Qed.

Lemma get_In d k v : NoDup (Py.keys d) -> In (k, v) d -> Py.get d k = Some v.
Proof.
  induction d as [|[k0 v0] d IH]; simpl; intros Hnd Hin; [tauto|].
  inversion Hnd as [|? ? Hnotin Hnd']; subst.
  destruct Hin as [Heq|Hin].
  - injection Heq as -> ->. now rewrite String.eqb_refl.
  - destruct (String.eqb k0 k) eqn:E.
    + apply String.eqb_eq in E. subst k0.
      exfalso. apply Hnotin. change k with (fst (k, v)). now apply in_map.
    + now apply IH.
Qed.

Lemma get_Some_In d k v : Py.get d k = Some v -> In (k, v) d.
Proof.
  induction d as [|[k0 v0] d IH]; simpl; [discriminate|].
  destruct (String.eqb k0 k) eqn:E; intros H.
  - apply String.eqb_eq in E. injection H as ->. subst. now left.
  - right. now apply IH.
Qed.

Lemma get_app_fresh d d' k :
  ~ In k (Py.keys d) -> Py.get (d ++ d') k = Py.get d' k.
Proof.
  induction d as [|[k0 v0] d IH]; simpl; intros H; auto.
  destruct (String.eqb k0 k) eqn:E.
  - apply String.eqb_eq in E. tauto.
  - apply IH. tauto.
Qed.
End DictFacts.

Lemma getitem_In (df : pd.DataFrame) column s :
  NoDup (pd.columns df) -> In (column, s) df -> pd.getitem df column = Some s.
Proof.
  replace (pd.getitem df column) with (Py.get df column).
  - apply get_In.
  - induction df as [|[k v] df IH]; simpl; [reflexivity|].
    now rewrite IH.
Qed.

(** ** The methods as functions of the object *)

Lemma profile_column_eq column self :
  DP._profile_column column self =
    (match pd.getitem (DP.df self) column with
     | Some s => DP.profile_series s
     | None => Py.Raise (Py.KeyError column)
     end, self).
Proof.
  unfold DP._profile_column, DP.bind, DP.df_getitem, DP.lift.
  destruct (pd.getitem (DP.df self) column); reflexivity.
Qed.

Lemma profile_loop_cons column rest self :
  DP.profile_loop (column :: rest) self =
    match pd.getitem (DP.df self) column with
    | Some s =>
        match DP.profile_series s with
        | Py.Ok p =>
            DP.profile_loop rest
              {| DP.df := DP.df self;
                 DP.profile := Py.set (DP.profile self) column p |}
        | Py.Raise e => (Py.Raise e, self)
        end
    | None => (Py.Raise (Py.KeyError column), self)
    end.
Proof.
  simpl. unfold DP.bind at 1. rewrite profile_column_eq.
  destruct (pd.getitem (DP.df self) column) as [s|]; [|reflexivity].
  destruct (DP.profile_series s); reflexivity.
Qed.

Lemma profile_loop_df columns : forall self,
  DP.df (snd (DP.profile_loop columns self)) = DP.df self.
Proof.
  induction columns as [|c rest IH]; intros self; [reflexivity|].
  rewrite profile_loop_cons.
  destruct (pd.getitem (DP.df self) c) as [s|]; [|reflexivity].
  destruct (DP.profile_series s); [|reflexivity].
  now rewrite IH.
Qed.

Lemma generate_profile_eq self :
  DP.generate_profile self =
    match DP.profile_loop (pd.columns (DP.df self)) self with
    | (Py.Ok _, self') => (Py.Ok (DP.profile self'), self')
    | (Py.Raise e, self') => (Py.Raise e, self')
    end.
Proof.
  unfold DP.generate_profile, DP.bind, DP.get_profile.
  destruct (DP.profile_loop _ self) as [[[]|e] self']; reflexivity.
Qed.

Lemma profiled_keys cols prof : profiled cols prof -> Py.keys prof = pd.columns cols.
Proof.
  unfold profiled.
  induction 1 as [|c e cols prof [Hk _] _ IH]; simpl; [reflexivity|].
  now rewrite Hk, <- IH.
Qed.

(** The loop over columns that are new to the dictionary appends their
    entries. *)
Lemma profile_loop_prefix pre : forall df acc prof cols,
  (forall c s, In (c, s) pre -> pd.getitem df c = Some s) ->
  NoDup (pd.columns pre) ->
  (forall c, In c (pd.columns pre) -> ~ In c (Py.keys acc)) ->
  profiled pre prof ->
  DP.profile_loop (pd.columns pre ++ cols) {| DP.df := df; DP.profile := acc |}
  = DP.profile_loop cols {| DP.df := df; DP.profile := acc ++ prof |}.
Proof.
  induction pre as [|[c s] pre IH]; intros df acc prof cols Hget Hnd Hfresh Hprof;
    unfold profiled in Hprof.
  - inversion Hprof; subst. now rewrite app_nil_r.
  - inversion Hprof as [|? [k p] ? prof' [Hk Hp] Hprof']; subst.
    simpl in Hk, Hp. subst k.
    simpl pd.columns. rewrite <- app_comm_cons, profile_loop_cons. simpl DP.df.
    rewrite (Hget c s) by now left. rewrite Hp. simpl DP.profile.
    inversion Hnd as [|? ? Hnotin Hnd']; subst.
    rewrite set_fresh by (apply Hfresh; now left).
    rewrite (IH df (acc ++ [(c, p)]) prof' cols); auto.
    + now rewrite <- app_assoc.
    + intros c' s' Hin. apply Hget. now right.
    + intros c' Hin Hin'. unfold Py.keys in Hin'. rewrite map_app in Hin'.
      apply in_app_or in Hin' as [Hin'|[Heq|[]]].
      * apply (Hfresh c'); [now right|assumption].
      * simpl in Heq. subst c'. contradiction.
Qed.

(** Every column has an entry: the profile lists them in column order. *)
Lemma generate_profile_ok df prof :
  NoDup (pd.columns df) ->
  profiled df prof ->
  DP.generate_profile (DP.__init__ df)
  = (Py.Ok prof, {| DP.df := df; DP.profile := prof |}).
Proof.
  intros Hnd Hprof. rewrite generate_profile_eq. unfold DP.__init__. simpl DP.df.
  rewrite <- (app_nil_r (pd.columns df)).
  rewrite (profile_loop_prefix df df [] prof []); auto.
  intros c s. now apply getitem_In.
Qed.

(** A column has none: the exception leaves the loop, and the entries of
    the columns before it stay in the dictionary. *)
Lemma generate_profile_raise pre column s post prof e :
  NoDup (pd.columns (pre ++ (column, s) :: post)) ->
  profiled pre prof ->
  DP.profile_series s = Py.Raise e ->
  DP.generate_profile (DP.__init__ (pre ++ (column, s) :: post))
  = (Py.Raise e,
     {| DP.df := pre ++ (column, s) :: post; DP.profile := prof |}).
Proof.
  intros Hnd Hprof Hs. rewrite generate_profile_eq. unfold DP.__init__. simpl DP.df.
  set (df := pre ++ (column, s) :: post) in *.
  assert (Hcols : pd.columns df = pd.columns pre ++ column :: pd.columns post).
  { unfold df, pd.columns. now rewrite map_app. }
  rewrite Hcols.
  rewrite (profile_loop_prefix pre df [] prof (column :: pd.columns post)); auto.
  - simpl app. rewrite profile_loop_cons. simpl DP.df.
    rewrite (getitem_In df column s Hnd) by (unfold df; apply in_elt).
    now rewrite Hs.
  - intros c s' Hin. apply getitem_In; auto. unfold df. apply in_or_app. now left.
  - rewrite Hcols in Hnd. now apply NoDup_app_remove_r in Hnd.
Qed.

Lemma column_rules_eq column p self :
  DP.column_rules column p self =
    (match DP.block p with
     | DP.numeric _ =>
         match pd.getitem (DP.df self) column with
         | Some col_data => Py.Ok (rules_of column p (DP.zero_sum col_data))
         | None => Py.Raise (Py.KeyError column)
         end
     | _ => Py.Ok (rules_of column p 0)
     end, self).
Proof.
  unfold DP.column_rules, rules_of.
  destruct (DP.block p) as [st|a b|mc]; simpl.
  - unfold DP.bind, DP.df_getitem, DP.ret.
    destruct (pd.getitem (DP.df self) column) as [col|]; [|reflexivity].
    destruct (0 <? DP.zero_sum col)%nat; [|reflexivity].
    now rewrite <- app_assoc.
  - unfold DP.ret. now rewrite app_nil_r.
  - unfold DP.ret. now rewrite app_nil_r.
Qed.

Lemma column_rules_self column p self :
  snd (DP.column_rules column p self) = self.
Proof. now rewrite column_rules_eq. Qed.

Lemma rules_loop_cons column p rest rules self :
  DP.rules_loop ((column, p) :: rest) rules self =
    match fst (DP.column_rules column p self) with
    | Py.Ok rs =>
        DP.rules_loop rest
          (if nonempty_entry (column, rs) then Py.set rules column rs else rules)
          self
    | Py.Raise e => (Py.Raise e, self)
    end.
Proof.
  simpl. unfold DP.bind at 1.
  pose proof (column_rules_self column p self) as Hs.
  destruct (DP.column_rules column p self) as [[rs|e] self']; simpl in *; subst.
  - now destruct rs.
  - reflexivity.
Qed.

Lemma rules_dict_keys_incl items rss c :
  In c (Py.keys (rules_dict items rss)) -> In c (Py.keys items).
Proof.
  unfold rules_dict, Py.keys. intros H.
  apply in_map_iff in H as [[k rs] [<- H]].
  apply filter_In in H as [H _]. apply in_combine_l in H. exact H.
Qed.

(** The loop over entries whose columns are new to [rules] appends the
    non-empty lists of rules. *)
Lemma rules_loop_ok self items : forall rss rules,
  NoDup (Py.keys items) ->
  (forall c, In c (Py.keys items) -> ~ In c (Py.keys rules)) ->
  computed self items rss ->
  DP.rules_loop items rules self = (Py.Ok (rules ++ rules_dict items rss), self).
Proof.
  induction items as [|[c p] items IH]; intros rss rules Hnd Hfresh Hc;
    unfold computed in Hc; inversion Hc as [|? rs ? rss' Hrs Hc']; subst.
  - unfold rules_dict. simpl. now rewrite app_nil_r.
  - simpl in Hrs. rewrite rules_loop_cons, Hrs.
    inversion Hnd as [|? ? Hnotin Hnd']; subst.
    unfold rules_dict. simpl combine. simpl filter.
    destruct (nonempty_entry (c, rs)) eqn:Hne.
    + rewrite set_fresh by (apply Hfresh; now left).
      rewrite (IH rss'); auto.
      * unfold rules_dict. now rewrite <- app_assoc.
      * intros c' Hin Hin'. unfold Py.keys in Hin'. rewrite map_app in Hin'.
        apply in_app_or in Hin' as [Hin'|[Heq|[]]].
        -- apply (Hfresh c'); [now right|assumption].
        -- simpl in Heq. subst c'. contradiction.
    + rewrite (IH rss'); auto.
      intros c' Hin. apply Hfresh. now right.
Qed.

Lemma rules_loop_inv self items : forall rules r self',
  DP.rules_loop items rules self = (Py.Ok r, self') ->
  exists rss, computed self items rss.
Proof.
  induction items as [|[c p] items IH]; intros rules r self' H.
  - exists []. constructor.
  - rewrite rules_loop_cons in H.
    destruct (fst (DP.column_rules c p self)) as [rs|e] eqn:E; [|discriminate].
    apply IH in H as [rss Hrss]. exists (rs :: rss). now constructor.
Qed.

Lemma suggest_quality_rules_eq self :
  DP.suggest_quality_rules self = DP.rules_loop (DP.profile self) [] self.
Proof. reflexivity. Qed.

(** What the dictionary of rules holds for a column of the profile. *)
Lemma rules_dict_get self items : forall rss c p rs,
  NoDup (Py.keys items) ->
  computed self items rss ->
  In (c, p) items ->
  fst (DP.column_rules c p self) = Py.Ok rs ->
  Py.get (rules_dict items rss) c =
    if nonempty_entry (c, rs) then Some rs else None.
Proof.
  induction items as [|[c0 p0] items IH]; intros rss c p rs Hnd Hc Hin Hrs;
    [contradiction|].
  unfold computed in Hc. inversion Hc as [|? rs0 ? rss' Hrs0 Hc']; subst.
  inversion Hnd as [|? ? Hnotin Hnd']; subst. simpl in Hrs0.
  assert (Htail : forall k, In k (Py.keys items) ->
            Py.get (rules_dict ((c0, p0) :: items) (rs0 :: rss')) k
            = Py.get (rules_dict items rss') k \/ k = c0).
  { intros k Hk. unfold rules_dict. simpl.
    destruct (nonempty_entry (c0, rs0)); [|now left]. simpl.
    destruct (String.eqb c0 k) eqn:E; [right|now left].
    apply String.eqb_eq in E. now subst. }
  destruct Hin as [Heq|Hin].
  - injection Heq as -> ->. rewrite Hrs0 in Hrs. injection Hrs as ->.
    unfold rules_dict. simpl.
    destruct (nonempty_entry (c, rs)) eqn:Hne; simpl.
    + now rewrite String.eqb_refl.
    + apply get_None. intros Hk. apply Hnotin.
      now apply (rules_dict_keys_incl items rss').
  - assert (Hk : In c (Py.keys items)).
    { change c with (fst (c, p)). now apply in_map. }
    destruct (Htail c Hk) as [-> | ->]; [|contradiction].
    now apply (IH rss' c p rs).
Qed.

Lemma rules_dict_get_absent items rss c :
  ~ In c (Py.keys items) -> Py.get (rules_dict items rss) c = None.
Proof.
  intros H. apply get_None. intros Hk. apply H.
  now apply (rules_dict_keys_incl items rss).
Qed.

(** The keys of the rules follow the order of the profile. *)
Lemma rules_dict_keys items : forall rss,
  NoDup (Py.keys items) ->
  List.length rss = List.length items ->
  Py.keys (rules_dict items rss)
  = filter (has_rules (rules_dict items rss)) (Py.keys items).
Proof.
  induction items as [|[c p] items IH]; intros rss Hnd Hlen.
  - reflexivity.
  - destruct rss as [|rs rss]; [discriminate|].
    inversion Hnd as [|? ? Hnotin Hnd']; subst.
    injection Hlen as Hlen.
    assert (Hext : filter (has_rules (rules_dict ((c, p) :: items) (rs :: rss)))
                     (Py.keys items)
                   = filter (has_rules (rules_dict items rss)) (Py.keys items)).
    { apply filter_ext_in. intros k Hk. unfold has_rules, rules_dict. simpl.
      destruct (nonempty_entry (c, rs)); [|reflexivity]. simpl.
      destruct (String.eqb c k) eqn:E; [|reflexivity].
      apply String.eqb_eq in E. subst. contradiction. }
    simpl Py.keys at 2. simpl filter. rewrite Hext, <- IH by assumption.
    unfold has_rules at 1. unfold rules_dict at 1 2. simpl.
    destruct (nonempty_entry (c, rs)) eqn:Hne; simpl.
    + now rewrite String.eqb_refl.
    + fold (rules_dict items rss).
      now rewrite (rules_dict_get_absent items rss c Hnotin).
Qed.

(** ** Numbers *)

Lemma Qlt_bool_iff x y : Qlt_bool x y = true <-> (x < y)%Q.
Proof.
  unfold Qlt_bool. rewrite negb_true_iff, <- not_true_iff_false, Qle_bool_iff.
  split; [apply Qnot_le_lt | apply Qlt_not_le].
Qed.

Lemma of_nat_pos n : (0 < n)%nat -> (0 < pd.of_nat n)%Q.
Proof.
  intros H. unfold pd.of_nat. change 0%Q with (inject_Z 0).
  rewrite <- Zlt_Qlt. lia.
Qed.

(** The null percentage is below 5 exactly when the null fraction is
    below 0.05. *)
Lemma null_percentage_lt_5 n len :
  (0 < len)%nat ->
  flt (fmul (np_truediv n len) (Some 100)) (Some 5) = true
  <-> (pd.of_nat n / pd.of_nat len < 5 # 100)%Q.
Proof.
  intros Hlen. destruct len as [|len]; [lia|].
  unfold np_truediv, fmul, flift2, flt. rewrite Qlt_bool_iff.
  rewrite !Qred_correct.
  set (q := (pd.of_nat n / pd.of_nat (S len))%Q).
  split; intros H; Lqa.lra.
Qed.

(** ** [_profile_column] on a column *)

Lemma numeric_stats_eq values :
  DP.numeric_stats values =
    match values with
    | [] => Py.Raise Py.ZeroDivisionError
    | _ :: _ => Py.Ok (stats_of values)
    end.
Proof.
  unfold DP.numeric_stats. fold (lower_fence values) (upper_fence values).
  fold (outliers values).
  destruct values as [|c values]; reflexivity.
Qed.

Lemma profile_series_ok s :
  (0 < pd.len s)%nat -> exists p, DP.profile_series s = Py.Ok p.
Proof.
  destruct s as [dt values|values|values]; simpl; intros Hlen; eauto.
  rewrite numeric_stats_eq. destruct values; [simpl in Hlen; lia|eauto].
Qed.

Lemma profile_series_not_numeric s :
  is_numeric s = false -> exists p, DP.profile_series s = Py.Ok p.
Proof. destruct s; simpl; intros H; [discriminate| |]; eauto. Qed.

Lemma profile_series_numeric_empty dt :
  DP.profile_series (pd.Numeric dt []) = Py.Raise Py.ZeroDivisionError.
Proof. reflexivity. Qed.

(** The entries that do not depend on the kind of the column. *)
Lemma profile_series_common s p :
  DP.profile_series s = Py.Ok p ->
  DP.dtype p = pd.dtype_str s
  /\ DP.null_count p = null_cells s
  /\ DP.null_percentage p
     = fmul (np_truediv (null_cells s) (pd.len s)) (Some 100).
Proof.
  destruct s as [dt values|values|values]; simpl.
  - destruct (DP.numeric_stats values); [|discriminate].
    intros H. injection H as <-. auto.
  - intros H. injection H as <-. auto.
  - intros H. injection H as <-. auto.
Qed.

Lemma profile_series_numeric dt values p :
  DP.profile_series (pd.Numeric dt values) = Py.Ok p ->
  exists stats,
    DP.numeric_stats values = Py.Ok stats /\ DP.block p = DP.numeric stats.
Proof.
  simpl. destruct (DP.numeric_stats values) as [stats|]; [|discriminate].
  intros H. injection H as <-. eauto.
Qed.

(** A table whose columns all have an entry. *)
Lemma profiled_exists (df : pd.DataFrame) :
  Forall (fun c => exists p, DP.profile_series (snd c) = Py.Ok p) df ->
  exists prof, profiled df prof.
Proof.
  unfold profiled. induction 1 as [|[c s] df [p Hp] _ [prof IH]].
  - exists []. constructor.
  - exists ((c, p) :: prof). constructor; auto.
Qed.

Lemma profiled_In df prof c p :
  profiled df prof -> In (c, p) prof ->
  exists s, In (c, s) df /\ DP.profile_series s = Py.Ok p.
Proof.
  unfold profiled. induction 1 as [|[c0 s0] [k0 p0] df prof [Hk Hp] _ IH];
    simpl; intros Hin; [contradiction|].
  simpl in Hk, Hp. subst k0. destruct Hin as [Heq|Hin].
  - injection Heq as -> ->. eauto.
  - destruct (IH Hin) as [s [Hs Hps]]. eauto.
Qed.

Lemma profiled_In_df df prof c s :
  profiled df prof -> In (c, s) df ->
  exists p, In (c, p) prof /\ DP.profile_series s = Py.Ok p.
Proof.
  unfold profiled. induction 1 as [|[c0 s0] [k0 p0] df prof [Hk Hp] _ IH];
    simpl; intros Hin; [contradiction|].
  simpl in Hk, Hp. subst k0. destruct Hin as [Heq|Hin].
  - injection Heq as -> ->. eauto.
  - destruct (IH Hin) as [p [Hp' Hps]]. eauto.
Qed.

(** ** [suggest_quality_rules] after [generate_profile] *)

Lemma computed_exists self items :
  (forall c p, In (c, p) items -> DP.has_min p = true ->
               exists s, pd.getitem (DP.df self) c = Some s) ->
  exists rss, computed self items rss.
Proof.
  unfold computed. induction items as [|[c p] items IH]; intros H.
  - exists []. constructor.
  - destruct IH as [rss Hrss].
    { intros c' p' Hin. apply H. now right. }
    assert (Hc : exists rs, fst (DP.column_rules c p self) = Py.Ok rs).
    { rewrite column_rules_eq. simpl.
      specialize (H c p (or_introl eq_refl)). unfold DP.has_min in H.
      destruct (DP.block p); eauto.
      destruct (H eq_refl) as [s ->]. eauto. }
    destruct Hc as [rs Hrs]. exists (rs :: rss). now constructor.
Qed.

Lemma computed_length self items rss :
  computed self items rss -> List.length rss = List.length items.
Proof. unfold computed. intros H. symmetry. eapply Forall2_length; eauto. Qed.

(** On a table whose columns all have an entry, the two methods succeed
    one after the other. *)
Lemma run_ok df prof :
  NoDup (pd.columns df) ->
  profiled df prof ->
  exists rss,
    computed {| DP.df := df; DP.profile := prof |} prof rss
    /\ run df = Py.Ok (prof, rules_dict prof rss).
Proof.
  intros Hnd Hprof.
  destruct (computed_exists {| DP.df := df; DP.profile := prof |} prof)
    as [rss Hrss].
  { intros c p Hin _. simpl.
    destruct (profiled_In df prof c p Hprof Hin) as [s [Hs _]].
    exists s. now apply getitem_In. }
  exists rss. split; [assumption|].
  unfold run. rewrite (generate_profile_ok df prof Hnd Hprof).
  rewrite suggest_quality_rules_eq. simpl DP.profile.
  rewrite (rules_loop_ok _ prof rss []); auto.
  rewrite (profiled_keys df prof Hprof). assumption.
Qed.

Lemma zero_sum_pos dt values :
  has_zero values -> (0 < DP.zero_sum (pd.Numeric dt values))%nat.
Proof.
  intros [x [Hin Hx]]. simpl.
  assert (H : In (Some x) (filter (fun c => pd.eq_scalar c 0) values)).
  { apply filter_In. split; [assumption|]. simpl. now apply Qeq_bool_iff. }
  destruct (filter _ values); [contradiction|simpl; lia].
Qed.

(** C1: a numeric column whose null fraction is below 0.05 and which has a
    cell equal to zero gets exactly the rules not_null (error), value_range
    (error) and warn_zeros (warning), in this order; the keys of the rules
    are the columns that have rules, in the column order of the table. *)
Theorem rule_order_of_numeric_column df rows column dt values :
  pd.well_formed df rows ->
  In (column, pd.Numeric dt values) df ->
  (null_fraction (pd.Numeric dt values) < 5 # 100)%Q ->
  has_zero values ->
  exists profile rules,
    run df = Py.Ok (profile, rules)
    /\ option_map (map shape) (Py.get rules column)
       = Some [(DP.not_null, DP.error); (DP.value_range, DP.error);
               (DP.warn_zeros, DP.warning)]
    /\ Py.keys rules = filter (has_rules rules) (pd.columns df).
Proof.
  intros [Hnd Hlen] Hin Hfrac Hzero.
  assert (Hrows : (0 < rows)%nat).
  { rewrite Forall_forall in Hlen. specialize (Hlen _ Hin). simpl in Hlen.
    destruct Hzero as [x [Hx _]]. destruct values; [contradiction|].
    simpl in Hlen. lia. }
  destruct (profiled_exists df) as [prof Hprof].
  { eapply Forall_impl; [|exact Hlen]. intros [c s] Hs. simpl in *.
    apply profile_series_ok. lia. }
  destruct (run_ok df prof Hnd Hprof) as [rss [Hrss Hrun]].
  exists prof, (rules_dict prof rss). split; [assumption|].
  assert (Hkeys : NoDup (Py.keys prof)).
  { now rewrite (profiled_keys df prof Hprof). }
  split.
  - destruct (profiled_In_df df prof column _ Hprof Hin) as [p [Hp Hps]].
    destruct (profile_series_numeric dt values p Hps) as [stats [_ Hblock]].
    destruct (profile_series_common _ p Hps) as [_ [_ Hpct]].
    set (self := {| DP.df := df; DP.profile := prof |}) in *.
    assert (Hrs : fst (DP.column_rules column p self)
                  = Py.Ok (rules_of column p (DP.zero_sum (pd.Numeric dt values)))).
    { rewrite column_rules_eq, Hblock. simpl.
      now rewrite (getitem_In df column _ Hnd Hin). }
    rewrite (rules_dict_get self prof rss column p _ Hkeys Hrss Hp Hrs).
    unfold rules_of. rewrite Hblock, Hpct.
    assert (Hlt : flt (fmul (np_truediv (null_cells (pd.Numeric dt values))
                                        (pd.len (pd.Numeric dt values)))
                            (Some 100)) (Some 5) = true).
    { apply null_percentage_lt_5; [|exact Hfrac].
      rewrite Forall_forall in Hlen. specialize (Hlen _ Hin). simpl in *. lia. }
    rewrite Hlt.
    pose proof (zero_sum_pos dt values Hzero) as Hz.
    apply Nat.ltb_lt in Hz. rewrite Hz. reflexivity.
  - rewrite <- (profiled_keys df prof Hprof).
    apply rules_dict_keys; [assumption|].
    eapply computed_length; eauto.
Qed.

Lemma rule_order_of_numeric_column_witness :
  exists profile rules,
    run trips = Py.Ok (profile, rules)
    /\ option_map (map shape) (Py.get rules "fare"%string)
       = Some [(DP.not_null, DP.error); (DP.value_range, DP.error);
               (DP.warn_zeros, DP.warning)]
    /\ Py.keys rules = filter (has_rules rules) (pd.columns trips).
Proof.
  apply (rule_order_of_numeric_column trips 50 "fare"%string pd.float64 fares).
  - split.
    + repeat constructor; simpl; intuition discriminate.
    + repeat constructor.
  - left. reflexivity.
  - reflexivity.
  - exists 0%Q. split; [right; left|]; reflexivity.
Defined.

(** ** The not_null rule *)

Lemma round_half_even_compat q q' :
  (q == q')%Q -> Py.round_half_even q = Py.round_half_even q'.
Proof.
  intros H. unfold Py.round_half_even.
  rewrite (Qfloor_comp _ _ H).
  replace ((q - inject_Z (Qfloor q')) ?= (1 # 2))%Q
    with ((q' - inject_Z (Qfloor q')) ?= (1 # 2))%Q; [reflexivity|].
  apply Qcompare_comp; [|reflexivity]. now rewrite H.
Qed.

Lemma Qle_bool_compat_r q q' : (q == q')%Q -> Qle_bool 0 q = Qle_bool 0 q'.
Proof.
  intros H. apply eq_true_iff_eq. rewrite !Qle_bool_iff. now rewrite H.
Qed.

(** [.2f] prints equal numbers alike. *)
Lemma format_2f_compat q q' :
  (q == q')%Q -> Py.format_2f (Some q) = Py.format_2f (Some q').
Proof.
  intros H. unfold Py.format_2f.
  rewrite (Qle_bool_compat_r _ _ H).
  rewrite (round_half_even_compat (Qabs q * 100) (Qabs q' * 100));
    [reflexivity|].
  now rewrite H.
Qed.

Lemma rules_of_not_null column p z r :
  In r (rules_of column p z) -> DP.rule r = DP.not_null ->
  flt (DP.null_percentage p) (Some 5) = true /\ r = DP.not_null_rule column p.
Proof.
  unfold rules_of. intros Hin Hr.
  apply in_app_or in Hin as [Hin|Hin].
  - destruct (flt (DP.null_percentage p) (Some 5)); [|contradiction].
    destruct Hin as [<-|[]]. auto.
  - destruct (DP.block p) as [st| |]; try contradiction.
    destruct Hin as [<-|Hin]; [discriminate|].
    destruct (0 <? z)%nat; [|contradiction].
    destruct Hin as [<-|[]]. discriminate.
Qed.

Lemma column_rules_of column p self rs :
  fst (DP.column_rules column p self) = Py.Ok rs ->
  exists z, rs = rules_of column p z.
Proof.
  rewrite column_rules_eq. simpl.
  destruct (DP.block p); [destruct (pd.getitem (DP.df self) column)|..];
    intros H; try discriminate; injection H as <-; eauto.
Qed.

(** The number of hundredths that [.2f] prints is a nearest one. *)
Lemma round_half_even_nearest q :
  (Qabs (inject_Z (Py.round_half_even q) - q) <= 1 # 2)%Q.
Proof.
  unfold Py.round_half_even. cbv zeta.
  pose proof (Qfloor_le q) as Hlo. pose proof (Qlt_floor q) as Hhi.
  rewrite inject_Z_plus in Hhi. change (inject_Z 1) with 1%Q in Hhi.
  apply Qabs_Qle_condition.
  destruct (Qcompare_spec (q - inject_Z (Qfloor q)) (1 # 2)) as [H|H|H].
  - destruct (Z.even (Qfloor q)).
    + split; Lqa.lra.
    + rewrite inject_Z_plus. change (inject_Z 1) with 1%Q. split; Lqa.lra.
  - split; Lqa.lra.
  - rewrite inject_Z_plus. change (inject_Z 1) with 1%Q. split; Lqa.lra.
Qed.

Lemma round_half_even_nonneg q : (0 <= q)%Q -> (0 <= Py.round_half_even q)%Z.
Proof.
  intros Hq. unfold Py.round_half_even. cbv zeta.
  assert (H0 : (0 <= Qfloor q)%Z).
  { change 0%Z with (Qfloor 0). now apply Qfloor_resp_le. }
  destruct (q - inject_Z (Qfloor q) ?= 1 # 2)%Q; [destruct (Z.even _)|..]; lia.
Qed.

Lemma null_fraction_nonneg s : (0 < pd.len s)%nat -> (0 <= null_fraction s)%Q.
Proof.
  intros Hlen. unfold null_fraction.
  apply Qle_shift_div_l; [apply of_nat_pos; assumption|].
  assert (H : (0 <= pd.of_nat (null_cells s))%Q).
  { unfold pd.of_nat. change 0%Q with (inject_Z 0). rewrite <- Zle_Qle. lia. }
  Lqa.lra.
Qed.

(** What [.2f] prints for a number that is not negative. *)
Lemma format_2f_nearest q :
  (0 <= q)%Q ->
  exists h : Z,
    (0 <= h)%Z /\ nearest_hundredths q h
    /\ Py.format_2f (Some q) = Py.render_2f false h.
Proof.
  intros Hq. exists (Py.round_half_even (q * 100)). split; [|split].
  - apply round_half_even_nonneg. Lqa.lra.
  - apply round_half_even_nearest.
  - unfold Py.format_2f.
    replace (Qle_bool 0 q) with true
      by (symmetry; now apply Qle_bool_iff).
    cbn [negb]. f_equal. apply round_half_even_compat.
    now rewrite Qabs_pos.
Qed.

(** C2 (amended): for a column with at least one row, the not_null rule is
    emitted exactly when the null fraction is below 0.05; it then has
    severity error, and its description quotes the null percentage (a
    hundred times the null fraction) with two decimals: a number of
    hundredths nearest to the percentage, whichever neighbour that is when
    the percentage lies halfway between two. *)
Theorem not_null_rule_iff s p column self rs :
  (0 < pd.len s)%nat ->
  DP.profile_series s = Py.Ok p ->
  fst (DP.column_rules column p self) = Py.Ok rs ->
  ((exists r, In r rs /\ DP.rule r = DP.not_null)
   <-> (null_fraction s < 5 # 100)%Q)
  /\ (forall r, In r rs -> DP.rule r = DP.not_null ->
        DP.get_severity r = DP.error
        /\ exists h : Z,
             (0 <= h)%Z
             /\ nearest_hundredths (null_fraction s * 100) h
             /\ DP.description r
                = (column ++ " should not be null (currently "
                     ++ Py.render_2f false h ++ "% null)")%string).
Proof.
  intros Hlen Hp Hrs.
  destruct (column_rules_of _ _ _ _ Hrs) as [z ->].
  destruct (profile_series_common s p Hp) as [_ [_ Hpct]].
  pose proof (null_percentage_lt_5 (null_cells s) (pd.len s) Hlen) as Hiff.
  rewrite <- Hpct in Hiff. fold (null_fraction s) in Hiff.
  split; [split|].
  - intros [r [Hin Hr]]. apply Hiff.
    now destruct (rules_of_not_null _ _ _ _ Hin Hr).
  - intros Hlt. apply Hiff in Hlt.
    exists (DP.not_null_rule column p). split; [|reflexivity].
    unfold rules_of. rewrite Hlt. now left.
  - intros r Hin Hr.
    destruct (rules_of_not_null _ _ _ _ Hin Hr) as [_ ->].
    split; [reflexivity|].
    pose proof (null_fraction_nonneg s Hlen) as Hf.
    destruct (format_2f_nearest (null_fraction s * 100)) as [h [Hh [Hn Hfmt]]];
      [Lqa.lra|].
    exists h. split; [assumption|]. split; [assumption|].
    unfold DP.not_null_rule, DP.description. rewrite Hpct, <- Hfmt.
    destruct (pd.len s) as [|n] eqn:En; [lia|].
    unfold np_truediv, fmul, flift2.
    rewrite (format_2f_compat _ (null_fraction s * 100)); [reflexivity|].
    rewrite !Qred_correct. unfold null_fraction. now rewrite En.
Qed.

Lemma not_null_rule_iff_witness :
  ((exists r, In r [DP.not_null_rule "vendor" (object_profile vendors_201)]
              /\ DP.rule r = DP.not_null)
   <-> (null_fraction (pd.Object vendors_201) < 5 # 100)%Q)
  /\ (forall r, In r [DP.not_null_rule "vendor" (object_profile vendors_201)] ->
        DP.rule r = DP.not_null ->
        DP.get_severity r = DP.error
        /\ exists h : Z,
             (0 <= h)%Z
             /\ nearest_hundredths (null_fraction (pd.Object vendors_201) * 100) h
             /\ DP.description r
                = ("vendor" ++ " should not be null (currently "
                     ++ Py.render_2f false h ++ "% null)")%string).
Proof.
  apply (not_null_rule_iff (pd.Object vendors_201) (object_profile vendors_201)
           "vendor" (DP.__init__ (vendor_table vendors_201))).
  - simpl. lia.
  - reflexivity.
  - reflexivity.
Defined.

(** C2 (as stated) fails: a column with one null cell out of 201 and a
    column with one out of 202 get the same description, which therefore
    does not hold the exact null fraction. *)
Lemma description_rounds_null_percentage :
  rule_texts (run (vendor_table vendors_201))
  = Some [("vendor"%string,
           [(DP.not_null,
             "vendor should not be null (currently 0.50% null)"%string)])]
  /\ rule_texts (run (vendor_table vendors_202))
     = rule_texts (run (vendor_table vendors_201))
  /\ ~ (null_fraction (pd.Object vendors_201)
        == null_fraction (pd.Object vendors_202))%Q.
Proof.
  split; [|split].
  - vm_compute. reflexivity.
  - vm_compute. reflexivity.
  - vm_compute. discriminate.
Qed.

(** ** The standard deviation and the suggested bounds *)

Lemma Q2R_Qred q : Q2R (Qred q) = Q2R q.
Proof. apply Qeq_eqR, Qred_correct. Qed.

Lemma Q2R_of_nat n : Q2R (pd.of_nat n) = INR n.
Proof.
  unfold pd.of_nat, Q2R. simpl. rewrite <- INR_IZR_INZ, Rinv_1. Lra.lra.
Qed.

Lemma of_nat_neq_0 n : (0 < n)%nat -> ~ (pd.of_nat n == 0)%Q.
Proof. intros H E. pose proof (of_nat_pos n H) as Hp. rewrite E in Hp. Lqa.lra. Qed.

Lemma Q2R_fold_sum l : forall a,
  Q2R (fold_left Qplus l a) = (Q2R a + Rsum (map Q2R l))%R.
Proof.
  induction l as [|x l IH]; intros a; simpl.
  - Lra.lra.
  - rewrite IH, Q2R_plus. Lra.lra.
Qed.

Lemma Q2R_sum l : Q2R (pd.sum l) = Rsum (map Q2R l).
Proof.
  unfold pd.sum. rewrite Q2R_fold_sum. rewrite RMicromega.Q2R_0. Lra.lra.
Qed.

Lemma Q2R_mean v :
  (0 < List.length v)%nat ->
  Q2R (pd.sum v / pd.of_nat (List.length v)) = Rmean (map Q2R v).
Proof.
  intros H. rewrite Q2R_div by now apply of_nat_neq_0.
  unfold Rmean. now rewrite Q2R_sum, Q2R_of_nat, length_map.
Qed.

Lemma mean_eq values :
  pd.mean values =
    match pd.dropna values with
    | [] => NaN
    | v => Some (Qred (pd.sum v / pd.of_nat (List.length v)))
    end.
Proof. reflexivity. Qed.

(** [s.std()] is the sample standard deviation of the non-null values, and
    NaN when fewer than two are present. *)
Lemma std_eq values :
  pd.std values =
    if (pd.count values <=? 1)%nat then NaN
    else Some (Rstd 1 (map Q2R (pd.dropna values))).
Proof.
  unfold pd.std, pd.var, pd.count.
  set (v := pd.dropna values).
  destruct (List.length v <=? 1)%nat eqn:E; [reflexivity|].
  apply Nat.leb_gt in E. unfold option_map. f_equal.
  rewrite Q2R_Qred. unfold Rstd. f_equal.
  rewrite Q2R_div by (apply of_nat_neq_0; lia).
  rewrite Q2R_sum, Q2R_of_nat, map_map, length_map.
  rewrite minus_INR by lia. f_equal.
  rewrite map_map. f_equal. apply map_ext. intros x.
  rewrite Q2R_mult, Q2R_minus, Q2R_mean by lia. reflexivity.
Qed.

Lemma to_real_mean values :
  to_real (pd.mean values) =
    match pd.dropna values with
    | [] => NaN
    | v => Some (Rmean (map Q2R v))
    end.
Proof.
  rewrite mean_eq. destruct (pd.dropna values) as [|x v] eqn:E; [reflexivity|].
  unfold to_real, option_map. f_equal. rewrite Q2R_Qred. apply Q2R_mean.
  simpl. lia.
Qed.

(** C3 (amended): the reported standard deviation is the sample standard
    deviation (divisor n - 1) of the non-null values, NaN when fewer than
    two are present; the suggested bounds are the mean minus and plus three
    times it, whatever the minimum, the maximum and the quartiles are. *)
Theorem suggested_bounds_are_three_sigma values stats :
  DP.numeric_stats values = Py.Ok stats ->
  let xs := map Q2R (pd.dropna values) in
  DP.suggested_min stats = rsub (to_real (DP.mean stats)) (rmul (Some 3%R) (DP.std stats))
  /\ DP.suggested_max stats = radd (to_real (DP.mean stats)) (rmul (Some 3%R) (DP.std stats))
  /\ ((2 <= pd.count values)%nat ->
      DP.std stats = Some (Rstd 1 xs)
      /\ DP.suggested_min stats = Some (Rmean xs - 3 * Rstd 1 xs)%R
      /\ DP.suggested_max stats = Some (Rmean xs + 3 * Rstd 1 xs)%R)
  /\ ((pd.count values < 2)%nat ->
      DP.std stats = NaN
      /\ DP.suggested_min stats = NaN /\ DP.suggested_max stats = NaN).
Proof.
  rewrite numeric_stats_eq. destruct values as [|c values']; [discriminate|].
  remember (c :: values') as values eqn:Ev. clear Ev c values'.
  intros H. injection H as <-.
  cbn [DP.suggested_min DP.suggested_max DP.std DP.mean stats_of].
  split; [reflexivity|]. split; [reflexivity|].
  rewrite to_real_mean, std_eq. unfold pd.count.
  destruct (pd.dropna values) as [|x v]; simpl List.length.
  - split; intros Hn; [lia|auto].
  - destruct (S (List.length v) <=? 1)%nat eqn:E.
    + apply Nat.leb_le in E. split; intros Hn; [lia|auto].
    + apply Nat.leb_gt in E. split; intros Hn; [auto|lia].
Qed.

Lemma three_stats_eq : DP.numeric_stats three_values = Py.Ok three_stats.
Proof. reflexivity. Qed.

Lemma three_reals : map Q2R (pd.dropna three_values) = [0; 2; 4]%R.
Proof.
  simpl. unfold Q2R. simpl. repeat f_equal; Lra.lra.
Qed.

Lemma three_mean : Rmean [0; 2; 4]%R = 2%R.
Proof. unfold Rmean, Rsum. simpl. Lra.lra. Qed.

Lemma three_sample_std : Rstd 1 [0; 2; 4]%R = 2%R.
Proof.
  unfold Rstd. rewrite three_mean. unfold Rsum. simpl.
  replace ((0 - 2) * (0 - 2) + ((2 - 2) * (2 - 2) + ((4 - 2) * (4 - 2) + 0)))%R
    with 8%R by Lra.lra.
  replace (8 / (1 + 1 + 1 - 1))%R with (2 * 2)%R by Lra.lra.
  apply sqrt_square. Lra.lra.
Qed.

Lemma three_population_std : Rstd 0 [0; 2; 4]%R = sqrt (8 / 3).
Proof.
  unfold Rstd. rewrite three_mean. unfold Rsum. simpl. f_equal. Lra.lra.
Qed.

Lemma suggested_bounds_are_three_sigma_witness :
  DP.suggested_min three_stats
  = rsub (to_real (DP.mean three_stats)) (rmul (Some 3%R) (DP.std three_stats))
  /\ DP.suggested_max three_stats
     = radd (to_real (DP.mean three_stats)) (rmul (Some 3%R) (DP.std three_stats))
  /\ ((2 <= pd.count three_values)%nat ->
      DP.std three_stats = Some (Rstd 1 (map Q2R (pd.dropna three_values)))
      /\ DP.suggested_min three_stats
         = Some (Rmean (map Q2R (pd.dropna three_values))
                 - 3 * Rstd 1 (map Q2R (pd.dropna three_values)))%R
      /\ DP.suggested_max three_stats
         = Some (Rmean (map Q2R (pd.dropna three_values))
                 + 3 * Rstd 1 (map Q2R (pd.dropna three_values)))%R)
  /\ ((pd.count three_values < 2)%nat ->
      DP.std three_stats = NaN
      /\ DP.suggested_min three_stats = NaN
      /\ DP.suggested_max three_stats = NaN).
Proof.
  apply (suggested_bounds_are_three_sigma three_values three_stats).
  reflexivity.
Defined.

(** C3 (as stated) fails: for the column [0, 2, 4] the reported standard
    deviation is 2, the sample standard deviation, while the population
    standard deviation is the square root of 8/3; the suggested bounds are
    -4 and 8. *)
Lemma std_is_not_population_std :
  DP.numeric_stats three_values = Py.Ok three_stats
  /\ DP.std three_stats = Some 2%R
  /\ population_std three_values = Some (sqrt (8 / 3))
  /\ DP.std three_stats <> population_std three_values
  /\ DP.suggested_min three_stats = Some (-4)%R
  /\ DP.suggested_max three_stats = Some 8%R.
Proof.
  assert (Hstd : pd.std three_values = Some 2%R).
  { rewrite std_eq. change (pd.count three_values <=? 1)%nat with false.
    cbv iota. now rewrite three_reals, three_sample_std. }
  assert (Hpop : population_std three_values = Some (sqrt (8 / 3))).
  { change (population_std three_values)
      with (Some (Rstd 0 (map Q2R (pd.dropna three_values)))).
    now rewrite three_reals, three_population_std. }
  split; [reflexivity|].
  split; [exact Hstd|]. split; [exact Hpop|]. split; [|split].
  - cbn [DP.std three_stats]. rewrite Hstd, Hpop. intros H. injection H as H.
    assert (H2 : (sqrt (8 / 3) * sqrt (8 / 3) = 8 / 3)%R)
      by (apply sqrt_sqrt; Lra.lra).
    rewrite <- H in H2. Lra.lra.
  - cbn [DP.suggested_min three_stats]. rewrite Hstd. unfold rmul, rsub, rlift2.
    f_equal. unfold Q2R. simpl. Lra.lra.
  - cbn [DP.suggested_max three_stats]. rewrite Hstd. unfold rmul, radd, rlift2.
    f_equal. unfold Q2R. simpl. Lra.lra.
Qed.

(** ** Outliers *)

Lemma is_outlier_iff a b c :
  DP.is_outlier (fsub (Some a) (fmul (Some (3 # 2)) (fsub (Some b) (Some a))))
                (fadd (Some b) (fmul (Some (3 # 2)) (fsub (Some b) (Some a))))
                c = true
  <-> exists x, c = Some x /\ strictly_outside a b x.
Proof.
  unfold DP.is_outlier, pd.gt_scalar, pd.lt_scalar, strictly_outside.
  unfold fsub, fadd, fmul, flift2. rewrite orb_true_iff.
  destruct c as [x|].
  - rewrite !Qlt_bool_iff, !Qred_correct. split.
    + intros H. exists x. split; [reflexivity|exact H].
    + intros [y [Hy H]]. injection Hy as <-. exact H.
  - split; [intros [H|H]; discriminate|intros [y [Hy _]]; discriminate].
Qed.

Lemma length_insert x l : List.length (pd.insert x l) = S (List.length l).
Proof.
  induction l as [|y l IH]; simpl; [reflexivity|].
  destruct (Qle_bool x y); simpl; auto.
Qed.

Lemma length_sort l : List.length (pd.sort l) = List.length l.
Proof.
  induction l as [|x l IH]; simpl; [reflexivity|].
  now rewrite length_insert, IH.
Qed.

(** A quantile is a number as soon as one cell is not null. *)
Lemma quantile_defined q values :
  (0 < pd.count values)%nat -> exists a, pd.quantile q values = Some a.
Proof.
  unfold pd.count, pd.quantile. rewrite length_sort.
  destruct (List.length (pd.dropna values)); [lia|eauto].
Qed.

Lemma quantile_all_null q values :
  pd.count values = 0%nat -> pd.quantile q values = NaN.
Proof.
  unfold pd.count, pd.quantile. rewrite length_sort. now intros ->.
Qed.

Lemma outliers_all_null values :
  pd.count values = 0%nat -> outliers values = [].
Proof.
  intros Hn. unfold outliers, lower_fence.
  rewrite (quantile_all_null (1 # 4) values Hn).
  rewrite (quantile_all_null (3 # 4) values Hn).
  unfold upper_fence. rewrite (quantile_all_null (3 # 4) values Hn).
  simpl. clear Hn. induction values as [|[x|] values IH]; simpl; auto.
Qed.

(** *** The bounds as the code computes them *)

Module B64Facts.
Import SpecFloat FloatOps FloatAxioms.

Lemma digits2_size m : digits2_pos m = Pos.size m.
Proof. induction m; simpl; congruence. Qed.

(** The mantissa of a binary64 number has at most 53 digits, and exactly 53
    above the least exponent. *)
Lemma bounded_digits m e :
  bounded prec emax m e = true ->
  (Z.pos (digits2_pos m) <= 53)%Z
  /\ (-1074 <= e)%Z
  /\ ((-1074 < e)%Z -> Z.pos (digits2_pos m) = 53%Z).
Proof.
  unfold bounded, canonical_mantissa, fexp, emin, prec, emax.
  intros H. apply andb_prop in H as [H _]. apply Z.eqb_eq in H. lia.
Qed.

Lemma mantissa_bounds m :
  (2 ^ (Z.pos (digits2_pos m) - 1) <= Z.pos m < 2 ^ Z.pos (digits2_pos m))%Z.
Proof.
  rewrite digits2_size.
  pose proof (Pos.size_gt m) as Hgt. pose proof (Pos.size_le m) as Hle.
  assert (H2 : (Z.pos (2 ^ Pos.size m) = 2 ^ Z.pos (Pos.size m))%Z)
    by (rewrite Pos2Z.inj_pow; reflexivity).
  split.
  - assert (2 * 2 ^ (Z.pos (Pos.size m) - 1) = 2 ^ Z.pos (Pos.size m))%Z.
    { rewrite <- Z.pow_succ_r by lia. f_equal. lia. }
    assert (Z.pos (2 ^ Pos.size m) <= Z.pos m~0)%Z
      by (apply Pos2Z.pos_le_pos; exact Hle).
    lia.
  - rewrite <- H2. apply Pos2Z.pos_lt_pos. exact Hgt.
Qed.

Lemma mag_pos m e : (0 < B64.mag m e)%Q.
Proof.
  unfold B64.mag. apply Qmult_lt_0_compat; [reflexivity|].
  apply Qpower_0_lt. reflexivity.
Qed.

(** A smaller exponent makes a smaller magnitude. *)
Lemma mag_lt m1 e1 m2 e2 :
  bounded prec emax m1 e1 = true -> bounded prec emax m2 e2 = true ->
  (e1 < e2)%Z -> (B64.mag m1 e1 < B64.mag m2 e2)%Q.
Proof.
  intros H1 H2 He. unfold B64.mag.
  destruct (bounded_digits m1 e1 H1) as [Hd1 [Hmin _]].
  destruct (bounded_digits m2 e2 H2) as [_ [_ Hd2]].
  specialize (Hd2 ltac:(lia)).
  pose proof (mantissa_bounds m1) as B1. pose proof (mantissa_bounds m2) as B2.
  rewrite Hd2 in B2.
  assert (Hm1 : (Z.pos m1 < 2 ^ 53)%Z).
  { eapply Z.lt_le_trans; [apply B1|]. apply Z.pow_le_mono_r; lia. }
  replace e2 with (e1 + (e2 - e1))%Z by lia.
  rewrite Qpower_plus by discriminate.
  assert (Hp : (0 < 2 ^ e1)%Q) by (apply Qpower_0_lt; reflexivity).
  assert (Hk : (inject_Z (Z.pos m1) < inject_Z (Z.pos m2) * 2 ^ (e2 - e1))%Q).
  { change 2%Q with (inject_Z 2). rewrite <- Zpower_Qpower by lia.
    rewrite <- inject_Z_mult, <- Zlt_Qlt.
    assert (2 ^ 1 <= 2 ^ (e2 - e1))%Z by (apply Z.pow_le_mono_r; lia).
    change (53 - 1)%Z with 52%Z in B2.
    change (2 ^ 53)%Z with (2 ^ 52 * 2 ^ 1)%Z in Hm1. nia. }
  rewrite Qmult_assoc.
  setoid_replace (inject_Z (Z.pos m1) * 2 ^ e1)%Q
    with (2 ^ e1 * inject_Z (Z.pos m1))%Q by ring.
  setoid_replace (inject_Z (Z.pos m2) * 2 ^ e1 * 2 ^ (e2 - e1))%Q
    with (2 ^ e1 * (inject_Z (Z.pos m2) * 2 ^ (e2 - e1)))%Q by ring.
  apply Qmult_lt_l; assumption.
Qed.

Lemma cmp_mag_spec m1 e1 m2 e2 :
  bounded prec emax m1 e1 = true -> bounded prec emax m2 e2 = true ->
  CompareSpec (B64.mag m1 e1 == B64.mag m2 e2)%Q
              (B64.mag m1 e1 < B64.mag m2 e2)%Q
              (B64.mag m2 e2 < B64.mag m1 e1)%Q
              (B64.cmp_mag m1 e1 m2 e2).
Proof.
  intros H1 H2. unfold B64.cmp_mag.
  destruct (Z.compare_spec e1 e2) as [->|He|He].
  - fold (Pos.compare m1 m2).
    assert (Hp : (0 < 2 ^ e2)%Q) by (apply Qpower_0_lt; reflexivity).
    destruct (Pos.compare_spec m1 m2) as [->|Hm|Hm]; constructor.
    + reflexivity.
    + unfold B64.mag. apply Qmult_lt_r; [assumption|].
      rewrite <- Zlt_Qlt. exact Hm.
    + unfold B64.mag. apply Qmult_lt_r; [assumption|].
      rewrite <- Zlt_Qlt. exact Hm.
  - constructor. now apply mag_lt.
  - constructor. now apply mag_lt.
Qed.

Lemma of_spec_finite s m e :
  exists v, B64.of_spec (S754_finite s m e) = Some v
            /\ (v == (if s then - B64.mag m e else B64.mag m e))%Q.
Proof.
  eexists. split; [reflexivity|]. rewrite Qred_correct. unfold B64.mag.
  destruct s; [|reflexivity].
  change (Z.neg m) with (- Z.pos m)%Z. rewrite inject_Z_opp. ring.
Qed.

Lemma SFcompare_finite s1 m1 e1 s2 m2 e2 :
  SFcompare (S754_finite s1 m1 e1) (S754_finite s2 m2 e2)
  = Some (match s1, s2 with
          | true, false => Lt
          | false, true => Gt
          | false, false => B64.cmp_mag m1 e1 m2 e2
          | true, true => CompOpp (B64.cmp_mag m1 e1 m2 e2)
          end).
Proof.
  unfold B64.cmp_mag. simpl. destruct s1, s2; try reflexivity.
  now destruct (e1 ?= e2)%Z.
Qed.

Lemma SFltb_value f1 f2 a b :
  SpecFloat.valid_binary prec emax f1 = true ->
  SpecFloat.valid_binary prec emax f2 = true ->
  B64.of_spec f1 = Some a -> B64.of_spec f2 = Some b ->
  (SFltb f1 f2 = true <-> (a < b)%Q).
Proof.
  intros V1 V2 Ha Hb.
  destruct f1 as [s1|s1| |s1 m1 e1]; try discriminate;
    destruct f2 as [s2|s2| |s2 m2 e2]; try discriminate.
  - injection Ha as <-. injection Hb as <-. unfold SFltb. simpl.
    split; [discriminate|]. intros H. now apply Qlt_irrefl in H.
  - injection Ha as <-.
    destruct (of_spec_finite s2 m2 e2) as [v [Hv Ev]].
    rewrite Hv in Hb. injection Hb as <-. rewrite Ev.
    pose proof (mag_pos m2 e2) as Hp. unfold SFltb. simpl.
    destruct s2; split; try discriminate; try reflexivity; intros H; Lqa.lra.
  - injection Hb as <-.
    destruct (of_spec_finite s1 m1 e1) as [v [Hv Ev]].
    rewrite Hv in Ha. injection Ha as <-. rewrite Ev.
    pose proof (mag_pos m1 e1) as Hp. unfold SFltb. simpl.
    destruct s1; split; try discriminate; try reflexivity; intros H; Lqa.lra.
  - destruct (of_spec_finite s1 m1 e1) as [v1 [Hv1 Ev1]].
    destruct (of_spec_finite s2 m2 e2) as [v2 [Hv2 Ev2]].
    rewrite Hv1 in Ha. injection Ha as <-.
    rewrite Hv2 in Hb. injection Hb as <-.
    rewrite Ev1, Ev2.
    pose proof (mag_pos m1 e1) as Hp1. pose proof (mag_pos m2 e2) as Hp2.
    simpl in V1, V2.
    unfold SFltb. rewrite SFcompare_finite. destruct s1, s2.
    + destruct (cmp_mag_spec m1 e1 m2 e2 V1 V2) as [H|H|H]; simpl;
        split; try discriminate; try reflexivity; intros H'; Lqa.lra.
    + split; [intros _; Lqa.lra|reflexivity].
    + split; [discriminate|intros H; Lqa.lra].
    + destruct (cmp_mag_spec m1 e1 m2 e2 V1 V2) as [H|H|H]; simpl;
        split; try discriminate; try reflexivity; intros H'; Lqa.lra.
Qed.

(** On finite numbers, [<] of binary64 is the order of the values. *)
Lemma ltb_value x y a b :
  B64.value x = Some a -> B64.value y = Some b ->
  (PrimFloat.ltb x y = true <-> (a < b)%Q).
Proof.
  intros Ha Hb. rewrite ltb_spec.
  apply SFltb_value; auto using Prim2SF_valid.
Qed.

Lemma SFcompare_refl f : f <> S754_nan -> SFcompare f f = Some Eq.
Proof.
  destruct f as [s|s| |s m e]; intros H; try congruence; simpl.
  - reflexivity.
  - now destruct s.
  - destruct s; rewrite Z.compare_refl, Pcompare_refl; reflexivity.
Qed.

(** NaN is neither below nor above anything. *)
Lemma ltb_not_null_l x y : PrimFloat.ltb x y = true -> B64.isnull x = false.
Proof.
  unfold B64.isnull. rewrite ltb_spec, eqb_spec. unfold SFltb, SFeqb.
  intros H. rewrite SFcompare_refl; [reflexivity|].
  intros E. rewrite E in H. discriminate.
Qed.

Lemma ltb_not_null_r x y : PrimFloat.ltb x y = true -> B64.isnull y = false.
Proof.
  unfold B64.isnull. rewrite ltb_spec, eqb_spec. unfold SFltb, SFeqb.
  intros H. rewrite SFcompare_refl; [reflexivity|].
  intros E. rewrite E in H. now destruct (Prim2SF x).
Qed.

Lemma ltb_nan_r x : PrimFloat.ltb x PrimFloat.nan = false.
Proof.
  destruct (PrimFloat.ltb x PrimFloat.nan) eqn:E; [|reflexivity].
  apply ltb_not_null_r in E. discriminate.
Qed.

Lemma ltb_nan_l x : PrimFloat.ltb PrimFloat.nan x = false.
Proof.
  destruct (PrimFloat.ltb PrimFloat.nan x) eqn:E; [|reflexivity].
  apply ltb_not_null_l in E. discriminate.
Qed.

Lemma is_outlier_not_null lower upper c :
  B64.is_outlier lower upper c = true -> B64.isnull c = false.
Proof.
  unfold B64.is_outlier. intros H. apply orb_true_iff in H as [H|H].
  - now apply ltb_not_null_l in H.
  - now apply ltb_not_null_r in H.
Qed.

Lemma is_outlier_value lower upper c lo hi x :
  B64.value lower = Some lo -> B64.value upper = Some hi ->
  B64.value c = Some x ->
  (B64.is_outlier lower upper c = true <-> (x < lo \/ hi < x)%Q).
Proof.
  intros Hlo Hhi Hx. unfold B64.is_outlier. rewrite orb_true_iff.
  now rewrite (ltb_value c lower x lo Hx Hlo), (ltb_value upper c hi x Hhi Hx).
Qed.

(** With NaN for quartiles, as for a column without a value, no cell is an
    outlier. *)
Lemma outliers_nan col_data :
  B64.outliers PrimFloat.nan PrimFloat.nan col_data = [].
Proof.
  unfold B64.outliers.
  assert (Hl : B64.lower_bound PrimFloat.nan PrimFloat.nan = PrimFloat.nan)
    by (vm_compute; reflexivity).
  assert (Hu : B64.upper_bound PrimFloat.nan PrimFloat.nan = PrimFloat.nan)
    by (vm_compute; reflexivity).
  rewrite Hl, Hu. induction col_data as [|c col_data IH]; [reflexivity|].
  simpl. unfold B64.is_outlier at 1. now rewrite ltb_nan_r, ltb_nan_l.
Qed.

End B64Facts.

(** C4 (amended): the outliers counted are the cells that are strictly
    below [lower_bound] or strictly above [upper_bound], the two binary64
    numbers that the code computes from the quartiles as q1 - 1.5 iqr and
    q3 + 1.5 iqr with iqr = q3 - q1, each subtraction, product and sum
    being the binary64 one.  A missing cell is never counted, and none is
    when the quartiles are NaN; among finite numbers the test is the strict
    order of the values.  With their quartiles 5 and 5, no cell of
    [5, 5, 5, 5, 5] is counted and one cell of [5, 5, 5, 5, 100] is, the
    cell 100. *)
Theorem outliers_lie_outside_the_computed_bounds :
  (forall q1 q3 col_data,
      B64.outlier_count q1 q3 col_data
      = List.length (B64.outliers q1 q3 col_data)
      /\ (forall c, In c (B64.outliers q1 q3 col_data) ->
                    In c col_data /\ B64.isnull c = false)
      /\ (forall c lo hi x,
            B64.value (B64.lower_bound q1 q3) = Some lo ->
            B64.value (B64.upper_bound q1 q3) = Some hi ->
            B64.value c = Some x ->
            (In c (B64.outliers q1 q3 col_data)
             <-> In c col_data /\ (x < lo \/ hi < x)%Q))
      /\ B64.lower_bound q1 q3
         = PrimFloat.sub q1 (PrimFloat.mul B64.three_halves (PrimFloat.sub q3 q1))
      /\ B64.upper_bound q1 q3
         = PrimFloat.add q3 (PrimFloat.mul B64.three_halves (PrimFloat.sub q3 q1)))
  /\ B64.value B64.three_halves = Some (3 # 2)%Q
  /\ (forall col_data, B64.outliers PrimFloat.nan PrimFloat.nan col_data = [])
  /\ (pd.quantile (1 # 4) (map B64.value B64.fives) = B64.value B64.five
      /\ pd.quantile (3 # 4) (map B64.value B64.fives) = B64.value B64.five
      /\ B64.outlier_count B64.five B64.five B64.fives = 0%nat)
  /\ (pd.quantile (1 # 4) (map B64.value B64.fives_and_100)
      = B64.value B64.five
      /\ pd.quantile (3 # 4) (map B64.value B64.fives_and_100)
         = B64.value B64.five
      /\ B64.outliers B64.five B64.five B64.fives_and_100 = [B64.hundred]
      /\ B64.outlier_count B64.five B64.five B64.fives_and_100 = 1%nat).
Proof.
  split; [|split; [|split; [|split]]].
  - intros q1 q3 col_data. split; [reflexivity|]. split; [|split].
    + intros c Hc. apply filter_In in Hc as [Hin Hc]. split; [assumption|].
      now apply B64Facts.is_outlier_not_null in Hc.
    + intros c lo hi x Hlo Hhi Hx. unfold B64.outliers. rewrite filter_In.
      now rewrite (B64Facts.is_outlier_value _ _ c lo hi x Hlo Hhi Hx).
    + split; reflexivity.
  - vm_compute. reflexivity.
  - apply B64Facts.outliers_nan.
  - repeat split; vm_compute; reflexivity.
  - repeat split; vm_compute; reflexivity.
Qed.

Lemma outliers_lie_outside_the_computed_bounds_witness :
  In B64.hundred (B64.outliers B64.five B64.five B64.fives_and_100)
  <-> In B64.hundred B64.fives_and_100 /\ (100 < 5 \/ 5 < 100)%Q.
Proof.
  apply (proj1 (proj2 (proj2 (proj1 outliers_lie_outside_the_computed_bounds
                                B64.five B64.five B64.fives_and_100)))
           B64.hundred 5%Q 5%Q 100%Q); vm_compute; reflexivity.
Defined.

(** C4 (as stated) fails: the quartiles of [0.1, 0.1, 0.7, 1.3, 3.1] are
    0.1 and 1.3, and the upper bound computed from them is the binary64
    number just below 3.1, so that the cell 3.1 is counted; yet 3.1 is not
    strictly outside the interval from q1 - 1.5 iqr to q3 + 1.5 iqr, whose
    upper end is above it. *)
Lemma a_value_inside_the_fences_is_counted :
  pd.quantile (1 # 4) (map B64.value B64.tenths) = B64.value B64.tenths_q1
  /\ pd.quantile (3 # 4) (map B64.value B64.tenths) = B64.value B64.tenths_q3
  /\ B64.outliers B64.tenths_q1 B64.tenths_q3 B64.tenths = [B64.tenths_max]
  /\ B64.outlier_count B64.tenths_q1 B64.tenths_q3 B64.tenths = 1%nat
  /\ exists a b x hi,
       B64.value B64.tenths_q1 = Some a
       /\ B64.value B64.tenths_q3 = Some b
       /\ B64.value B64.tenths_max = Some x
       /\ B64.value (B64.upper_bound B64.tenths_q1 B64.tenths_q3) = Some hi
       /\ (hi < x)%Q
       /\ (x < b + (3 # 2) * (b - a))%Q
       /\ ~ strictly_outside a b x.
Proof.
  split; [vm_compute; reflexivity|]. split; [vm_compute; reflexivity|].
  split; [vm_compute; reflexivity|]. split; [vm_compute; reflexivity|].
  eexists _, _, _, _.
  split; [vm_compute; reflexivity|]. split; [vm_compute; reflexivity|].
  split; [vm_compute; reflexivity|]. split; [vm_compute; reflexivity|].
  split; [vm_compute; reflexivity|]. split; [vm_compute; reflexivity|].
  unfold strictly_outside. intros [H|H]; vm_compute in H; discriminate.
Qed.

(** ** Null counts *)

Section NullFacts.
Context {A : Type}.
Implicit Type l : list (option A).

Lemma isnull_sum_count l : (pd.isnull_sum l + pd.count l = List.length l)%nat.
Proof.
  unfold pd.isnull_sum, pd.count.
  induction l as [|[x|] l IH]; simpl; lia.
Qed.

Lemma all_null_dropna l : pd.isnull_sum l = List.length l -> pd.dropna l = [].
Proof.
  intros H. pose proof (isnull_sum_count l) as Hc. unfold pd.count in Hc.
  destruct (pd.dropna l); [reflexivity|simpl in Hc; lia].
Qed.
End NullFacts.

Lemma null_cells_count s : (null_cells s + non_null_cells s = pd.len s)%nat.
Proof. destruct s; simpl; apply isnull_sum_count. Qed.

(** C7: in the entry of a column that has at least one row, the null count
    and the number of non-null cells add up to the length of the column,
    and the null percentage is a hundred times the null count divided by
    the length. *)
Theorem null_count_and_fraction s p :
  (0 < pd.len s)%nat ->
  DP.profile_series s = Py.Ok p ->
  (DP.null_count p + non_null_cells s = pd.len s)%nat
  /\ exists pct,
       DP.null_percentage p = Some pct
       /\ (pct / 100 == pd.of_nat (DP.null_count p) / pd.of_nat (pd.len s))%Q
       /\ (pct / 100 == null_fraction s)%Q.
Proof.
  intros Hlen Hp.
  destruct (profile_series_common s p Hp) as [_ [Hn Hpct]].
  rewrite Hn. split; [apply null_cells_count|].
  rewrite Hpct. unfold null_fraction.
  destruct (pd.len s) as [|n]; [lia|].
  unfold np_truediv, fmul, flift2. eexists. split; [reflexivity|].
  rewrite !Qred_correct.
  set (q := (pd.of_nat (null_cells s) / pd.of_nat (S n))%Q).
  split; field.
Qed.

Lemma null_count_and_fraction_witness :
  (DP.null_count (object_profile vendors_201)
   + non_null_cells (pd.Object vendors_201)
   = pd.len (pd.Object vendors_201))%nat
  /\ exists pct,
       DP.null_percentage (object_profile vendors_201) = Some pct
       /\ (pct / 100
           == pd.of_nat (DP.null_count (object_profile vendors_201))
              / pd.of_nat (pd.len (pd.Object vendors_201)))%Q
       /\ (pct / 100 == null_fraction (pd.Object vendors_201))%Q.
Proof.
  apply (null_count_and_fraction (pd.Object vendors_201)
           (object_profile vendors_201)).
  - simpl. lia.
  - reflexivity.
Defined.

(** ** Tables without rows or without columns *)

Lemma profile_series_no_rows s p :
  pd.len s = 0%nat ->
  DP.profile_series s = Py.Ok p ->
  DP.null_percentage p = NaN /\ DP.has_min p = false.
Proof.
  destruct s as [dt values|values|values]; simpl; intros Hlen;
    apply length_zero_iff_nil in Hlen; subst values; simpl.
  - discriminate.
  - intros H. injection H as <-. auto.
  - intros H. injection H as <-. auto.
Qed.

Lemma column_rules_none column p self :
  DP.null_percentage p = NaN -> DP.has_min p = false ->
  fst (DP.column_rules column p self) = Py.Ok [].
Proof.
  intros Hpct Hmin. rewrite column_rules_eq. unfold rules_of, DP.has_min in *.
  rewrite Hpct. destruct (DP.block p); [discriminate|reflexivity..].
Qed.

Lemma rules_dict_nil items : forall rss,
  Forall (fun rs => rs = []) rss -> rules_dict items rss = [].
Proof.
  unfold rules_dict.
  induction items as [|[c p] items IH]; intros rss H; [reflexivity|].
  destruct H as [|rs rss -> H]; [reflexivity|].
  simpl. now apply IH.
Qed.

Lemma computed_nil self items rss :
  computed self items rss ->
  Forall (fun e => DP.null_percentage (snd e) = NaN /\ DP.has_min (snd e) = false)
         items ->
  Forall (fun rs => rs = []) rss.
Proof.
  unfold computed. induction 1 as [|[c p] rs items rss Hrs _ IH]; intros H.
  - constructor.
  - inversion H as [|? ? [Hpct Hmin] H']; subst. simpl in *.
    rewrite (column_rules_none c p self Hpct Hmin) in Hrs.
    injection Hrs as <-. constructor; auto.
Qed.

Lemma profiled_no_rows df prof :
  Forall (fun c => pd.len (snd c) = 0%nat) df ->
  profiled df prof ->
  Forall (fun e => DP.null_percentage (snd e) = NaN /\ DP.has_min (snd e) = false)
         prof.
Proof.
  intros Hlen Hprof. unfold profiled in Hprof.
  induction Hprof as [|[c s] [k p] df prof [_ Hp] _ IH]; [constructor|].
  inversion Hlen as [|? ? Hs Hlen']; subst. simpl in *.
  constructor; auto. simpl. now apply (profile_series_no_rows s p).
Qed.

(** C5 (amended): a table without columns is profiled, with an empty
    profile and no rule.  A table without rows is profiled too when it has
    no numeric column: every column gets an entry, whose null percentage is
    NaN, and no rule is suggested.  When it has a numeric column, the first
    one raises ZeroDivisionError, and the entries of the columns before it
    are left in the profiler. *)
Theorem profiling_a_table_without_rows :
  run [] = Py.Ok ([], [])
  /\ (forall df,
        pd.well_formed df 0 ->
        Forall not_numeric df ->
        exists prof,
          run df = Py.Ok (prof, [])
          /\ Py.keys prof = pd.columns df
          /\ Forall (fun e => DP.null_percentage (snd e) = NaN) prof)
  /\ (forall pre column dt values post,
        pd.well_formed (pre ++ (column, pd.Numeric dt values) :: post) 0 ->
        Forall not_numeric pre ->
        exists prof,
          DP.generate_profile
            (DP.__init__ (pre ++ (column, pd.Numeric dt values) :: post))
          = (Py.Raise Py.ZeroDivisionError,
             {| DP.df := pre ++ (column, pd.Numeric dt values) :: post;
                DP.profile := prof |})
          /\ Py.keys prof = pd.columns pre).
Proof.
  split; [reflexivity|]. split.
  - intros df [Hnd Hlen] Hnum.
    destruct (profiled_exists df) as [prof Hprof].
    { eapply Forall_impl; [|exact Hnum]. intros c Hc.
      now apply profile_series_not_numeric. }
    destruct (run_ok df prof Hnd Hprof) as [rss [Hrss Hrun]].
    pose proof (profiled_no_rows df prof Hlen Hprof) as Hnan.
    exists prof. split; [|split].
    + rewrite Hrun, (rules_dict_nil prof rss); [reflexivity|].
      eapply computed_nil; eauto.
    + now apply profiled_keys.
    + eapply Forall_impl; [|exact Hnan]. now intros e [H _].
  - intros pre column dt values post [Hnd Hlen] Hnum.
    destruct (profiled_exists pre) as [prof Hprof].
    { eapply Forall_impl; [|exact Hnum]. intros c Hc.
      now apply profile_series_not_numeric. }
    exists prof. split; [|now apply profiled_keys].
    apply generate_profile_raise; auto.
    rewrite Forall_forall in Hlen.
    specialize (Hlen (column, pd.Numeric dt values) (in_elt _ _ _)).
    simpl in Hlen. apply length_zero_iff_nil in Hlen. now subst values.
Qed.

Lemma profiling_a_table_without_rows_witness :
  (exists prof,
      run no_rows_no_numbers = Py.Ok (prof, [])
      /\ Py.keys prof = pd.columns no_rows_no_numbers
      /\ Forall (fun e => DP.null_percentage (snd e) = NaN) prof)
  /\ (exists prof,
        DP.generate_profile (DP.__init__ no_rows)
        = (Py.Raise Py.ZeroDivisionError,
           {| DP.df := no_rows; DP.profile := prof |})
        /\ Py.keys prof = pd.columns [("zone"%string, pd.Object [])]).
Proof.
  split.
  - apply (proj1 (proj2 profiling_a_table_without_rows) no_rows_no_numbers).
    + split.
      * repeat constructor; simpl; intuition discriminate.
      * repeat constructor.
    + repeat constructor.
  - apply (proj2 (proj2 profiling_a_table_without_rows)
             [("zone"%string, pd.Object [])] "fare"%string pd.float64 []
             [("pickup"%string, pd.Datetime [])]).
    + split.
      * repeat constructor; simpl; intuition discriminate.
      * repeat constructor.
    + repeat constructor.
Defined.

(** C5 (as stated) fails: the table without columns and a table without
    rows both get a profile, and no exception is raised. *)
Lemma empty_table_gets_a_profile :
  DP.generate_profile (DP.__init__ []) = (Py.Ok [], DP.__init__ [])
  /\ run [] = Py.Ok ([], [])
  /\ run no_rows_no_numbers
     = Py.Ok ([("zone"%string, object_profile []);
               ("pickup"%string,
                DP.common Z.eqb DP.VTime "datetime64[ns]" []
                  (DP.datetime pd.NaT pd.NaT))], []).
Proof. repeat split. Qed.

(** ** A column whose cells are all null *)

Lemma Qred_ratio_same n : (0 < n)%nat -> Qred (pd.of_nat n / pd.of_nat n) = 1%Q.
Proof.
  intros H. transitivity (Qred 1); [|reflexivity]. apply Qred_complete.
  field. now apply of_nat_neq_0.
Qed.

Lemma Qred_ratio_zero n : (0 < n)%nat -> Qred (pd.of_nat 0 / pd.of_nat n) = 0%Q.
Proof.
  intros H. transitivity (Qred 0); [|reflexivity]. apply Qred_complete.
  unfold pd.of_nat at 1. simpl inject_Z. field. now apply of_nat_neq_0.
Qed.

Lemma percentage_all n :
  (0 < n)%nat -> fmul (np_truediv n n) (Some 100%Q) = Some 100%Q.
Proof.
  intros H. destruct n as [|n]; [lia|].
  unfold np_truediv, fmul, flift2. now rewrite Qred_ratio_same by lia.
Qed.

Lemma percentage_none n :
  (0 < n)%nat -> fmul (np_truediv 0 n) (Some 100%Q) = Some 0%Q.
Proof.
  intros H. destruct n as [|n]; [lia|].
  unfold np_truediv, fmul, flift2. now rewrite Qred_ratio_zero by lia.
Qed.

Lemma stats_of_all_null values :
  (0 < List.length values)%nat ->
  pd.isnull_sum values = List.length values ->
  let stats := stats_of values in
  DP.min stats = NaN /\ DP.max stats = NaN /\ DP.mean stats = NaN
  /\ DP.median stats = NaN /\ DP.std stats = NaN
  /\ DP.q1 stats = NaN /\ DP.q3 stats = NaN
  /\ DP.outlier_count stats = 0%nat
  /\ DP.outlier_percentage stats = Some 0%Q
  /\ DP.suggested_min stats = NaN /\ DP.suggested_max stats = NaN.
Proof.
  intros Hlen Hnull. pose proof (all_null_dropna values Hnull) as Hd.
  assert (Hc : pd.count values = 0%nat) by (unfold pd.count; now rewrite Hd).
  pose proof (outliers_all_null values Hc) as Hout.
  cbn [stats_of DP.min DP.max DP.mean DP.median DP.std DP.q1 DP.q3
       DP.outlier_count DP.outlier_percentage DP.suggested_min DP.suggested_max].
  unfold pd.median. rewrite !(quantile_all_null _ values Hc), Hout.
  unfold pd.min, pd.max, pd.mean, pd.std, pd.var. rewrite Hd. simpl List.length.
  rewrite (percentage_none _ Hlen). repeat split; reflexivity.
Qed.

(** C6 (amended): an entirely null column of a table that has rows is
    profiled without an exception: unique count 0, null count equal to the
    length, null percentage 100, no sample value.  Its kind-specific entries
    are present all the same: for a numeric column the statistics are NaN,
    the outlier count is 0 and the outlier percentage is 0; for a datetime
    column the two dates are NaT; for another column the most common values
    are the empty dictionary. *)
Theorem profile_of_an_all_null_column s :
  (0 < pd.len s)%nat ->
  all_null s ->
  exists p,
    DP.profile_series s = Py.Ok p
    /\ DP.unique_count p = 0%nat
    /\ DP.null_count p = pd.len s
    /\ DP.null_percentage p = Some 100%Q
    /\ DP.sample_values p = []
    /\ match s with
       | pd.Numeric _ _ =>
           exists stats,
             DP.block p = DP.numeric stats
             /\ DP.min stats = NaN /\ DP.max stats = NaN
             /\ DP.mean stats = NaN /\ DP.median stats = NaN
             /\ DP.std stats = NaN
             /\ DP.q1 stats = NaN /\ DP.q3 stats = NaN
             /\ DP.outlier_count stats = 0%nat
             /\ DP.outlier_percentage stats = Some 0%Q
             /\ DP.suggested_min stats = NaN /\ DP.suggested_max stats = NaN
       | pd.Datetime _ => DP.block p = DP.datetime pd.NaT pd.NaT
       | pd.Object _ => DP.block p = DP.categorical []
       end.
Proof.
  unfold all_null.
  destruct s as [dt values|values|values]; simpl; intros Hlen Hnull;
    pose proof (all_null_dropna values Hnull) as Hd.
  - rewrite numeric_stats_eq. destruct values as [|c0 values']; [simpl in Hlen; lia|].
    remember (c0 :: values') as values eqn:Ev. clear Ev c0 values'.
    eexists. split; [reflexivity|].
    unfold DP.common, pd.nunique, pd.head.
    cbn [DP.unique_count DP.null_count DP.null_percentage DP.sample_values DP.block].
    rewrite Hd, Hnull, (percentage_all _ Hlen).
    repeat (split; [reflexivity|]).
    exists (stats_of values). split; [reflexivity|].
    now apply stats_of_all_null.
  - eexists. split; [reflexivity|].
    unfold DP.common, pd.nunique, pd.head, pd.dt_min, pd.dt_max.
    cbn [DP.unique_count DP.null_count DP.null_percentage DP.sample_values DP.block].
    rewrite Hd, Hnull, (percentage_all _ Hlen). repeat split.
  - eexists. split; [reflexivity|].
    unfold DP.common, pd.nunique, pd.head, pd.value_counts.
    cbn [DP.unique_count DP.null_count DP.null_percentage DP.sample_values DP.block].
    rewrite Hd, Hnull, (percentage_all _ Hlen). repeat split.
Qed.

Lemma profile_of_an_all_null_column_witness :
  exists p,
    DP.profile_series (pd.Numeric pd.float64 no_tips) = Py.Ok p
    /\ DP.unique_count p = 0%nat
    /\ DP.null_count p = 3%nat
    /\ DP.null_percentage p = Some 100%Q
    /\ DP.sample_values p = []
    /\ exists stats,
         DP.block p = DP.numeric stats
         /\ DP.min stats = NaN /\ DP.max stats = NaN
         /\ DP.mean stats = NaN /\ DP.median stats = NaN
         /\ DP.std stats = NaN
         /\ DP.q1 stats = NaN /\ DP.q3 stats = NaN
         /\ DP.outlier_count stats = 0%nat
         /\ DP.outlier_percentage stats = Some 0%Q
         /\ DP.suggested_min stats = NaN /\ DP.suggested_max stats = NaN.
Proof.
  apply (profile_of_an_all_null_column (pd.Numeric pd.float64 no_tips)).
  - simpl. lia.
  - reflexivity.
Defined.

(** C6 (as stated) fails: the entry of a numeric column of three null
    cells has the numeric keys, among them an outlier count of 0 and an
    outlier percentage of 0, and the value_range rule is suggested from it. *)
Lemma all_null_column_has_numeric_entries :
  exists p,
    DP.profile_series (pd.Numeric pd.float64 no_tips) = Py.Ok p
    /\ DP.has_min p = true
    /\ (exists stats, DP.block p = DP.numeric stats
                      /\ DP.outlier_count stats = 0%nat
                      /\ DP.outlier_percentage stats = Some 0%Q)
    /\ rule_texts (run all_null_tips)
       = Some [("tip"%string,
                [(DP.value_range,
                  "tip should be between nan and nan"%string)])].
Proof.
  eexists. split; [reflexivity|]. split; [reflexivity|]. split.
  - eexists. split; [reflexivity|]. split; reflexivity.
  - reflexivity.
Qed.

(** ** Running the methods again *)

Lemma profile_loop_get columns : forall self c s p,
  pd.getitem (DP.df self) c = Some s ->
  DP.profile_series s = Py.Ok p ->
  Py.get (DP.profile self) c = Some p ->
  Py.get (DP.profile (snd (DP.profile_loop columns self))) c = Some p.
Proof.
  induction columns as [|c0 rest IH]; intros self c s p Hs Hp Hget;
    [assumption|].
  rewrite profile_loop_cons.
  destruct (pd.getitem (DP.df self) c0) as [s0|] eqn:E0; [|assumption].
  destruct (DP.profile_series s0) as [p0|e] eqn:Ep0; [|assumption].
  apply (IH _ c s p); simpl; auto.
  destruct (String.eqb c0 c) eqn:E.
  - apply String.eqb_eq in E. subst c0.
    rewrite Hs in E0. injection E0 as <-. rewrite Hp in Ep0. injection Ep0 as <-.
    apply get_set_same.
  - rewrite get_set_other; [assumption|].
    intros ->. now rewrite String.eqb_refl in E.
Qed.

(** The loop changes nothing in a dictionary that already holds what the
    loop has stored. *)
Lemma profile_loop_stable columns : forall self r self1,
  DP.profile_loop columns self = (r, self1) ->
  forall self2,
    DP.df self2 = DP.df self ->
    (forall k v, Py.get (DP.profile self1) k = Some v ->
                 Py.get (DP.profile self2) k = Some v) ->
    DP.profile_loop columns self2 = (r, self2).
Proof.
  induction columns as [|c rest IH]; intros self r self1 Hrun self2 Hdf Hext.
  - simpl in Hrun. injection Hrun as <- <-. reflexivity.
  - rewrite profile_loop_cons in Hrun. rewrite profile_loop_cons, Hdf.
    destruct (pd.getitem (DP.df self) c) as [s|] eqn:Es.
    + destruct (DP.profile_series s) as [p|e] eqn:Ep.
      * assert (Hc : Py.get (DP.profile self1) c = Some p).
        { replace self1 with (snd (DP.profile_loop rest
                    {| DP.df := DP.df self;
                       DP.profile := Py.set (DP.profile self) c p |}))
            by now rewrite Hrun.
          apply (profile_loop_get rest _ c s p); simpl; auto.
          apply get_set_same. }
        rewrite (set_present _ _ _ (Hext _ _ Hc)). rewrite <- Hdf.
        replace {| DP.df := DP.df self2; DP.profile := DP.profile self2 |}
          with self2 by now destruct self2.
        apply (IH _ r self1 Hrun); auto.
      * now injection Hrun as <- _.
    + now injection Hrun as <- _.
Qed.

Lemma generate_profile_twice self :
  DP.generate_profile (snd (DP.generate_profile self)) = DP.generate_profile self.
Proof.
  rewrite !generate_profile_eq.
  destruct (DP.profile_loop (pd.columns (DP.df self)) self) as [r self1] eqn:E.
  assert (Hdf : DP.df self1 = DP.df self).
  { replace self1 with (snd (DP.profile_loop (pd.columns (DP.df self)) self))
      by now rewrite E.
    apply profile_loop_df. }
  assert (Hsnd : snd (match r with
                      | Py.Ok _ => (Py.Ok (DP.profile self1), self1)
                      | Py.Raise e => (Py.Raise e, self1)
                      end) = self1) by now destruct r.
  rewrite Hsnd, Hdf.
  now rewrite (profile_loop_stable _ self r self1 E self1 Hdf (fun k v H => H)).
Qed.

Lemma rules_loop_self items : forall rules self,
  snd (DP.rules_loop items rules self) = self.
Proof.
  induction items as [|[c p] items IH]; intros rules self; [reflexivity|].
  rewrite rules_loop_cons.
  destruct (fst (DP.column_rules c p self)); [apply IH|reflexivity].
Qed.

Lemma column_rules_zero_count column p self :
  fst (DP.column_rules column p self) =
    match DP.block p with
    | DP.numeric _ =>
        match zero_count_in (DP.df self) column with
        | Some z => Py.Ok (rules_of column p z)
        | None => Py.Raise (Py.KeyError column)
        end
    | _ => Py.Ok (rules_of column p 0)
    end.
Proof.
  rewrite column_rules_eq. unfold zero_count_in. simpl.
  destruct (DP.block p); try reflexivity.
  now destruct (pd.getitem (DP.df self) column).
Qed.

Lemma rules_loop_zero_counts items : forall rules self1 self2,
  (forall c, In c (Py.keys items) ->
             zero_count_in (DP.df self1) c = zero_count_in (DP.df self2) c) ->
  fst (DP.rules_loop items rules self1) = fst (DP.rules_loop items rules self2).
Proof.
  induction items as [|[c p] items IH]; intros rules self1 self2 H;
    [reflexivity|].
  rewrite !rules_loop_cons, !column_rules_zero_count.
  rewrite (H c) by now left.
  destruct (DP.block p).
  - destruct (zero_count_in (DP.df self2) c); [|reflexivity].
    apply IH. intros c' Hc'. apply H. now right.
  - apply IH. intros c' Hc'. apply H. now right.
  - apply IH. intros c' Hc'. apply H. now right.
Qed.

(** C8 (amended): running generate_profile again returns the same and
    leaves the profiler as it is, so that the rules suggested after the
    second run are those suggested after the first; suggest_quality_rules
    does not change the profiler and returns the same when it is run again;
    and the rules it returns are determined by the profile together with
    the numbers of zeros of the columns of the table. *)
Theorem profiling_twice_and_rules_from_profile_and_zeros :
  (forall self,
      DP.generate_profile (snd (DP.generate_profile self))
      = DP.generate_profile self)
  /\ (forall self,
        DP.suggest_quality_rules
          (snd (DP.generate_profile (snd (DP.generate_profile self))))
        = DP.suggest_quality_rules (snd (DP.generate_profile self)))
  /\ (forall self,
        snd (DP.suggest_quality_rules self) = self
        /\ DP.suggest_quality_rules (snd (DP.suggest_quality_rules self))
           = DP.suggest_quality_rules self)
  /\ (forall self1 self2,
        DP.profile self1 = DP.profile self2 ->
        (forall c, In c (Py.keys (DP.profile self1)) ->
                   zero_count_in (DP.df self1) c = zero_count_in (DP.df self2) c) ->
        fst (DP.suggest_quality_rules self1) = fst (DP.suggest_quality_rules self2)).
Proof.
  assert (Hself : forall self, snd (DP.suggest_quality_rules self) = self).
  { intros self. rewrite suggest_quality_rules_eq. apply rules_loop_self. }
  split; [exact generate_profile_twice|]. split; [|split].
  - intros self. now rewrite generate_profile_twice.
  - intros self. split; [apply Hself|]. now rewrite Hself.
  - intros self1 self2 Hp Hz. rewrite !suggest_quality_rules_eq, <- Hp.
    now apply rules_loop_zero_counts.
Qed.

Lemma profiling_twice_and_rules_from_profile_and_zeros_witness :
  fst (DP.suggest_quality_rules
         {| DP.df := vendor_table vendors_201;
            DP.profile := [("vendor"%string, object_profile vendors_201)] |})
  = fst (DP.suggest_quality_rules
           {| DP.df := vendor_table vendors_202;
              DP.profile := [("vendor"%string, object_profile vendors_201)] |}).
Proof.
  apply (proj2 (proj2 (proj2 profiling_twice_and_rules_from_profile_and_zeros))).
  - reflexivity.
  - intros c [<-|[]]. reflexivity.
Defined.

(** The run on a table of one numeric column. *)
Lemma run_numeric_column c dt values :
  values <> [] ->
  run [(c, pd.Numeric dt values)]
  = Py.Ok ([(c, numeric_profile dt values)],
           [(c, rules_of c (numeric_profile dt values)
                  (DP.zero_sum (pd.Numeric dt values)))]).
Proof.
  intros Hne. unfold run.
  rewrite (generate_profile_ok _ [(c, numeric_profile dt values)]).
  - rewrite suggest_quality_rules_eq. cbn [DP.profile].
    rewrite rules_loop_cons, column_rules_eq.
    cbn [fst DP.block numeric_profile DP.common DP.df pd.getitem].
    rewrite String.eqb_refl.
    replace (nonempty_entry _) with true.
    + reflexivity.
    + unfold nonempty_entry, rules_of. cbn [snd DP.block].
      now destruct (flt _ _).
  - repeat constructor. intros [].
  - constructor; [|constructor]. split; [reflexivity|].
    cbn [snd DP.profile_series]. rewrite numeric_stats_eq.
    destruct values; [contradiction|reflexivity].
Qed.

Lemma same_statistics : stats_of without_zero = stats_of with_zero.
Proof.
  unfold stats_of, pd.std, pd.median.
  replace (pd.min without_zero) with (pd.min with_zero)
    by (vm_compute; reflexivity).
  replace (pd.max without_zero) with (pd.max with_zero)
    by (vm_compute; reflexivity).
  replace (pd.mean without_zero) with (pd.mean with_zero)
    by (vm_compute; reflexivity).
  replace (pd.quantile (1 # 2) without_zero) with (pd.quantile (1 # 2) with_zero)
    by (vm_compute; reflexivity).
  replace (pd.quantile (1 # 4) without_zero) with (pd.quantile (1 # 4) with_zero)
    by (vm_compute; reflexivity).
  replace (pd.quantile (3 # 4) without_zero) with (pd.quantile (3 # 4) with_zero)
    by (vm_compute; reflexivity).
  replace (pd.var 1 without_zero) with (pd.var 1 with_zero)
    by (vm_compute; reflexivity).
  replace (List.length (outliers without_zero))
    with (List.length (outliers with_zero)) by (vm_compute; reflexivity).
  reflexivity.
Qed.

Lemma same_profile :
  numeric_profile pd.int64 without_zero = numeric_profile pd.int64 with_zero.
Proof.
  unfold numeric_profile, DP.common. rewrite same_statistics.
  replace (pd.nunique Qeq_bool without_zero) with (pd.nunique Qeq_bool with_zero)
    by (vm_compute; reflexivity).
  reflexivity.
Qed.

(** C8 (as stated) fails: the rules are not a function of the profile
    alone.  Two tables have the same profile, and the column that holds a
    zero gets the warn_zeros rule while the other does not. *)
Lemma rules_depend_on_the_table :
  exists profile rules_a rules_b,
    run (fare_table with_zero) = Py.Ok (profile, rules_a)
    /\ run (fare_table without_zero) = Py.Ok (profile, rules_b)
    /\ option_map (map shape) (Py.get rules_a "fare")
       = Some [(DP.not_null, DP.error); (DP.value_range, DP.error);
               (DP.warn_zeros, DP.warning)]
    /\ option_map (map shape) (Py.get rules_b "fare")
       = Some [(DP.not_null, DP.error); (DP.value_range, DP.error)].
Proof.
  unfold fare_table.
  rewrite !run_numeric_column by discriminate.
  rewrite same_profile.
  do 3 eexists. split; [reflexivity|]. split; [reflexivity|].
  split; reflexivity.
Qed.

(** ** The rules dictionary *)

Lemma computed_In self items rss c p :
  computed self items rss -> In (c, p) items ->
  exists rs, fst (DP.column_rules c p self) = Py.Ok rs.
Proof.
  unfold computed. induction 1 as [|[c0 p0] rs0 items rss Hrs _ IH];
    intros Hin; [contradiction|].
  destruct Hin as [Heq|Hin]; [|auto].
  injection Heq as -> ->. eauto.
Qed.

Lemma suggest_quality_rules_ok self rules self' :
  NoDup (Py.keys (DP.profile self)) ->
  DP.suggest_quality_rules self = (Py.Ok rules, self') ->
  exists rss,
    computed self (DP.profile self) rss
    /\ rules = rules_dict (DP.profile self) rss.
Proof.
  intros Hnd H. rewrite suggest_quality_rules_eq in H.
  destruct (rules_loop_inv _ _ _ _ _ H) as [rss Hrss].
  exists rss. split; [assumption|].
  rewrite (rules_loop_ok self _ rss []) in H; auto.
  now injection H as <- _.
Qed.

(** C10: before generate_profile has run, suggest_quality_rules returns the
    empty dictionary.  In general the keys of the rules are columns of the
    profile, in its order; a column of the profile has its rules under its
    name, and is left out when it has none. *)
Theorem rules_cover_the_profiled_columns :
  (forall df,
      DP.suggest_quality_rules (DP.__init__ df) = (Py.Ok [], DP.__init__ df))
  /\ (forall self rules self',
        NoDup (Py.keys (DP.profile self)) ->
        DP.suggest_quality_rules self = (Py.Ok rules, self') ->
        (forall c, In c (Py.keys rules) -> In c (Py.keys (DP.profile self)))
        /\ (forall c p,
              In (c, p) (DP.profile self) ->
              exists rs,
                fst (DP.column_rules c p self) = Py.Ok rs
                /\ Py.get rules c
                   = match rs with [] => None | _ :: _ => Some rs end)
        /\ Py.keys rules
           = filter (has_rules rules) (Py.keys (DP.profile self))).
Proof.
  split; [reflexivity|].
  intros self rules self' Hnd H.
  destruct (suggest_quality_rules_ok self rules self' Hnd H) as [rss [Hrss ->]].
  split; [|split].
  - intros c. apply rules_dict_keys_incl.
  - intros c p Hin.
    destruct (computed_In self _ rss c p Hrss Hin) as [rs Hrs].
    exists rs. split; [assumption|].
    rewrite (rules_dict_get self _ rss c p rs Hnd Hrss Hin Hrs).
    now destruct rs.
  - apply rules_dict_keys; [assumption|].
    eapply computed_length; eauto.
Qed.

Lemma rules_cover_the_profiled_columns_witness :
  (forall c,
      In c (Py.keys [("vendor"%string,
                      [DP.not_null_rule "vendor" (object_profile vendors_201)])]) ->
      In c (Py.keys [("vendor"%string, object_profile vendors_201)]))
  /\ (forall c p,
        In (c, p) [("vendor"%string, object_profile vendors_201)] ->
        exists rs,
          fst (DP.column_rules c p
                 {| DP.df := vendor_table vendors_201;
                    DP.profile := [("vendor"%string, object_profile vendors_201)] |})
          = Py.Ok rs
          /\ Py.get [("vendor"%string,
                      [DP.not_null_rule "vendor" (object_profile vendors_201)])] c
             = match rs with [] => None | _ :: _ => Some rs end)
  /\ Py.keys [("vendor"%string,
               [DP.not_null_rule "vendor" (object_profile vendors_201)])]
     = filter (has_rules [("vendor"%string,
                           [DP.not_null_rule "vendor" (object_profile vendors_201)])])
              (Py.keys [("vendor"%string, object_profile vendors_201)]).
Proof.
  apply (proj2 rules_cover_the_profiled_columns
           {| DP.df := vendor_table vendors_201;
              DP.profile := [("vendor"%string, object_profile vendors_201)] |}
           _
           {| DP.df := vendor_table vendors_201;
              DP.profile := [("vendor"%string, object_profile vendors_201)] |}).
  - repeat constructor. intros [].
  - reflexivity.
Defined.

(** ** The most common values *)

Section SortedFacts.
Context {A : Type}.

Lemma StronglySorted_filter (R : A -> A -> Prop) f l :
  StronglySorted R l -> StronglySorted R (filter f l).
Proof.
  induction 1 as [|x l Hl IH Hx]; simpl; [constructor|].
  destruct (f x); [|assumption].
  constructor; [assumption|].
  rewrite Forall_forall in *. intros y Hy.
  apply filter_In in Hy as [Hy _]. auto.
Qed.

Lemma StronglySorted_weaken (R R' : A -> A -> Prop) l :
  (forall a b, In a l -> In b l -> R a b -> R' a b) ->
  StronglySorted R l -> StronglySorted R' l.
Proof.
  intros H Hs. induction Hs as [|x l Hl IH Hx]; [constructor|].
  constructor.
  - apply IH. intros a b Ha Hb. apply H; now right.
  - rewrite Forall_forall in *. intros y Hy.
    apply H; [now left|now right|auto].
Qed.

Lemma StronglySorted_map {B} (R : B -> B -> Prop) (f : A -> B) l :
  StronglySorted (fun a b => R (f a) (f b)) l -> StronglySorted R (map f l).
Proof.
  induction 1 as [|x l Hl IH Hx]; simpl; constructor; [assumption|].
  rewrite Forall_forall in *. intros y Hy.
  apply in_map_iff in Hy as [a [<- Ha]]. auto.
Qed.

Lemma StronglySorted_app_inv (R : A -> A -> Prop) l1 l2 a b :
  StronglySorted R (l1 ++ l2) -> In a l1 -> In b l2 -> R a b.
Proof.
  induction l1 as [|x l1 IH]; simpl; intros Hs Ha Hb; [contradiction|].
  inversion Hs as [|? ? Hs' Hx]; subst.
  destruct Ha as [->|Ha]; [|auto].
  rewrite Forall_forall in Hx. apply Hx, in_or_app. now right.
Qed.
End SortedFacts.

Section UniqueFacts.
Implicit Types (x y : string) (l : list string).

Lemma unique_In l y : In y (pd.unique String.eqb l) <-> In y l.
Proof.
  induction l as [|x l IH]; simpl; [tauto|].
  rewrite filter_In, IH. split.
  - intros [->|[H _]]; auto.
  - intros [->|H]; [now left|].
    destruct (String.eqb x y) eqn:E.
    + apply String.eqb_eq in E. now left.
    + right. now split.
Qed.

Lemma unique_NoDup l : NoDup (pd.unique String.eqb l).
Proof.
  induction l as [|x l IH]; simpl; constructor.
  - intros H. apply filter_In in H as [_ H].
    now rewrite String.eqb_refl in H.
  - now apply NoDup_filter.
Qed.

Lemma first_index_head x l : first_index x (x :: l) = 0%nat.
Proof. simpl. now rewrite String.eqb_refl. Qed.

Lemma first_index_tail x y l :
  String.eqb x y = false -> first_index y (x :: l) = S (first_index y l).
Proof. simpl. rewrite String.eqb_sym. now intros ->. Qed.

(** [unique] lists the values in the order in which the column meets them. *)
Lemma unique_sorted l :
  StronglySorted (fun a b => first_index a l < first_index b l)%nat
                 (pd.unique String.eqb l).
Proof.
  induction l as [|x l IH]; simpl pd.unique; constructor.
  - apply StronglySorted_filter with (f := fun y => negb (String.eqb x y)) in IH.
    revert IH. apply StronglySorted_weaken.
    intros a b Ha Hb Hab.
    apply filter_In in Ha as [_ Ha]. apply filter_In in Hb as [_ Hb].
    apply negb_true_iff in Ha, Hb.
    rewrite (first_index_tail x a l Ha), (first_index_tail x b l Hb). lia.
  - rewrite Forall_forall. intros y Hy.
    apply filter_In in Hy as [_ Hy]. apply negb_true_iff in Hy.
    rewrite first_index_head, (first_index_tail x y l Hy). lia.
Qed.

Lemma occurrences_count_occ x l :
  pd.occurrences String.eqb x l = count_occ string_dec l x.
Proof.
  unfold pd.occurrences. induction l as [|y l IH]; simpl; [reflexivity|].
  destruct (string_dec y x) as [->|Hne].
  - rewrite String.eqb_refl. simpl. now rewrite IH.
  - destruct (String.eqb x y) eqn:E; [|assumption].
    apply String.eqb_eq in E. congruence.
Qed.
End UniqueFacts.

Section SortDescFacts.
Variable v : list string.
Implicit Types (e : string * nat) (l : list (string * nat)).

Lemma insert_desc_perm e l : Permutation (pd.insert_desc e l) (e :: l).
Proof.
  induction l as [|e' l IH]; simpl; [reflexivity|].
  destruct (snd e' <=? snd e)%nat; [reflexivity|].
  rewrite IH. apply perm_swap.
Qed.

Lemma sort_desc_perm l : Permutation (pd.sort_desc l) l.
Proof.
  induction l as [|e l IH]; simpl; [reflexivity|].
  rewrite insert_desc_perm. now constructor.
Qed.

Lemma ranks_before_le e1 e2 : ranks_before v e1 e2 -> (snd e2 <= snd e1)%nat.
Proof. unfold ranks_before. lia. Qed.

Lemma insert_desc_sorted e l :
  StronglySorted (ranks_before v) l ->
  Forall (met_earlier v e) l ->
  StronglySorted (ranks_before v) (pd.insert_desc e l).
Proof.
  induction 1 as [|e' l Hl IH He']; intros Hearly; simpl.
  - repeat constructor.
  - inversion Hearly as [|? ? Hee' Hearly']; subst.
    destruct (snd e' <=? snd e)%nat eqn:E.
    + apply Nat.leb_le in E. constructor; [now constructor|].
      rewrite Forall_forall in *. intros x [<-|Hx].
      * unfold ranks_before. unfold met_earlier in Hee'. lia.
      * pose proof (ranks_before_le _ _ (He' x Hx)) as Hle.
        specialize (Hearly' x Hx). unfold met_earlier in Hearly'.
        unfold ranks_before. lia.
    + apply Nat.leb_gt in E. constructor; [auto|].
      rewrite Forall_forall in *. intros x Hx.
      apply (Permutation_in _ (insert_desc_perm e l)) in Hx as [<-|Hx].
      * unfold ranks_before. lia.
      * auto.
Qed.

(** Sorting entries that are in the order of first appearance puts them
    by decreasing count, and in the order of first appearance among
    equal counts. *)
Lemma sort_desc_sorted l :
  StronglySorted (met_earlier v) l ->
  StronglySorted (ranks_before v) (pd.sort_desc l).
Proof.
  induction 1 as [|e l Hl IH He]; simpl; [constructor|].
  apply insert_desc_sorted; [assumption|].
  rewrite Forall_forall in *. intros x Hx.
  apply He. now apply (Permutation_in _ (sort_desc_perm l)).
Qed.
End SortDescFacts.

Lemma value_counts_In cells x n :
  In (x, n) (pd.value_counts String.eqb cells)
  <-> In x (pd.dropna cells) /\ n = count_occ string_dec (pd.dropna cells) x.
Proof.
  unfold pd.value_counts. set (v := pd.dropna cells). split.
  - intros H. apply (Permutation_in _ (sort_desc_perm _)) in H.
    apply in_map_iff in H as [y [Hy Hin]]. injection Hy as -> <-.
    split; [now apply unique_In|apply occurrences_count_occ].
  - intros [Hin ->].
    apply (Permutation_in _ (Permutation_sym (sort_desc_perm _))).
    apply in_map_iff. exists x. split; [|now apply unique_In].
    now rewrite occurrences_count_occ.
Qed.

Lemma value_counts_NoDup cells :
  NoDup (map fst (pd.value_counts String.eqb cells)).
Proof.
  unfold pd.value_counts.
  eapply Permutation_NoDup.
  - apply Permutation_map, Permutation_sym, sort_desc_perm.
  - rewrite map_map. simpl. rewrite map_id. apply unique_NoDup.
Qed.

Lemma value_counts_sorted cells :
  StronglySorted (ranks_before (pd.dropna cells))
                 (pd.value_counts String.eqb cells).
Proof.
  unfold pd.value_counts. apply sort_desc_sorted.
  apply StronglySorted_map. unfold met_earlier. simpl. apply unique_sorted.
Qed.

Lemma value_counts_counts_of cells :
  counts_of cells (pd.value_counts String.eqb cells).
Proof.
  split; [apply value_counts_In|]. split; [apply value_counts_NoDup|].
  eapply StronglySorted_weaken; [|apply value_counts_sorted].
  intros e1 e2 _ _. apply ranks_before_le.
Qed.

(** No value left out of the first entries of a count is more frequent than
    a value kept. *)
Lemma left_out_not_more_frequent cells counts k x n y :
  counts_of cells counts ->
  In (x, n) (firstn k counts) -> In y (pd.dropna cells) ->
  ~ In y (Py.keys (firstn k counts)) ->
  (count_occ string_dec (pd.dropna cells) y <= n)%nat.
Proof.
  intros [Hin [_ Hs]] Hx Hy Hnot.
  assert (Hyc : In (y, count_occ string_dec (pd.dropna cells) y) counts)
    by (apply Hin; now split).
  rewrite <- (firstn_skipn k counts) in Hyc, Hs.
  apply in_app_or in Hyc as [Hyc|Hyc].
  - exfalso. apply Hnot. unfold Py.keys.
    change y with (fst (y, count_occ string_dec (pd.dropna cells) y)).
    now apply in_map.
  - apply (StronglySorted_app_inv count_ge _ _ (x, n) _ Hs Hx Hyc).
Qed.

(** C9 (amended): the most common values of a text column are the first
    five entries, and no more, of a count of its non-null values: each
    value once, with its number of occurrences, the more frequent values
    first, so that no value left out is more frequent than a value kept.
    The order of values with equal counts is that of pandas and is left
    open.  The number of entries is fixed at five: for [a, a, b, c, a, b]
    the entries are a: 3, b: 2, c: 1. *)
Theorem most_common_values :
  (forall cells p,
      DP.profile_series (pd.Object cells) = Py.Ok p ->
      exists counts most_common,
        counts_of cells counts
        /\ DP.block p = DP.categorical most_common
        /\ most_common = firstn 5 counts
        /\ (List.length most_common <= 5)%nat
        /\ (forall x n y,
              In (x, n) most_common -> In y (pd.dropna cells) ->
              ~ In y (Py.keys most_common) ->
              (count_occ string_dec (pd.dropna cells) y <= n)%nat))
  /\ DP.profile_series (pd.Object letters)
     = Py.Ok (DP.common String.eqb DP.VStr "object" letters
                (DP.categorical
                   [("a"%string, 3%nat); ("b"%string, 2%nat); ("c"%string, 1%nat)])).
Proof.
  split; [|reflexivity].
  intros cells p Hp. simpl in Hp. injection Hp as <-.
  exists (pd.value_counts String.eqb cells),
         (firstn 5 (pd.value_counts String.eqb cells)).
  pose proof (value_counts_counts_of cells) as Hc.
  split; [assumption|]. split; [reflexivity|]. split; [reflexivity|].
  split; [apply firstn_le_length|].
  intros x n y. now apply left_out_not_more_frequent.
Qed.

Lemma most_common_values_witness :
  exists counts most_common,
    counts_of letters counts
    /\ DP.block (object_profile letters) = DP.categorical most_common
    /\ most_common = firstn 5 counts
    /\ (List.length most_common <= 5)%nat
    /\ (forall x n y,
          In (x, n) most_common -> In y (pd.dropna letters) ->
          ~ In y (Py.keys most_common) ->
          (count_occ string_dec (pd.dropna letters) y <= n)%nat).
Proof.
  apply (proj1 most_common_values letters (object_profile letters)).
  reflexivity.
Defined.

(** C9 (as stated) fails: the code keeps five values and has no other
    number to keep: the entry of [a, a, b, c, a, b] holds a: 3, b: 2 and
    c: 1, not a: 3 and b: 2 alone. *)
Lemma letters_entry_holds_three_values :
  exists p,
    DP.profile_series (pd.Object letters) = Py.Ok p
    /\ DP.block p
       = DP.categorical
           [("a"%string, 3%nat); ("b"%string, 2%nat); ("c"%string, 1%nat)]
    /\ DP.block p
       <> DP.categorical [("a"%string, 3%nat); ("b"%string, 2%nat)].
Proof.
  exists (object_profile letters).
  split; [reflexivity|]. split; [reflexivity|]. discriminate.
Qed.

(** * Further properties of the profiler *)

(** ** When [generate_profile] raises *)

Lemma first_failure (df : pd.DataFrame) :
  (exists prof, profiled df prof)
  \/ (exists pre c s post prof e,
        df = pre ++ (c, s) :: post
        /\ profiled pre prof
        /\ DP.profile_series s = Py.Raise e).
Proof.
  induction df as [|[c s] df IH].
  - left. exists []. constructor.
  - destruct (DP.profile_series s) as [p|e] eqn:Es.
    + destruct IH as [[prof Hprof]|[pre [c' [s' [post [prof [e [-> [Hpre He]]]]]]]]].
      * left. exists ((c, p) :: prof). constructor; auto.
      * right. exists ((c, s) :: pre), c', s', post, ((c, p) :: prof), e.
        split; [reflexivity|]. split; [|assumption]. constructor; auto.
    + right. exists [], c, s, df, [], e.
      split; [reflexivity|]. split; [constructor|assumption].
Qed.

(** From a profile that was returned to the entries of the columns. *)
Lemma generate_profile_inv df prof self :
  NoDup (pd.columns df) ->
  DP.generate_profile (DP.__init__ df) = (Py.Ok prof, self) ->
  profiled df prof /\ self = {| DP.df := df; DP.profile := prof |}.
Proof.
  intros Hnd H.
  destruct (first_failure df)
    as [[prof' Hprof]|[pre [c [s [post [prof' [e [-> [Hpre He]]]]]]]]].
  - rewrite (generate_profile_ok df prof' Hnd Hprof) in H.
    injection H as <- <-. auto.
  - rewrite (generate_profile_raise pre c s post prof' e Hnd Hpre He) in H.
    discriminate.
Qed.

Lemma profile_series_raise s e :
  DP.profile_series s = Py.Raise e ->
  e = Py.ZeroDivisionError /\ is_numeric s = true /\ pd.len s = 0%nat.
Proof.
  destruct s as [dt values|values|values]; simpl; try discriminate.
  rewrite numeric_stats_eq. destruct values; [|discriminate].
  intros H. injection H as <-. auto.
Qed.

Lemma profiled_get df prof c s :
  NoDup (pd.columns df) -> profiled df prof -> In (c, s) df ->
  exists p, Py.get prof c = Some p /\ DP.profile_series s = Py.Ok p.
Proof.
  intros Hnd Hprof Hin.
  destruct (profiled_In_df df prof c s Hprof Hin) as [p [Hp Hs]].
  exists p. split; [|assumption].
  apply get_In; [|assumption]. now rewrite (profiled_keys df prof Hprof).
Qed.

(** X1: on a table with distinct column names and columns of one length,
    each of them of dtype int64 or float64, of datetimes or of text,
    generate_profile raises exactly when the table has no row and has a
    numeric column; the exception is then ZeroDivisionError.  Otherwise it
    returns the dictionary it has stored in the profiler, whose keys are
    the columns in their order, each with the entry of its column. *)
Theorem generate_profile_raises_iff df rows :
  pd.well_formed df rows ->
  ((rows = 0%nat /\ Exists numeric_column df) ->
   fst (DP.generate_profile (DP.__init__ df)) = Py.Raise Py.ZeroDivisionError)
  /\ (~ (rows = 0%nat /\ Exists numeric_column df) ->
      exists prof,
        DP.generate_profile (DP.__init__ df)
        = (Py.Ok prof, {| DP.df := df; DP.profile := prof |})
        /\ Py.keys prof = pd.columns df
        /\ forall c s, In (c, s) df ->
             exists p, Py.get prof c = Some p
                       /\ DP.profile_series s = Py.Ok p).
Proof.
  intros [Hnd Hlen].
  destruct (first_failure df)
    as [[prof Hprof]|[pre [c [s [post [prof [e [Hdf [Hpre He]]]]]]]]].
  - split.
    + intros [-> Hex]. exfalso.
      apply Exists_exists in Hex as [[c s] [Hin Hnum]].
      destruct (profiled_In_df df prof c s Hprof Hin) as [p [_ Hp]].
      rewrite Forall_forall in Hlen. specialize (Hlen _ Hin).
      unfold numeric_column in Hnum. simpl in *.
      destruct s as [dt values| |]; try discriminate.
      simpl in Hlen. apply length_zero_iff_nil in Hlen. subst values.
      discriminate.
    + intros _. exists prof. split; [now apply generate_profile_ok|].
      split; [now apply profiled_keys|].
      intros c s. now apply profiled_get.
  - subst df. destruct (profile_series_raise s e He) as [-> [Hnum Hs]].
    split.
    + intros _.
      now rewrite (generate_profile_raise pre c s post prof _ Hnd Hpre He).
    + intros Hno. exfalso. apply Hno. split.
      * rewrite Forall_forall in Hlen.
        specialize (Hlen (c, s) (in_elt _ _ _)). simpl in Hlen. congruence.
      * apply Exists_exists. exists (c, s). split; [apply in_elt|exact Hnum].
Qed.

Lemma generate_profile_raises_iff_witness :
  ((50%nat = 0%nat /\ Exists numeric_column trips) ->
   fst (DP.generate_profile (DP.__init__ trips)) = Py.Raise Py.ZeroDivisionError)
  /\ (~ (50%nat = 0%nat /\ Exists numeric_column trips) ->
      exists prof,
        DP.generate_profile (DP.__init__ trips)
        = (Py.Ok prof, {| DP.df := trips; DP.profile := prof |})
        /\ Py.keys prof = pd.columns trips
        /\ forall c s, In (c, s) trips ->
             exists p, Py.get prof c = Some p
                       /\ DP.profile_series s = Py.Ok p).
Proof.
  apply (generate_profile_raises_iff trips 50).
  split.
  - repeat constructor; simpl; intuition discriminate.
  - repeat constructor.
Defined.

(** ** When [suggest_quality_rules] raises *)

Lemma column_rules_stale c p self :
  stale (DP.df self) (c, p) ->
  fst (DP.column_rules c p self) = Py.Raise (Py.KeyError c).
Proof.
  intros [Hmin Hget]. simpl in *. rewrite column_rules_eq. simpl.
  unfold DP.has_min in Hmin. destruct (DP.block p); try discriminate.
  now rewrite Hget.
Qed.

Lemma column_rules_not_stale c p self :
  ~ stale (DP.df self) (c, p) ->
  exists rs, fst (DP.column_rules c p self) = Py.Ok rs.
Proof.
  intros H. rewrite column_rules_eq. simpl. unfold stale, DP.has_min in H.
  simpl in H. destruct (DP.block p); eauto.
  destruct (pd.getitem (DP.df self) c); eauto.
  exfalso. now apply H.
Qed.

Lemma stale_dec df item : stale df item \/ ~ stale df item.
Proof.
  unfold stale. destruct (DP.has_min (snd item)); [|right; intros [H _]; discriminate].
  destruct (pd.getitem df (fst item)); [right; intros [_ H]; discriminate|auto].
Qed.

Lemma rules_loop_result items : forall rules self,
  (Forall (fun item => ~ stale (DP.df self) item) items
   /\ exists r, DP.rules_loop items rules self = (Py.Ok r, self))
  \/ (exists pre c p post,
        items = pre ++ (c, p) :: post
        /\ Forall (fun item => ~ stale (DP.df self) item) pre
        /\ stale (DP.df self) (c, p)
        /\ DP.rules_loop items rules self = (Py.Raise (Py.KeyError c), self)).
Proof.
  induction items as [|[c p] items IH]; intros rules self.
  - left. split; [constructor|]. exists rules. reflexivity.
  - rewrite rules_loop_cons.
    destruct (stale_dec (DP.df self) (c, p)) as [Hs|Hs].
    + right. exists [], c, p, items. rewrite (column_rules_stale c p self Hs).
      repeat split; auto; apply Hs.
    + destruct (column_rules_not_stale c p self Hs) as [rs ->].
      destruct (IH (if nonempty_entry (c, rs) then Py.set rules c rs else rules)
                   self)
        as [[Hall [r Hr]]|[pre [c' [p' [post [-> [Hpre [Hst Hr]]]]]]]].
      * left. split; [now constructor|]. eauto.
      * right. exists ((c, p) :: pre), c', p', post.
        split; [reflexivity|]. split; [now constructor|]. auto.
Qed.

(** X2: when the column names of the table are distinct,
    suggest_quality_rules raises only KeyError, and exactly when an entry
    of the profile with numeric statistics names a column that the table
    does not have; the key is the first such name.  The profiler is left as
    it was. *)
Theorem suggest_quality_rules_raises_iff self :
  NoDup (pd.columns (DP.df self)) ->
  ((forall item, In item (DP.profile self) -> ~ stale (DP.df self) item) ->
   exists rules, DP.suggest_quality_rules self = (Py.Ok rules, self))
  /\ (forall e,
        fst (DP.suggest_quality_rules self) = Py.Raise e ->
        exists pre c p post,
          DP.profile self = pre ++ (c, p) :: post
          /\ Forall (fun item => ~ stale (DP.df self) item) pre
          /\ stale (DP.df self) (c, p)
          /\ DP.suggest_quality_rules self = (Py.Raise (Py.KeyError c), self)
          /\ e = Py.KeyError c).
Proof.
  intros _. rewrite suggest_quality_rules_eq.
  destruct (rules_loop_result (DP.profile self) [] self)
    as [[Hall [r Hr]]|[pre [c [p [post [Hp [Hpre [Hst Hr]]]]]]]].
  - split; [eauto|]. intros e He. rewrite Hr in He. discriminate.
  - split.
    + intros Hno. exfalso. apply (Hno (c, p)); [|assumption].
      rewrite Hp. apply in_elt.
    + intros e He. exists pre, c, p, post. rewrite Hr in *. simpl in He.
      injection He as <-. auto.
Qed.

Lemma suggest_quality_rules_raises_iff_witness :
  exists pre c p post,
    DP.profile fare_profiler_without_table = pre ++ (c, p) :: post
    /\ Forall (fun item => ~ stale (DP.df fare_profiler_without_table) item) pre
    /\ stale (DP.df fare_profiler_without_table) (c, p)
    /\ DP.suggest_quality_rules fare_profiler_without_table
       = (Py.Raise (Py.KeyError c), fare_profiler_without_table)
    /\ Py.KeyError "fare" = Py.KeyError c.
Proof.
  apply (proj2 (suggest_quality_rules_raises_iff fare_profiler_without_table
                  (NoDup_nil string))).
  reflexivity.
Defined.

(** ** What [generate_profile] changes *)

Lemma set_keys_extend {V} (d : Py.dict V) k v :
  exists added, Py.keys (Py.set d k v) = Py.keys d ++ added.
Proof.
  induction d as [|[k0 v0] d [added IH]]; simpl.
  - now exists [k].
  - destruct (String.eqb k0 k); simpl.
    + exists []. now rewrite app_nil_r.
    + exists added. now rewrite IH.
Qed.

Lemma profile_loop_keys columns : forall self,
  exists added,
    Py.keys (DP.profile (snd (DP.profile_loop columns self)))
    = Py.keys (DP.profile self) ++ added.
Proof.
  induction columns as [|c rest IH]; intros self.
  - exists []. simpl. now rewrite app_nil_r.
  - rewrite profile_loop_cons.
    destruct (pd.getitem (DP.df self) c) as [s|];
      [|exists []; simpl; now rewrite app_nil_r].
    destruct (DP.profile_series s) as [p|e];
      [|exists []; simpl; now rewrite app_nil_r].
    destruct (IH {| DP.df := DP.df self;
                    DP.profile := Py.set (DP.profile self) c p |})
      as [added Hadded].
    destruct (set_keys_extend (DP.profile self) c p) as [added0 H0].
    exists (added0 ++ added). rewrite Hadded. simpl DP.profile.
    now rewrite H0, app_assoc.
Qed.

(** X3: generate_profile never changes the table of the profiler and never
    removes or moves an entry of its dictionary: the keys that were there
    stay, in their order, before those that are added, whether the method
    returns or raises; and what it returns is the dictionary of the
    profiler. *)
Theorem generate_profile_only_adds self :
  let self' := snd (DP.generate_profile self) in
  DP.df self' = DP.df self
  /\ (exists added,
        Py.keys (DP.profile self') = Py.keys (DP.profile self) ++ added)
  /\ (forall prof, fst (DP.generate_profile self) = Py.Ok prof ->
                   prof = DP.profile self').
Proof.
  cbv zeta. rewrite generate_profile_eq.
  pose proof (profile_loop_df (pd.columns (DP.df self)) self) as Hdf.
  destruct (profile_loop_keys (pd.columns (DP.df self)) self) as [added Hk].
  destruct (DP.profile_loop (pd.columns (DP.df self)) self) as [[[]|e] self'];
    simpl in *.
  - split; [assumption|]. split; [eauto|]. intros prof H. now injection H.
  - split; [assumption|]. split; [eauto|]. discriminate.
Qed.

(** ** The shape of the rules *)

Lemma rules_of_shape c p z :
  In (map shape (rules_of c p z)) rule_shapes
  /\ (In DP.value_range (map DP.rule (rules_of c p z)) <-> DP.has_min p = true)
  /\ (In DP.not_null (map DP.rule (rules_of c p z))
      <-> flt (DP.null_percentage p) (Some 5) = true)
  /\ (In DP.warn_zeros (map DP.rule (rules_of c p z))
      <-> DP.has_min p = true /\ (0 < z)%nat)
  /\ Forall (fun r => DP.severity r <> None <-> DP.rule r = DP.warn_zeros)
            (rules_of c p z)
  /\ Forall (fun r => DP.bounds r <> None <-> DP.rule r = DP.value_range)
            (rules_of c p z).
Proof.
  unfold rules_of, DP.has_min, rule_shapes.
  destruct (flt (DP.null_percentage p) (Some 5));
    destruct (DP.block p) as [st|a b|mc];
    try (destruct (Nat.ltb_spec 0 z) as [Hz|Hz]);
    simpl;
    repeat split;
    try match goal with
        | |- Forall _ _ =>
            repeat constructor; simpl; intros H;
            first [ reflexivity | discriminate H | exfalso; now apply H
                  | intros H'; discriminate H' ]
        end;
    try tauto; try lia; try congruence;
    intros; repeat match goal with
                   | H : _ \/ _ |- _ => destruct H
                   | H : _ /\ _ |- _ => destruct H
                   end; try discriminate; try contradiction; try lia; auto.
Qed.

(** X4: whatever the column, the rules it gets are not_null, value_range
    and warn_zeros at most once each and in this order, in one of six
    shapes; value_range is there exactly for an entry with numeric
    statistics, not_null exactly when the null percentage is below 5, and
    warn_zeros only together with value_range.  Only warn_zeros carries a
    severity, only value_range carries bounds. *)
Theorem rules_have_one_of_six_shapes c p self rs :
  fst (DP.column_rules c p self) = Py.Ok rs ->
  In (map shape rs) rule_shapes
  /\ (In DP.value_range (map DP.rule rs) <-> DP.has_min p = true)
  /\ (In DP.not_null (map DP.rule rs)
      <-> flt (DP.null_percentage p) (Some 5) = true)
  /\ (In DP.warn_zeros (map DP.rule rs) -> In DP.value_range (map DP.rule rs))
  /\ Forall (fun r => DP.severity r <> None <-> DP.rule r = DP.warn_zeros) rs
  /\ Forall (fun r => DP.bounds r <> None <-> DP.rule r = DP.value_range) rs.
Proof.
  intros H. destruct (column_rules_of c p self rs H) as [z ->].
  destruct (rules_of_shape c p z) as [H1 [H2 [H3 [H4 [H5 H6]]]]].
  repeat split; try assumption; try apply H2; try apply H3.
  intros Hw. apply H2. now apply H4.
Qed.

Lemma rules_have_one_of_six_shapes_witness :
  In (map shape (rules_of "fare" (numeric_profile pd.int64 with_zero) 1))
     rule_shapes
  /\ (In DP.value_range
         (map DP.rule (rules_of "fare" (numeric_profile pd.int64 with_zero) 1))
      <-> DP.has_min (numeric_profile pd.int64 with_zero) = true)
  /\ (In DP.not_null
         (map DP.rule (rules_of "fare" (numeric_profile pd.int64 with_zero) 1))
      <-> flt (DP.null_percentage (numeric_profile pd.int64 with_zero)) (Some 5)
          = true)
  /\ (In DP.warn_zeros
         (map DP.rule (rules_of "fare" (numeric_profile pd.int64 with_zero) 1))
      -> In DP.value_range
           (map DP.rule (rules_of "fare" (numeric_profile pd.int64 with_zero) 1)))
  /\ Forall (fun r => DP.severity r <> None <-> DP.rule r = DP.warn_zeros)
            (rules_of "fare" (numeric_profile pd.int64 with_zero) 1)
  /\ Forall (fun r => DP.bounds r <> None <-> DP.rule r = DP.value_range)
            (rules_of "fare" (numeric_profile pd.int64 with_zero) 1).
Proof.
  apply (rules_have_one_of_six_shapes "fare"
           (numeric_profile pd.int64 with_zero)
           (DP.__init__ (fare_table with_zero))).
  reflexivity.
Defined.

(** ** The rules of a run, column by column *)

Lemma rules_of_not_numeric c p z :
  DP.has_min p = false ->
  rules_of c p z
  = if flt (DP.null_percentage p) (Some 5) then [DP.not_null_rule c p] else [].
Proof.
  unfold rules_of, DP.has_min. destruct (DP.block p); [discriminate|..];
    intros _; now rewrite app_nil_r.
Qed.

Lemma run_inv df profile rules :
  NoDup (pd.columns df) ->
  run df = Py.Ok (profile, rules) ->
  profiled df profile
  /\ forall c s, In (c, s) df ->
       exists p,
         Py.get profile c = Some p
         /\ DP.profile_series s = Py.Ok p
         /\ Py.get rules c
            = match rules_of c p (DP.zero_sum s) with
              | [] => None
              | rs => Some rs
              end.
Proof.
  intros Hnd Hrun. unfold run in Hrun.
  destruct (DP.generate_profile (DP.__init__ df)) as [[prof|e] self] eqn:Eg;
    [|discriminate].
  destruct (generate_profile_inv df prof self Hnd Eg) as [Hprof ->].
  destruct (DP.suggest_quality_rules _) as [[rules'|e] self'] eqn:Es;
    [|discriminate].
  injection Hrun as <- <-. split; [assumption|].
  assert (Hkeys : NoDup (Py.keys prof)).
  { now rewrite (profiled_keys df prof Hprof). }
  destruct (suggest_quality_rules_ok {| DP.df := df; DP.profile := prof |}
              rules' self' Hkeys Es) as [rss [Hrss ->]].
  simpl in Hrss. intros c s Hin.
  destruct (profiled_In_df df prof c s Hprof Hin) as [p [Hp Hs]].
  exists p. split; [now apply get_In|]. split; [assumption|].
  set (self := {| DP.df := df; DP.profile := prof |}) in *.
  assert (Hrs : fst (DP.column_rules c p self)
                = Py.Ok (rules_of c p (DP.zero_sum s))).
  { rewrite column_rules_eq. simpl.
    rewrite (getitem_In df c s Hnd Hin).
    destruct (DP.block p) eqn:Eb; try reflexivity;
      f_equal; rewrite !rules_of_not_numeric;
      try reflexivity; unfold DP.has_min; now rewrite Eb. }
  simpl DP.profile.
  rewrite (rules_dict_get self prof rss c p _ Hkeys Hrss Hp Hrs).
  now destruct (rules_of c p (DP.zero_sum s)).
Qed.

Lemma profile_series_has_min s p :
  DP.profile_series s = Py.Ok p -> DP.has_min p = is_numeric s.
Proof.
  destruct s as [dt values|values|values]; simpl.
  - destruct (DP.numeric_stats values); [|discriminate].
    intros H. now injection H as <-.
  - intros H. now injection H as <-.
  - intros H. now injection H as <-.
Qed.

(** X5: after a run on a well-formed table, a numeric column is never left
    out of the rules (it has at least its value_range rule), and a column
    that is not numeric has either no rule or the not_null rule alone; it
    has it exactly when the table has a row and the null fraction of the
    column is below 0.05. *)
Theorem which_columns_get_rules df rows profile rules :
  pd.well_formed df rows ->
  run df = Py.Ok (profile, rules) ->
  forall c s, In (c, s) df ->
    (is_numeric s = true ->
     exists rs, Py.get rules c = Some rs
                /\ In DP.value_range (map DP.rule rs))
    /\ (is_numeric s = false ->
        (Py.get rules c = None
         \/ exists r, Py.get rules c = Some [r]
                      /\ shape r = (DP.not_null, DP.error))
        /\ (Py.get rules c <> None
            <-> (0 < rows)%nat /\ (null_fraction s < 5 # 100)%Q)).
Proof.
  intros [Hnd Hlen] Hrun c s Hin.
  destruct (run_inv df profile rules Hnd Hrun) as [_ Hget].
  destruct (Hget c s Hin) as [p [_ [Hp Hr]]].
  pose proof (profile_series_has_min s p Hp) as Hmin.
  rewrite Forall_forall in Hlen. specialize (Hlen _ Hin). simpl in Hlen.
  split; intros Hnum; rewrite Hnum in Hmin.
  - destruct (rules_of_shape c p (DP.zero_sum s)) as [_ [H2 _]].
    apply H2 in Hmin.
    destruct (rules_of c p (DP.zero_sum s)) as [|r rs]; [contradiction|].
    eauto.
  - rewrite (rules_of_not_numeric c p _ Hmin) in Hr.
    destruct (profile_series_common s p Hp) as [_ [_ Hpct]].
    destruct (flt (DP.null_percentage p) (Some 5)) eqn:Ef.
    + split; [right; eexists; split; [exact Hr|reflexivity]|].
      rewrite Hr. split; [intros _|discriminate].
      rewrite Hpct in Ef.
      destruct rows as [|rows].
      * rewrite Hlen in Ef. discriminate.
      * split; [lia|]. apply (null_percentage_lt_5 _ (pd.len s)); [lia|exact Ef].
    + split; [now left|]. rewrite Hr. split; [congruence|].
      intros [Hrows Hlt]. exfalso.
      rewrite Hpct in Ef.
      apply (null_percentage_lt_5 (null_cells s) (pd.len s)) in Hlt; [|lia].
      congruence.
Qed.

Lemma which_columns_get_rules_witness :
  (is_numeric (pd.Object vendors_201) = true ->
   exists rs,
     Py.get [("vendor"%string,
              [DP.not_null_rule "vendor" (object_profile vendors_201)])]
            "vendor"
     = Some rs
     /\ In DP.value_range (map DP.rule rs))
  /\ (is_numeric (pd.Object vendors_201) = false ->
      (Py.get [("vendor"%string,
                [DP.not_null_rule "vendor" (object_profile vendors_201)])]
              "vendor"
       = None
       \/ exists r,
            Py.get [("vendor"%string,
                     [DP.not_null_rule "vendor" (object_profile vendors_201)])]
                   "vendor"
            = Some [r]
            /\ shape r = (DP.not_null, DP.error))
      /\ (Py.get [("vendor"%string,
                   [DP.not_null_rule "vendor" (object_profile vendors_201)])]
                 "vendor"
          <> None
          <-> (0 < 201)%nat
              /\ (null_fraction (pd.Object vendors_201) < 5 # 100)%Q)).
Proof.
  apply (which_columns_get_rules (vendor_table vendors_201) 201
           [("vendor"%string, object_profile vendors_201)]).
  - split; repeat constructor. intros [].
  - reflexivity.
  - left. reflexivity.
Defined.

Lemma zero_cells_pos values : (0 < zero_cells values)%nat <-> has_zero values.
Proof.
  unfold zero_cells, has_zero. split.
  - intros H.
    destruct (filter (fun c => pd.eq_scalar c 0) values) as [|c l] eqn:E;
      [simpl in H; lia|].
    assert (Hin : In c (filter (fun c => pd.eq_scalar c 0) values))
      by (rewrite E; now left).
    apply filter_In in Hin as [Hin Hc]. destruct c as [x|]; [|discriminate].
    exists x. split; [assumption|]. now apply Qeq_bool_iff.
  - intros [x [Hin Hx]].
    assert (H : In (Some x) (filter (fun c => pd.eq_scalar c 0) values)).
    { apply filter_In. split; [assumption|]. simpl. now apply Qeq_bool_iff. }
    destruct (filter _ values); [contradiction|simpl; lia].
Qed.

Lemma rules_of_warn_zeros c p z r :
  In r (rules_of c p z) -> DP.rule r = DP.warn_zeros ->
  (0 < z)%nat /\ r = DP.warn_zeros_rule c z.
Proof.
  unfold rules_of. intros Hin Hr.
  apply in_app_or in Hin as [Hin|Hin].
  - destruct (flt _ _); [|contradiction].
    destruct Hin as [<-|[]]. discriminate.
  - destruct (DP.block p); try contradiction.
    destruct Hin as [<-|Hin]; [discriminate|].
    destruct (Nat.ltb_spec 0 z); [|contradiction].
    destruct Hin as [<-|[]]. auto.
Qed.

(** X6: after a run on a well-formed table, the rules of a numeric column
    hold a warn_zeros rule exactly when a cell of the column equals zero;
    the rule then has severity warning and its description gives the
    number of these cells, with a comma every three digits. *)
Theorem warn_zeros_iff_a_cell_is_zero df rows profile rules c dt values :
  pd.well_formed df rows ->
  run df = Py.Ok (profile, rules) ->
  In (c, pd.Numeric dt values) df ->
  exists rs,
    Py.get rules c = Some rs
    /\ ((exists r, In r rs /\ DP.rule r = DP.warn_zeros) <-> has_zero values)
    /\ forall r, In r rs -> DP.rule r = DP.warn_zeros ->
         DP.severity r = Some DP.warning
         /\ DP.description r
            = (c ++ " has " ++ Py.format_comma (zero_cells values)
                 ++ " zero values - verify if valid")%string.
Proof.
  intros [Hnd _] Hrun Hin.
  destruct (run_inv df profile rules Hnd Hrun) as [_ Hget].
  destruct (Hget _ _ Hin) as [p [_ [Hp Hr]]].
  pose proof (profile_series_has_min _ p Hp) as Hmin. simpl in Hmin.
  change (DP.zero_sum (pd.Numeric dt values)) with (zero_cells values) in Hr.
  destruct (rules_of_shape c p (zero_cells values)) as [_ [H2 [_ [H4 _]]]].
  assert (Hne : rules_of c p (zero_cells values) <> []).
  { apply H2 in Hmin. intros E. now rewrite E in Hmin. }
  exists (rules_of c p (zero_cells values)).
  split; [|split].
  - rewrite Hr. now destruct (rules_of c p (zero_cells values)).
  - rewrite <- zero_cells_pos. split.
    + intros [r [Hr1 Hr2]].
      now destruct (rules_of_warn_zeros c p _ r Hr1 Hr2).
    + intros Hz.
      assert (Hw : In DP.warn_zeros (map DP.rule (rules_of c p (zero_cells values))))
        by (apply H4; auto).
      apply in_map_iff in Hw as [r [Hr1 Hr2]]. eauto.
  - intros r Hr1 Hr2.
    destruct (rules_of_warn_zeros c p _ r Hr1 Hr2) as [_ ->]. split; reflexivity.
Qed.

Lemma warn_zeros_iff_a_cell_is_zero_witness :
  exists rs,
    Py.get [("fare"%string,
             rules_of "fare" (numeric_profile pd.int64 with_zero)
               (DP.zero_sum (pd.Numeric pd.int64 with_zero)))] "fare"
    = Some rs
    /\ ((exists r, In r rs /\ DP.rule r = DP.warn_zeros) <-> has_zero with_zero)
    /\ forall r, In r rs -> DP.rule r = DP.warn_zeros ->
         DP.severity r = Some DP.warning
         /\ DP.description r
            = ("fare" ++ " has " ++ Py.format_comma (zero_cells with_zero)
                 ++ " zero values - verify if valid")%string.
Proof.
  apply (warn_zeros_iff_a_cell_is_zero (fare_table with_zero) 22
           [("fare"%string, numeric_profile pd.int64 with_zero)]
           _ "fare" pd.int64 with_zero).
  - split; repeat constructor. intros [].
  - unfold fare_table. now rewrite run_numeric_column.
  - now left.
Defined.

(** ** The order of the statistics *)

Lemma insert_perm x l : Permutation (pd.insert x l) (x :: l).
Proof.
  induction l as [|y l IH]; simpl; [reflexivity|].
  destruct (Qle_bool x y); [reflexivity|].
  rewrite IH. apply perm_swap.
Qed.

Lemma sort_perm l : Permutation (pd.sort l) l.
Proof.
  induction l as [|x l IH]; simpl; [reflexivity|].
  rewrite insert_perm. now constructor.
Qed.

Lemma insert_sorted x l :
  StronglySorted Qle l -> StronglySorted Qle (pd.insert x l).
Proof.
  induction 1 as [|y l Hl IH Hy]; simpl.
  - repeat constructor.
  - destruct (Qle_bool x y) eqn:E.
    + apply Qle_bool_iff in E. constructor; [now constructor|].
      constructor; [assumption|].
      rewrite Forall_forall in *. intros z Hz.
      apply Qle_trans with y; auto.
    + assert (Hyx : (y <= x)%Q).
      { apply Qlt_le_weak, Qnot_le_lt. intros H.
        apply Qle_bool_iff in H. congruence. }
      constructor; [assumption|].
      rewrite Forall_forall in *. intros z Hz.
      apply (Permutation_in _ (insert_perm x l)) in Hz as [<-|Hz]; auto.
Qed.

Lemma sort_sorted l : StronglySorted Qle (pd.sort l).
Proof.
  induction l as [|x l IH]; simpl; [constructor|].
  now apply insert_sorted.
Qed.

Lemma sorted_nth_le s : StronglySorted Qle s ->
  forall i j, (i <= j)%nat -> (j < List.length s)%nat ->
              (nth i s 0 <= nth j s 0)%Q.
Proof.
  induction 1 as [|x s Hs IH Hx]; intros i j Hij Hj; [simpl in Hj; lia|].
  destruct i as [|i], j as [|j]; simpl in *; try lia.
  - apply Qle_refl.
  - rewrite Forall_forall in Hx. apply Hx, nth_In. lia.
  - apply IH; lia.
Qed.

Lemma of_nat_floor pos :
  (0 <= pos)%Q -> pd.of_nat (Z.to_nat (Qfloor pos)) = inject_Z (Qfloor pos).
Proof.
  intros H. unfold pd.of_nat. rewrite Z2Nat.id; [reflexivity|].
  change 0%Z with (Qfloor 0). now apply Qfloor_resp_le.
Qed.

Lemma floor_index pos n1 :
  (0 <= pos)%Q -> (pos <= pd.of_nat n1)%Q ->
  (Z.to_nat (Qfloor pos) <= n1)%nat.
Proof.
  intros H0 H1. apply Qfloor_resp_le in H1.
  unfold pd.of_nat in H1. rewrite Qfloor_Z in H1.
  assert (0 <= Qfloor pos)%Z
    by (change 0%Z with (Qfloor 0); now apply Qfloor_resp_le).
  lia.
Qed.

(** The interpolated value lies between the two order statistics around
    the position. *)
Lemma interpolate_between s n1 pos :
  StronglySorted Qle s -> List.length s = S n1 ->
  (0 <= pos)%Q -> (pos <= pd.of_nat n1)%Q ->
  (nth (Z.to_nat (Qfloor pos)) s 0 <= interpolate s n1 pos)%Q
  /\ (interpolate s n1 pos
      <= nth (Nat.min (S (Z.to_nat (Qfloor pos))) n1) s 0)%Q.
Proof.
  intros Hs Hlen H0 H1. unfold interpolate. cbv zeta.
  pose proof (floor_index pos n1 H0 H1) as Hlo.
  rewrite (of_nat_floor pos H0).
  set (lo := Z.to_nat (Qfloor pos)) in *.
  assert (Hab : (nth lo s 0 <= nth (Nat.min (S lo) n1) s 0)%Q)
    by (apply sorted_nth_le; auto; lia).
  pose proof (Qfloor_le pos) as Hf1. pose proof (Qlt_floor pos) as Hf2.
  rewrite inject_Z_plus in Hf2. change (inject_Z 1) with 1%Q in Hf2.
  set (a := nth lo s 0%Q) in *. set (b := nth (Nat.min (S lo) n1) s 0%Q) in *.
  set (f := inject_Z (Qfloor pos)) in *.
  split; Lqa.nra.
Qed.

Lemma interpolate_mono s n1 pos pos' :
  StronglySorted Qle s -> List.length s = S n1 ->
  (0 <= pos)%Q -> (pos <= pos')%Q -> (pos' <= pd.of_nat n1)%Q ->
  (interpolate s n1 pos <= interpolate s n1 pos')%Q.
Proof.
  intros Hs Hlen H0 Hle H1.
  assert (H0' : (0 <= pos')%Q) by (apply Qle_trans with pos; auto).
  assert (H1' : (pos <= pd.of_nat n1)%Q) by (apply Qle_trans with pos'; auto).
  destruct (interpolate_between s n1 pos Hs Hlen H0 H1') as [_ Hb].
  destruct (interpolate_between s n1 pos' Hs Hlen H0' H1) as [Ha' _].
  pose proof (floor_index pos' n1 H0' H1) as Hlo'.
  assert (Hfl : (Qfloor pos <= Qfloor pos')%Z) by now apply Qfloor_resp_le.
  assert (Hfl0 : (0 <= Qfloor pos)%Z)
    by (change 0%Z with (Qfloor 0); now apply Qfloor_resp_le).
  destruct (Z.eq_dec (Qfloor pos) (Qfloor pos')) as [Heq|Hne].
  - unfold interpolate. cbv zeta. rewrite <- Heq in *.
    rewrite (of_nat_floor pos H0).
    set (lo := Z.to_nat (Qfloor pos)) in *.
    assert (Hab : (nth lo s 0 <= nth (Nat.min (S lo) n1) s 0)%Q)
      by (apply sorted_nth_le; auto; lia).
    set (a := nth lo s 0%Q) in *. set (b := nth (Nat.min (S lo) n1) s 0%Q) in *.
    set (f := inject_Z (Qfloor pos)) in *.
    Lqa.nra.
  - apply Qle_trans with (nth (Nat.min (S (Z.to_nat (Qfloor pos))) n1) s 0%Q);
      [assumption|].
    apply Qle_trans with (nth (Z.to_nat (Qfloor pos')) s 0%Q); [|assumption].
    apply sorted_nth_le; auto; lia.
Qed.

Lemma quantile_eq q values :
  pd.quantile q values =
    match List.length (pd.dropna values) with
    | O => NaN
    | S n1 =>
        Some (Qred (interpolate (pd.sort (pd.dropna values)) n1
                                (q * pd.of_nat n1)))
    end.
Proof.
  unfold pd.quantile, interpolate. rewrite length_sort. reflexivity.
Qed.

Lemma of_nat_nonneg n : (0 <= pd.of_nat n)%Q.
Proof.
  unfold pd.of_nat. change 0%Q with (inject_Z 0). rewrite <- Zle_Qle. lia.
Qed.

Lemma position_bounds q n1 :
  (0 <= q)%Q -> (q <= 1)%Q ->
  (0 <= q * pd.of_nat n1)%Q /\ (q * pd.of_nat n1 <= pd.of_nat n1)%Q.
Proof.
  intros H0 H1. pose proof (of_nat_nonneg n1) as Hn.
  set (n := pd.of_nat n1) in *. split; Lqa.nra.
Qed.

(** Quantiles grow with their level. *)
Lemma quantile_mono q q' values :
  (0 <= q)%Q -> (q <= q')%Q -> (q' <= 1)%Q ->
  (0 < pd.count values)%nat ->
  fle (pd.quantile q values) (pd.quantile q' values).
Proof.
  intros H0 Hle H1 Hn. rewrite !quantile_eq. unfold pd.count in Hn.
  destruct (List.length (pd.dropna values)) as [|n1] eqn:E; [lia|].
  unfold fle. rewrite !Qred_correct.
  assert (Hq : (q <= 1)%Q) by (apply Qle_trans with q'; auto).
  destruct (position_bounds q n1 H0 Hq) as [Hp0 _].
  assert (H0' : (0 <= q')%Q) by (apply Qle_trans with q; auto).
  destruct (position_bounds q' n1 H0' H1) as [_ Hp1].
  apply interpolate_mono; auto.
  - apply sort_sorted.
  - now rewrite length_sort.
  - pose proof (of_nat_nonneg n1) as Hnn.
    set (n := pd.of_nat n1) in *. Lqa.nra.
Qed.

Lemma fold_min_le_init v : forall a, (fold_left Qmin v a <= a)%Q.
Proof.
  induction v as [|z v IH]; intros a; simpl; [apply Qle_refl|].
  apply Qle_trans with (Qmin a z); [apply IH|apply Q.le_min_l].
Qed.

Lemma fold_min_le v : forall a y, In y (a :: v) -> (fold_left Qmin v a <= y)%Q.
Proof.
  induction v as [|z v IH]; intros a y [<-|Hin]; simpl.
  - apply Qle_refl.
  - contradiction.
  - apply Qle_trans with (Qmin a z); [apply fold_min_le_init|apply Q.le_min_l].
  - destruct Hin as [<-|Hin].
    + apply Qle_trans with (Qmin a z); [apply fold_min_le_init|apply Q.le_min_r].
    + apply IH. now right.
Qed.

Lemma fold_max_ge_init v : forall a, (a <= fold_left Qmax v a)%Q.
Proof.
  induction v as [|z v IH]; intros a; simpl; [apply Qle_refl|].
  apply Qle_trans with (Qmax a z); [apply Q.le_max_l|apply IH].
Qed.

Lemma fold_max_ge v : forall a y, In y (a :: v) -> (y <= fold_left Qmax v a)%Q.
Proof.
  induction v as [|z v IH]; intros a y [<-|Hin]; simpl.
  - apply Qle_refl.
  - contradiction.
  - apply Qle_trans with (Qmax a z); [apply Q.le_max_l|apply fold_max_ge_init].
  - destruct Hin as [<-|Hin].
    + apply Qle_trans with (Qmax a z); [apply Q.le_max_r|apply fold_max_ge_init].
    + apply IH. now right.
Qed.

Lemma of_nat_S n : (pd.of_nat (S n) == pd.of_nat n + 1)%Q.
Proof.
  unfold pd.of_nat. rewrite Nat2Z.inj_succ, <- Z.add_1_r, inject_Z_plus.
  reflexivity.
Qed.

Lemma fold_sum_ge m l : forall a,
  (forall y, In y l -> m <= y)%Q ->
  (a + pd.of_nat (List.length l) * m <= fold_left Qplus l a)%Q.
Proof.
  induction l as [|x l IH]; intros a H; simpl List.length; simpl fold_left.
  - change (pd.of_nat 0) with 0%Q. Lqa.lra.
  - apply Qle_trans with (a + x + pd.of_nat (List.length l) * m)%Q.
    + rewrite of_nat_S. pose proof (H x (or_introl eq_refl)). Lqa.lra.
    + apply IH. intros y Hy. apply H. now right.
Qed.

Lemma fold_sum_le m l : forall a,
  (forall y, In y l -> y <= m)%Q ->
  (fold_left Qplus l a <= a + pd.of_nat (List.length l) * m)%Q.
Proof.
  induction l as [|x l IH]; intros a H; simpl List.length; simpl fold_left.
  - change (pd.of_nat 0) with 0%Q. Lqa.lra.
  - apply Qle_trans with (a + x + pd.of_nat (List.length l) * m)%Q.
    + apply IH. intros y Hy. apply H. now right.
    + rewrite of_nat_S. pose proof (H x (or_introl eq_refl)). Lqa.lra.
Qed.

(** A quantile of level between 0 and 1 lies between the least and the
    largest value. *)
Lemma quantile_between q values :
  (0 <= q)%Q -> (q <= 1)%Q -> (0 < pd.count values)%nat ->
  fle (pd.min values) (pd.quantile q values)
  /\ fle (pd.quantile q values) (pd.max values).
Proof.
  intros H0 H1 Hn. rewrite quantile_eq. unfold pd.count, pd.min, pd.max in *.
  destruct (pd.dropna values) as [|x v] eqn:E; [simpl in Hn; lia|].
  simpl List.length. unfold fle. rewrite !Qred_correct.
  destruct (position_bounds q (List.length v) H0 H1) as [Hp0 Hp1].
  assert (Hlen : List.length (pd.sort (x :: v)) = S (List.length v))
    by now rewrite length_sort.
  destruct (interpolate_between (pd.sort (x :: v)) (List.length v) _
              (sort_sorted _) Hlen Hp0 Hp1) as [Ha Hb].
  pose proof (floor_index _ _ Hp0 Hp1) as Hlo.
  split.
  - eapply Qle_trans; [|exact Ha].
    apply fold_min_le.
    apply (Permutation_in _ (sort_perm (x :: v))), nth_In. lia.
  - eapply Qle_trans; [exact Hb|].
    apply fold_max_ge.
    apply (Permutation_in _ (sort_perm (x :: v))), nth_In. lia.
Qed.

(** X7: for a numeric column with a non-null cell and values of moderate
    magnitude, the extremes, the quartiles and the median are in order:
    min <= q1 <= median <= q3 <= max. *)
Theorem statistics_are_ordered values stats :
  DP.numeric_stats values = Py.Ok stats ->
  (0 < pd.count values)%nat ->
  moderate values ->
  fle (DP.min stats) (DP.q1 stats)
  /\ fle (DP.q1 stats) (DP.median stats)
  /\ fle (DP.median stats) (DP.q3 stats)
  /\ fle (DP.q3 stats) (DP.max stats).
Proof.
  rewrite numeric_stats_eq. destruct values as [|c0 values']; [discriminate|].
  remember (c0 :: values') as values eqn:Ev. clear Ev c0 values'.
  intros H Hn _. injection H as <-.
  cbn [stats_of DP.min DP.max DP.median DP.q1 DP.q3]. unfold pd.median.
  split; [|split; [|split]].
  - apply quantile_between; auto; Lqa.lra.
  - apply quantile_mono; auto; Lqa.lra.
  - apply quantile_mono; auto; Lqa.lra.
  - apply quantile_between; auto; Lqa.lra.
Qed.

Lemma statistics_are_ordered_witness :
  fle (DP.min (stats_of fives_and_100)) (DP.q1 (stats_of fives_and_100))
  /\ fle (DP.q1 (stats_of fives_and_100)) (DP.median (stats_of fives_and_100))
  /\ fle (DP.median (stats_of fives_and_100)) (DP.q3 (stats_of fives_and_100))
  /\ fle (DP.q3 (stats_of fives_and_100)) (DP.max (stats_of fives_and_100)).
Proof.
  apply (statistics_are_ordered fives_and_100 (stats_of fives_and_100)).
  - reflexivity.
  - apply Nat.ltb_lt. reflexivity.
  - intros x Hx. simpl in Hx.
    repeat (destruct Hx as [Hx|Hx]; [injection Hx as <-; vm_compute; discriminate|]).
    contradiction.
Defined.

(** ** The suggested range *)

Lemma Rstd_nonneg ddof l : (0 <= Rstd ddof l)%R.
Proof. unfold Rstd. apply sqrt_pos. Qed.

Lemma three_bounds :
  DP.suggested_min three_stats = Some (-4)%R
  /\ DP.suggested_max three_stats = Some 8%R.
Proof.
  assert (Hstd : pd.std three_values = Some 2%R).
  { rewrite std_eq. change (pd.count three_values <=? 1)%nat with false.
    cbv iota. now rewrite three_reals, three_sample_std. }
  split.
  - cbn [DP.suggested_min three_stats]. rewrite Hstd.
    unfold rmul, rsub, rlift2. f_equal. unfold Q2R. simpl. Lra.lra.
  - cbn [DP.suggested_max three_stats]. rewrite Hstd.
    unfold rmul, radd, rlift2. f_equal. unfold Q2R. simpl. Lra.lra.
Qed.

(** X8: whenever the two suggested bounds are numbers, the mean is a number
    between them: suggested_min <= mean <= suggested_max.  The value_range
    rule carries these two bounds. *)
Theorem suggested_range_holds_the_mean values stats :
  DP.numeric_stats values = Py.Ok stats ->
  (forall lo hi : R,
      DP.suggested_min stats = Some lo ->
      DP.suggested_max stats = Some hi ->
      exists m : R, to_real (DP.mean stats) = Some m /\ (lo <= m <= hi)%R)
  /\ forall column,
       DP.bounds (DP.value_range_rule column stats)
       = Some (DP.suggested_min stats, DP.suggested_max stats).
Proof.
  rewrite numeric_stats_eq. destruct values as [|c0 values']; [discriminate|].
  remember (c0 :: values') as values eqn:Ev. clear Ev c0 values'.
  intros H. injection H as <-. split; [|reflexivity].
  cbn [stats_of DP.suggested_min DP.suggested_max DP.mean].
  rewrite to_real_mean, std_eq. intros lo hi.
  unfold rsub, radd, rmul, rlift2.
  destruct (pd.dropna values) as [|x v]; [discriminate|].
  destruct (pd.count values <=? 1)%nat; [discriminate|].
  set (xs := map Q2R (x :: v)).
  pose proof (Rstd_nonneg 1 xs) as Hs.
  intros Hlo Hhi. injection Hlo as <-. injection Hhi as <-.
  exists (Rmean xs). split; [reflexivity|]. Lra.lra.
Qed.

Lemma suggested_range_holds_the_mean_witness :
  exists m : R,
    to_real (DP.mean three_stats) = Some m /\ (-4 <= m <= 8)%R.
Proof.
  apply (proj1 (suggested_range_holds_the_mean three_values three_stats
                  eq_refl) (-4)%R 8%R).
  - apply three_bounds.
  - apply three_bounds.
Defined.

(** ** The fences *)

Lemma filter_length_count (f : option Q -> bool) l :
  f None = false -> (List.length (filter f l) <= pd.count l)%nat.
Proof.
  intros Hf. unfold pd.count.
  induction l as [|[x|] l IH]; simpl.
  - lia.
  - destruct (f (Some x)); simpl; lia.
  - now rewrite Hf.
Qed.

Lemma outliers_le_count values :
  (List.length (outliers values) <= pd.count values)%nat.
Proof.
  unfold outliers. apply filter_length_count.
  unfold DP.is_outlier, pd.gt_scalar, pd.lt_scalar.
  now destruct (upper_fence values).
Qed.

Lemma count_le_length {A} (l : list (option A)) :
  (pd.count l <= List.length l)%nat.
Proof. pose proof (isnull_sum_count l). lia. Qed.

Lemma percentage_bounds k n :
  (k <= n)%nat -> (0 < n)%nat ->
  fle (Some 0%Q) (fmul (np_truediv k n) (Some 100%Q))
  /\ fle (fmul (np_truediv k n) (Some 100%Q)) (Some 100%Q).
Proof.
  intros Hk Hn. destruct n as [|n]; [lia|].
  unfold np_truediv, fmul, flift2, fle. rewrite !Qred_correct.
  assert (Hpos : (0 < pd.of_nat (S n))%Q) by (apply of_nat_pos; lia).
  assert (H0 : (0 <= pd.of_nat k / pd.of_nat (S n))%Q).
  { apply Qle_shift_div_l; [assumption|].
    pose proof (of_nat_nonneg k). Lqa.lra. }
  assert (H1 : (pd.of_nat k / pd.of_nat (S n) <= 1)%Q).
  { apply Qle_shift_div_r; [assumption|].
    unfold pd.of_nat. rewrite Qmult_1_l, <- Zle_Qle. lia. }
  set (q := (pd.of_nat k / pd.of_nat (S n))%Q) in *.
  split; Lqa.lra.
Qed.

(** X9: the fences enclose the quartiles, so that a cell between q1 and q3
    is never an outlier; the outliers are non-null cells, and the outlier
    percentage lies between 0 and 100. *)
Theorem fences_enclose_the_quartiles values stats :
  DP.numeric_stats values = Py.Ok stats ->
  (DP.outlier_count stats <= pd.count values)%nat
  /\ fle (Some 0%Q) (DP.outlier_percentage stats)
  /\ fle (DP.outlier_percentage stats) (Some 100%Q)
  /\ ((0 < pd.count values)%nat ->
      fle (lower_fence values) (DP.q1 stats)
      /\ fle (DP.q1 stats) (DP.q3 stats)
      /\ fle (DP.q3 stats) (upper_fence values)
      /\ forall x, fle (DP.q1 stats) (Some x) -> fle (Some x) (DP.q3 stats) ->
                   ~ In (Some x) (outliers values)).
Proof.
  rewrite numeric_stats_eq. destruct values as [|c0 values']; [discriminate|].
  remember (c0 :: values') as values eqn:Ev.
  assert (Hlen : (0 < List.length values)%nat) by (subst; simpl; lia).
  clear Ev c0 values'. intros H. injection H as <-.
  cbn [stats_of DP.outlier_count DP.outlier_percentage DP.q1 DP.q3].
  pose proof (outliers_le_count values) as Hout.
  pose proof (count_le_length values) as Hcl.
  split; [assumption|].
  destruct (percentage_bounds (List.length (outliers values))
              (List.length values)) as [Hp0 Hp1]; [lia|lia|].
  split; [assumption|]. split; [assumption|].
  intros Hn.
  assert (Hq : fle (pd.quantile (1 # 4) values) (pd.quantile (3 # 4) values))
    by (apply quantile_mono; auto; Lqa.lra).
  unfold outliers, lower_fence, upper_fence.
  destruct (pd.quantile (1 # 4) values) as [a|]; [|contradiction].
  destruct (pd.quantile (3 # 4) values) as [b|]; [|contradiction].
  unfold fle in Hq. unfold fsub, fadd, fmul, flift2, fle.
  rewrite !Qred_correct.
  split; [Lqa.lra|]. split; [assumption|]. split; [Lqa.lra|].
  intros x Hax Hxb Hin. apply filter_In in Hin as [_ Hin].
  apply is_outlier_iff in Hin as [y [Hy [Hlt|Hgt]]]; injection Hy as <-;
    Lqa.lra.
Qed.

Lemma fences_enclose_the_quartiles_witness :
  (DP.outlier_count (stats_of fives_and_100) <= pd.count fives_and_100)%nat
  /\ fle (Some 0%Q) (DP.outlier_percentage (stats_of fives_and_100))
  /\ fle (DP.outlier_percentage (stats_of fives_and_100)) (Some 100%Q)
  /\ ((0 < pd.count fives_and_100)%nat ->
      fle (lower_fence fives_and_100) (DP.q1 (stats_of fives_and_100))
      /\ fle (DP.q1 (stats_of fives_and_100)) (DP.q3 (stats_of fives_and_100))
      /\ fle (DP.q3 (stats_of fives_and_100)) (upper_fence fives_and_100)
      /\ forall x,
           fle (DP.q1 (stats_of fives_and_100)) (Some x) ->
           fle (Some x) (DP.q3 (stats_of fives_and_100)) ->
           ~ In (Some x) (outliers fives_and_100)).
Proof.
  apply (fences_enclose_the_quartiles fives_and_100 (stats_of fives_and_100)).
  reflexivity.
Defined.

(** ** The counts of an entry *)

Section CountFacts.
Context {A : Type} (eqb : A -> A -> bool).

Lemma unique_length (l : list A) :
  (List.length (pd.unique eqb l) <= List.length l)%nat.
Proof.
  induction l as [|x l IH]; simpl; [lia|].
  pose proof (filter_length_le (fun y => negb (eqb x y)) (pd.unique eqb l)).
  lia.
Qed.

Lemma nunique_le_count (cells : list (option A)) :
  (pd.nunique eqb cells <= pd.count cells)%nat.
Proof. apply unique_length. Qed.

Lemma nunique_zero (cells : list (option A)) :
  pd.nunique eqb cells = 0%nat <-> pd.count cells = 0%nat.
Proof.
  unfold pd.nunique, pd.count. destruct (pd.dropna cells); simpl; split;
    auto; discriminate.
Qed.

Lemma common_counts (inj : A -> DP.Value) dt cells b :
  let p := DP.common eqb inj dt cells b in
  (DP.null_count p + pd.count cells = List.length cells)%nat
  /\ (DP.unique_count p <= pd.count cells)%nat
  /\ (DP.unique_count p = 0%nat <-> pd.count cells = 0%nat)
  /\ List.length (DP.sample_values p) = Nat.min 5 (pd.count cells).
Proof.
  cbv zeta. unfold DP.common, pd.head.
  cbn [DP.null_count DP.unique_count DP.sample_values].
  split; [apply isnull_sum_count|].
  split; [apply nunique_le_count|].
  split; [apply nunique_zero|].
  rewrite length_map, length_firstn. reflexivity.
Qed.
End CountFacts.

(** X10: in the entry of any column, the unique count is at most the
    number of non-null cells and is zero only when all cells are null; the
    sample holds five values, or all the non-null ones when there are
    fewer; and in a column with a row the null percentage lies between 0
    and 100. *)
Theorem entry_counts_are_bounded s p :
  DP.profile_series s = Py.Ok p ->
  (DP.null_count p <= pd.len s)%nat
  /\ (DP.unique_count p <= non_null_cells s)%nat
  /\ (DP.unique_count p = 0%nat <-> non_null_cells s = 0%nat)
  /\ List.length (DP.sample_values p) = Nat.min 5 (non_null_cells s)
  /\ ((0 < pd.len s)%nat ->
      fle (Some 0%Q) (DP.null_percentage p)
      /\ fle (DP.null_percentage p) (Some 100%Q)).
Proof.
  intros Hp.
  destruct (profile_series_common s p Hp) as [_ [Hn Hpct]].
  pose proof (null_cells_count s) as Hc.
  assert (Hrest : (DP.unique_count p <= non_null_cells s)%nat
                  /\ (DP.unique_count p = 0%nat <-> non_null_cells s = 0%nat)
                  /\ List.length (DP.sample_values p)
                     = Nat.min 5 (non_null_cells s)).
  { destruct s as [dt values|values|values]; simpl in Hp |- *.
    - destruct (DP.numeric_stats values); [|discriminate].
      injection Hp as <-. apply common_counts.
    - injection Hp as <-. apply common_counts.
    - injection Hp as <-. apply common_counts. }
  destruct Hrest as [H1 [H2 H3]].
  split; [lia|]. split; [assumption|]. split; [assumption|].
  split; [assumption|].
  intros Hlen. rewrite Hpct. apply percentage_bounds; lia.
Qed.

Lemma entry_counts_are_bounded_witness :
  (DP.null_count (object_profile vendors_201) <= pd.len (pd.Object vendors_201))%nat
  /\ (DP.unique_count (object_profile vendors_201)
      <= non_null_cells (pd.Object vendors_201))%nat
  /\ (DP.unique_count (object_profile vendors_201) = 0%nat
      <-> non_null_cells (pd.Object vendors_201) = 0%nat)
  /\ List.length (DP.sample_values (object_profile vendors_201))
     = Nat.min 5 (non_null_cells (pd.Object vendors_201))
  /\ ((0 < pd.len (pd.Object vendors_201))%nat ->
      fle (Some 0%Q) (DP.null_percentage (object_profile vendors_201))
      /\ fle (DP.null_percentage (object_profile vendors_201)) (Some 100%Q)).
Proof.
  apply (entry_counts_are_bounded (pd.Object vendors_201)
           (object_profile vendors_201)).
  reflexivity.
Defined.

(** ** The counts of the most common values *)

Lemma total_app (l1 l2 : Py.dict nat) : total (l1 ++ l2) = (total l1 + total l2)%nat.
Proof. unfold total. induction l1 as [|kv l1 IH]; simpl; lia. Qed.

Lemma total_perm (l1 l2 : Py.dict nat) :
  Permutation l1 l2 -> total l1 = total l2.
Proof.
  unfold total. induction 1; simpl; lia.
Qed.

Lemma total_filter_split (f : string -> nat) (g : string -> bool) l :
  total (map (fun y => (y, f y)) l)
  = (total (map (fun y => (y, f y)) (filter g l))
     + total (map (fun y => (y, f y)) (filter (fun y => negb (g y)) l)))%nat.
Proof.
  unfold total. induction l as [|y l IH]; simpl; [reflexivity|].
  destruct (g y); simpl; lia.
Qed.

Lemma occurrences_absent x l :
  ~ In x l -> pd.occurrences String.eqb x l = 0%nat.
Proof.
  intros H. rewrite occurrences_count_occ. now apply count_occ_not_In.
Qed.

(** Of distinct values, those equal to [x] are [x] alone, or none. *)
Lemma filter_eq_NoDup x u :
  NoDup u ->
  filter (String.eqb x) u = if in_dec string_dec x u then [x] else [].
Proof.
  induction 1 as [|y u Hy Hu IH]; simpl; [reflexivity|].
  destruct (String.eqb x y) eqn:E.
  - apply String.eqb_eq in E. subst y.
    destruct (string_dec x x) as [Heq|Hn]; [|contradiction].
    rewrite IH. destruct (in_dec string_dec x u); [contradiction|reflexivity].
  - apply String.eqb_neq in E. rewrite IH.
    destruct (string_dec y x) as [Heq|Hn]; [congruence|].
    destruct (in_dec string_dec x u); reflexivity.
Qed.

(** The counts of the distinct values add up to the number of values. *)
Lemma total_occurrences l :
  total (map (fun y => (y, pd.occurrences String.eqb y l))
             (pd.unique String.eqb l))
  = List.length l.
Proof.
  induction l as [|x l IH]; [reflexivity|].
  simpl pd.unique. simpl map. unfold total at 1. simpl fold_right.
  fold (total (map (fun y => (y, pd.occurrences String.eqb y (x :: l)))
                   (filter (fun y => negb (String.eqb x y))
                           (pd.unique String.eqb l)))).
  assert (Hx : pd.occurrences String.eqb x (x :: l)
               = S (pd.occurrences String.eqb x l)).
  { unfold pd.occurrences. simpl. now rewrite String.eqb_refl. }
  assert (Hrest :
    map (fun y => (y, pd.occurrences String.eqb y (x :: l)))
        (filter (fun y => negb (String.eqb x y)) (pd.unique String.eqb l))
    = map (fun y => (y, pd.occurrences String.eqb y l))
          (filter (fun y => negb (String.eqb x y)) (pd.unique String.eqb l))).
  { apply map_ext_in. intros y Hy. apply filter_In in Hy as [_ Hy].
    apply negb_true_iff in Hy. unfold pd.occurrences. simpl.
    rewrite String.eqb_sym in Hy. now rewrite Hy. }
  rewrite Hx, Hrest.
  rewrite (total_filter_split (fun y => pd.occurrences String.eqb y l)
             (String.eqb x) (pd.unique String.eqb l)) in IH.
  rewrite (filter_eq_NoDup x _ (unique_NoDup l)) in IH.
  destruct (in_dec string_dec x (pd.unique String.eqb l)) as [Hin|Hnot].
  - unfold total at 1 in IH. simpl in IH. simpl List.length. lia.
  - rewrite unique_In in Hnot.
    rewrite (occurrences_absent x l Hnot).
    unfold total at 1 in IH. simpl in IH. simpl List.length. lia.
Qed.

Lemma value_counts_total cells :
  total (pd.value_counts String.eqb cells) = pd.count cells.
Proof.
  unfold pd.value_counts, pd.count.
  rewrite (total_perm _ _ (sort_desc_perm _)). apply total_occurrences.
Qed.

Lemma value_counts_length cells :
  List.length (pd.value_counts String.eqb cells) = pd.nunique String.eqb cells.
Proof.
  unfold pd.value_counts, pd.nunique.
  rewrite (Permutation_length (sort_desc_perm _)). apply length_map.
Qed.

(** X11: the most common values of a text column are five entries, or as
    many as the column has distinct values when these are fewer; each count
    is at least 1; the counts add up to at most the number of non-null
    cells, and to exactly that number when the column has at most five
    distinct values. *)
Theorem most_common_counts cells p :
  DP.profile_series (pd.Object cells) = Py.Ok p ->
  exists most_common,
    DP.block p = DP.categorical most_common
    /\ List.length most_common = Nat.min 5 (DP.unique_count p)
    /\ Forall (fun kv => (1 <= snd kv)%nat) most_common
    /\ (total most_common <= pd.count cells)%nat
    /\ ((DP.unique_count p <= 5)%nat -> total most_common = pd.count cells).
Proof.
  simpl. intros H. injection H as <-.
  exists (pd.head 5 (pd.value_counts String.eqb cells)).
  unfold DP.common. cbn [DP.block DP.unique_count]. unfold pd.head.
  split; [reflexivity|].
  split; [now rewrite length_firstn, value_counts_length|].
  split; [|split].
  - apply Forall_forall. intros [x n] Hin.
    assert (Hin' : In (x, n) (pd.value_counts String.eqb cells)).
    { rewrite <- (firstn_skipn 5 (pd.value_counts String.eqb cells)).
      apply in_or_app. now left. }
    apply value_counts_In in Hin' as [Hin' ->]. simpl.
    rename Hin' into Hx. clear Hin. rename Hx into Hin.
    apply (count_occ_In string_dec) in Hin. lia.
  - rewrite <- value_counts_total.
    rewrite <- (firstn_skipn 5 (pd.value_counts String.eqb cells)) at 2.
    rewrite total_app. lia.
  - intros Hle. rewrite <- value_counts_total.
    rewrite firstn_all2; [reflexivity|]. now rewrite value_counts_length.
Qed.

Lemma most_common_counts_witness :
  exists most_common,
    DP.block (object_profile letters) = DP.categorical most_common
    /\ List.length most_common = Nat.min 5 (DP.unique_count (object_profile letters))
    /\ Forall (fun kv => (1 <= snd kv)%nat) most_common
    /\ (total most_common <= pd.count letters)%nat
    /\ ((DP.unique_count (object_profile letters) <= 5)%nat ->
        total most_common = pd.count letters).
Proof.
  apply (most_common_counts letters (object_profile letters)).
  reflexivity.
Defined.

(** ** Columns whose values are all the same *)

Lemma In_dropna {A} (l : list (option A)) y : In (Some y) l <-> In y (pd.dropna l).
Proof.
  induction l as [|[x|] l IH]; simpl.
  - tauto.
  - rewrite <- IH. split; intros [H|H]; auto; left; congruence.
  - rewrite <- IH. split; [intros [H|H]; [discriminate|assumption]|auto].
Qed.

Lemma Qmin_same x : Qmin x x = x.
Proof. unfold Qmin, GenericMinMax.gmin. now destruct (x ?= x)%Q. Qed.

Lemma Qmax_same x : Qmax x x = x.
Proof. unfold Qmax, GenericMinMax.gmax. now destruct (x ?= x)%Q. Qed.

Lemma fold_min_repeat x n : fold_left Qmin (repeat x n) x = x.
Proof. induction n as [|n IH]; simpl; [reflexivity|]. now rewrite Qmin_same. Qed.

Lemma fold_max_repeat x n : fold_left Qmax (repeat x n) x = x.
Proof. induction n as [|n IH]; simpl; [reflexivity|]. now rewrite Qmax_same. Qed.

Lemma sort_repeat x n : pd.sort (repeat x n) = repeat x n.
Proof.
  induction n as [|n IH]; simpl; [reflexivity|].
  rewrite IH. destruct n as [|n]; simpl; [reflexivity|].
  replace (Qle_bool x x) with true; [reflexivity|].
  symmetry. apply Qle_bool_iff, Qle_refl.
Qed.

Lemma nth_repeat_below x n i : (i < n)%nat -> nth i (repeat x n) 0%Q = x.
Proof.
  revert i. induction n as [|n IH]; intros i Hi; [lia|].
  destruct i as [|i]; simpl; [reflexivity|]. apply IH. lia.
Qed.

Lemma interpolate_repeat x n1 pos :
  (0 <= pos)%Q -> (pos <= pd.of_nat n1)%Q ->
  (interpolate (repeat x (S n1)) n1 pos == x)%Q.
Proof.
  intros H0 H1. unfold interpolate. cbv zeta.
  pose proof (floor_index pos n1 H0 H1) as Hlo.
  rewrite !nth_repeat_below by lia. ring.
Qed.

Lemma quantile_repeat q values x n1 :
  (0 <= q)%Q -> (q <= 1)%Q ->
  pd.dropna values = repeat x (S n1) ->
  pd.quantile q values = Some (Qred x).
Proof.
  intros H0 H1 Hd. rewrite quantile_eq, Hd, repeat_length, sort_repeat.
  f_equal. apply Qred_complete.
  destruct (position_bounds q n1 H0 H1). now apply interpolate_repeat.
Qed.

Lemma sum_repeat x n : (pd.sum (repeat x n) == pd.of_nat n * x)%Q.
Proof.
  unfold pd.sum. apply Qle_antisym.
  - pose proof (fold_sum_le x (repeat x n) 0) as H.
    rewrite repeat_length in H. rewrite Qplus_0_l in H. apply H.
    intros y Hy. apply repeat_spec in Hy. subst. apply Qle_refl.
  - pose proof (fold_sum_ge x (repeat x n) 0) as H.
    rewrite repeat_length in H. rewrite Qplus_0_l in H. apply H.
    intros y Hy. apply repeat_spec in Hy. subst. apply Qle_refl.
Qed.

Lemma mean_repeat values x n1 :
  pd.dropna values = repeat x (S n1) -> pd.mean values = Some (Qred x).
Proof.
  intros Hd. rewrite mean_eq, Hd. cbn [repeat]. cbv zeta.
  change (x :: repeat x n1) with (repeat x (S n1)).
  f_equal. apply Qred_complete.
  rewrite sum_repeat, repeat_length. field. apply of_nat_neq_0. lia.
Qed.

Lemma filter_all_false {A} (f : A -> bool) l :
  (forall c, In c l -> f c = false) -> filter f l = [].
Proof.
  induction l as [|c l IH]; intros H; simpl; [reflexivity|].
  rewrite (H c) by now left. apply IH. intros c' Hc'. apply H. now right.
Qed.

Lemma outliers_repeat values x n1 :
  pd.dropna values = repeat x (S n1) -> outliers values = [].
Proof.
  intros Hd. unfold outliers, lower_fence, upper_fence.
  rewrite (quantile_repeat (1 # 4) values x n1), (quantile_repeat (3 # 4) values x n1);
    auto; try Lqa.lra.
  assert (H : forall c, In c values ->
                DP.is_outlier
                  (fsub (Some (Qred x))
                        (fmul (Some (3 # 2)) (fsub (Some (Qred x)) (Some (Qred x)))))
                  (fadd (Some (Qred x))
                        (fmul (Some (3 # 2)) (fsub (Some (Qred x)) (Some (Qred x)))))
                  c = false).
  { intros c Hc. apply not_true_iff_false. intros Ht.
    apply is_outlier_iff in Ht as [y [-> Hy]].
    apply In_dropna in Hc. rewrite Hd in Hc. apply repeat_spec in Hc. subst y.
    unfold strictly_outside in Hy. rewrite !Qred_correct in Hy.
    destruct Hy; Lqa.lra. }
  now apply filter_all_false.
Qed.

(** X12: when all the non-null cells of a numeric column hold the same
    number, the minimum, the maximum and the two quartiles are that number,
    and no cell is an outlier.  With a single such cell the mean and the
    median are that number as well, and the standard deviation and the two
    suggested bounds are NaN. *)
Theorem statistics_of_a_constant_column values x n stats :
  pd.dropna values = repeat x (S n) ->
  DP.numeric_stats values = Py.Ok stats ->
  DP.min stats = Some (Qred x) /\ DP.max stats = Some (Qred x)
  /\ DP.q1 stats = Some (Qred x) /\ DP.q3 stats = Some (Qred x)
  /\ DP.outlier_count stats = 0%nat
  /\ DP.outlier_percentage stats = Some 0%Q
  /\ (n = 0%nat ->
      DP.mean stats = Some (Qred x) /\ DP.median stats = Some (Qred x)
      /\ DP.std stats = NaN
      /\ DP.suggested_min stats = NaN /\ DP.suggested_max stats = NaN).
Proof.
  intros Hd. rewrite numeric_stats_eq.
  destruct values as [|c0 values']; [discriminate|].
  remember (c0 :: values') as values eqn:Ev.
  assert (Hlen : exists k, List.length values = S k)
    by (subst values; simpl; eauto).
  clear Ev c0 values'. intros H. injection H as <-.
  cbn [stats_of DP.min DP.max DP.mean DP.median DP.q1 DP.q3 DP.std
       DP.outlier_count DP.outlier_percentage DP.suggested_min
       DP.suggested_max].
  unfold pd.median.
  rewrite !(quantile_repeat _ values x n) by (auto; Lqa.lra).
  rewrite (mean_repeat values x n Hd), (outliers_repeat values x n Hd).
  unfold pd.min, pd.max. rewrite Hd. cbn [repeat].
  rewrite fold_min_repeat, fold_max_repeat.
  repeat (split; [reflexivity|]).
  split.
  - destruct Hlen as [k ->]. apply percentage_none. lia.
  - intros ->. unfold pd.std, pd.var. rewrite Hd. repeat split.
Qed.

Lemma statistics_of_a_constant_column_witness :
  DP.min (stats_of [None; Some 5%Q]) = Some 5%Q
  /\ DP.max (stats_of [None; Some 5%Q]) = Some 5%Q
  /\ DP.q1 (stats_of [None; Some 5%Q]) = Some 5%Q
  /\ DP.q3 (stats_of [None; Some 5%Q]) = Some 5%Q
  /\ DP.outlier_count (stats_of [None; Some 5%Q]) = 0%nat
  /\ DP.outlier_percentage (stats_of [None; Some 5%Q]) = Some 0%Q
  /\ DP.mean (stats_of [None; Some 5%Q]) = Some 5%Q
  /\ DP.median (stats_of [None; Some 5%Q]) = Some 5%Q
  /\ DP.std (stats_of [None; Some 5%Q]) = NaN
  /\ DP.suggested_min (stats_of [None; Some 5%Q]) = NaN
  /\ DP.suggested_max (stats_of [None; Some 5%Q]) = NaN.
Proof.
  destruct (statistics_of_a_constant_column
              [None; Some 5%Q] 5%Q 0 (stats_of [None; Some 5%Q])
              eq_refl eq_refl)
    as [H1 [H2 [H3 [H4 [H5 [H6 H7]]]]]].
  destruct (H7 eq_refl) as [H8 [H9 [H10 [H11 H12]]]].
  repeat split; assumption.
Defined.

(** X13: when the two quartiles are the same number, the outliers are
    exactly the non-null cells that differ from it. *)
Theorem equal_quartiles_flag_every_other_value values stats c :
  DP.numeric_stats values = Py.Ok stats ->
  DP.q1 stats = Some c ->
  DP.q3 stats = Some c ->
  forall cell,
    In cell (outliers values)
    <-> In cell values /\ exists x, cell = Some x /\ ~ (x == c)%Q.
Proof.
  rewrite numeric_stats_eq. destruct values as [|c0 values']; [discriminate|].
  remember (c0 :: values') as values eqn:Ev. clear Ev c0 values'.
  intros H. injection H as <-. cbn [stats_of DP.q1 DP.q3].
  intros H1 H3 cell. unfold outliers, lower_fence, upper_fence.
  rewrite H1, H3, filter_In, is_outlier_iff. unfold strictly_outside.
  split; intros [Hin [x [-> Hx]]]; (split; [assumption|]); exists x;
    (split; [reflexivity|]).
  - intros Heq. rewrite Heq in Hx. destruct Hx; Lqa.lra.
  - destruct (Qlt_le_dec x c) as [Hlt|Hle]; [left; Lqa.lra|].
    right. destruct (Qle_lt_or_eq _ _ Hle) as [Hlt|Heq]; [Lqa.lra|].
    exfalso. apply Hx. now symmetry.
Qed.

Lemma equal_quartiles_flag_every_other_value_witness :
  In (Some 100%Q) (outliers fives_and_100)
  <-> In (Some 100%Q) fives_and_100
      /\ exists x, Some 100%Q = Some x /\ ~ (x == 5)%Q.
Proof.
  apply (equal_quartiles_flag_every_other_value fives_and_100
           (stats_of fives_and_100) 5%Q); reflexivity.
Defined.

(** ** The printed rules *)

Lemma set_Forall {V} (P : string * V -> Prop) d k v :
  Forall P d -> P (k, v) -> Forall P (Py.set d k v).
Proof.
  induction 1 as [|[k0 v0] d H0 Hd IH]; intros Hkv; simpl.
  - now constructor.
  - destruct (String.eqb k0 k) eqn:E.
    + apply String.eqb_eq in E. subst k0. now constructor.
    + constructor; auto.
Qed.

(** What holds of the non-empty lists of rules of the columns holds of the
    entries of the dictionary that is returned. *)
Lemma rules_loop_Forall (P : string * list DP.Rule -> Prop) self items :
  (forall c p rs, fst (DP.column_rules c p self) = Py.Ok rs ->
                  rs <> [] -> P (c, rs)) ->
  forall rules r self',
    Forall P rules ->
    DP.rules_loop items rules self = (Py.Ok r, self') ->
    Forall P r.
Proof.
  intros HP. induction items as [|[c p] items IH]; intros rules r self' Hacc H.
  - simpl in H. now injection H as <- _.
  - rewrite rules_loop_cons in H.
    destruct (fst (DP.column_rules c p self)) as [rs|e] eqn:E; [|discriminate].
    apply IH in H; [assumption|].
    destruct rs as [|r0 rs]; simpl; [assumption|].
    apply set_Forall; [assumption|]. apply (HP c p); [assumption|discriminate].
Qed.

Lemma rule_line_tag r :
  (DP.severity r <> None <-> DP.rule r = DP.warn_zeros) ->
  (DP.severity r = None \/ DP.severity r = Some DP.warning) ->
  Printed.rule_line r = ("  [" ++ tag r ++ "] " ++ DP.description r)%string.
Proof.
  unfold Printed.rule_line, tag, DP.get_severity. intros Hiff Hsev.
  destruct Hsev as [Hs|Hs]; rewrite Hs in *.
  - destruct (DP.rule r); try reflexivity.
    exfalso. now apply (proj2 Hiff).
  - rewrite (proj1 Hiff) by discriminate. reflexivity.
Qed.

Lemma rules_of_severity c p z :
  Forall (fun r => DP.severity r = None \/ DP.severity r = Some DP.warning)
         (rules_of c p z).
Proof.
  unfold rules_of. apply Forall_app. split.
  - destruct (flt _ _); constructor; [now left|constructor].
  - destruct (DP.block p) as [st|a b|mc]; [|constructor|constructor].
    constructor; [now left|].
    destruct (0 <? z)%nat; constructor; [now right|constructor].
Qed.

(** X14: in what suggest_quality_rules prints, every column of the rules
    has its header followed by at least one line, one for each of its
    rules; the line reads [WARNING] for a warn_zeros rule and [ERROR] for
    any other, followed by the description of the rule. *)
Theorem printed_rules_are_tagged self rules :
  fst (DP.suggest_quality_rules self) = Py.Ok rules ->
  Forall (fun kv => snd kv <> []) rules
  /\ Printed.rules_report rules
     = flat_map
         (fun kv =>
            (Printed.newline ++ fst kv ++ ":")%string
              :: map (fun r => ("  [" ++ tag r ++ "] " ++ DP.description r)%string)
                     (snd kv))
         rules.
Proof.
  intros H. rewrite suggest_quality_rules_eq in H.
  destruct (DP.rules_loop (DP.profile self) [] self) as [res self'] eqn:E.
  simpl in H. subst res.
  assert (HP : Forall (fun kv => snd kv <> []
                        /\ map Printed.rule_line (snd kv)
                           = map (fun r => ("  [" ++ tag r ++ "] "
                                              ++ DP.description r)%string)
                                 (snd kv)) rules).
  { apply (rules_loop_Forall _ self (DP.profile self)) with (rules := [])
                                                           (self' := self');
      [|constructor|assumption].
    intros c p rs Hrs Hne. split; [assumption|].
    destruct (column_rules_of c p self rs Hrs) as [z ->].
    destruct (rules_of_shape c p z) as [_ [_ [_ [_ [Hsev _]]]]].
    pose proof (rules_of_severity c p z) as Hs.
    apply map_ext_in. intros r Hr. rewrite Forall_forall in Hsev, Hs.
    apply rule_line_tag; auto. }
  split.
  - eapply Forall_impl; [|exact HP]. now intros kv [Hne _].
  - unfold Printed.rules_report. clear E.
    induction HP as [|kv rules' [_ Hkv] _ IH]; [reflexivity|].
    cbn [flat_map]. rewrite IH. unfold Printed.column_lines.
    now rewrite Hkv.
Qed.

Lemma printed_rules_are_tagged_witness :
  Forall (fun kv => snd kv <> [])
         [("vendor"%string,
           [DP.not_null_rule "vendor" (object_profile vendors_201)])]
  /\ Printed.rules_report
       [("vendor"%string,
         [DP.not_null_rule "vendor" (object_profile vendors_201)])]
     = flat_map
         (fun kv =>
            (Printed.newline ++ fst kv ++ ":")%string
              :: map (fun r => ("  [" ++ tag r ++ "] " ++ DP.description r)%string)
                     (snd kv))
         [("vendor"%string,
           [DP.not_null_rule "vendor" (object_profile vendors_201)])].
Proof.
  apply (printed_rules_are_tagged
           {| DP.df := vendor_table vendors_201;
              DP.profile := [("vendor"%string, object_profile vendors_201)] |}).
  reflexivity.
Defined.

(** ** The two methods one after the other *)

Lemma rules_dict_nonempty items rss :
  Forall (fun kv => snd kv <> []) (rules_dict items rss).
Proof.
  unfold rules_dict. apply Forall_forall. intros [k rs] H.
  apply filter_In in H as [_ H]. unfold nonempty_entry in H. simpl in *.
  now destruct rs.
Qed.

(** X15: on a well-formed table whose columns are of dtype int64 or
    float64, of datetimes or of text, generate_profile followed by
    suggest_quality_rules raises only ZeroDivisionError, and exactly when
    the table has no row and has a numeric column: once the profile is
    built, the rules never fail on a missing column.  Otherwise the profile
    has the columns of the table as keys, and the rules are non-empty lists
    under names of columns. *)
Theorem run_raises_iff df rows :
  pd.well_formed df rows ->
  ((rows = 0%nat /\ Exists numeric_column df) ->
   run df = Py.Raise Py.ZeroDivisionError)
  /\ (~ (rows = 0%nat /\ Exists numeric_column df) ->
      exists profile rules,
        run df = Py.Ok (profile, rules)
        /\ Py.keys profile = pd.columns df
        /\ (forall c, In c (Py.keys rules) -> In c (pd.columns df))
        /\ Forall (fun kv => snd kv <> []) rules).
Proof.
  intros [Hnd Hlen].
  destruct (first_failure df)
    as [[prof Hprof]|[pre [c [s [post [prof [e [Hdf [Hpre He]]]]]]]]].
  - split.
    + intros [-> Hex]. exfalso.
      apply Exists_exists in Hex as [[c s] [Hin Hnum]].
      destruct (profiled_In_df df prof c s Hprof Hin) as [p [_ Hp]].
      rewrite Forall_forall in Hlen. specialize (Hlen _ Hin).
      unfold numeric_column in Hnum. simpl in *.
      destruct s as [dt values| |]; try discriminate.
      simpl in Hlen. apply length_zero_iff_nil in Hlen. subst values.
      discriminate.
    + intros _. destruct (run_ok df prof Hnd Hprof) as [rss [_ Hrun]].
      exists prof, (rules_dict prof rss). split; [assumption|].
      pose proof (profiled_keys df prof Hprof) as Hk.
      split; [assumption|]. split; [|apply rules_dict_nonempty].
      intros c Hc. rewrite <- Hk. now apply (rules_dict_keys_incl prof rss).
  - subst df. destruct (profile_series_raise s e He) as [-> [Hnum Hs]].
    split.
    + intros _. unfold run.
      now rewrite (generate_profile_raise pre c s post prof _ Hnd Hpre He).
    + intros Hno. exfalso. apply Hno. split.
      * rewrite Forall_forall in Hlen.
        specialize (Hlen (c, s) (in_elt _ _ _)). simpl in Hlen. congruence.
      * apply Exists_exists. exists (c, s). split; [apply in_elt|exact Hnum].
Qed.

Lemma run_raises_iff_witness :
  ((0%nat = 0%nat /\ Exists numeric_column no_rows) ->
   run no_rows = Py.Raise Py.ZeroDivisionError)
  /\ (~ (0%nat = 0%nat /\ Exists numeric_column no_rows) ->
      exists profile rules,
        run no_rows = Py.Ok (profile, rules)
        /\ Py.keys profile = pd.columns no_rows
        /\ (forall c, In c (Py.keys rules) -> In c (pd.columns no_rows))
        /\ Forall (fun kv => snd kv <> []) rules).
Proof.
  apply (run_raises_iff no_rows 0).
  split.
  - repeat constructor; simpl; intuition discriminate.
  - repeat constructor.
Defined.

Lemma generate_profile_only_adds_witness :
  [("zone"%string, object_profile []);
   ("pickup"%string,
    DP.common Z.eqb DP.VTime "datetime64[ns]" [] (DP.datetime pd.NaT pd.NaT))]
  = DP.profile (snd (DP.generate_profile (DP.__init__ no_rows_no_numbers))).
Proof.
  apply (proj2 (proj2 (generate_profile_only_adds
                         (DP.__init__ no_rows_no_numbers)))).
  reflexivity.
Defined.
